(** * Pace calculator: a shallow embedding of [pacecalc.py]

    The development follows the layout of the source.  [PyStr] holds the
    [str] methods the calculator calls, [PyFloat] the construction of a
    binary64 [float] from text, [PyNum] the arithmetic the calculator uses
    ([/], [divmod], [int], integer formatting), and [PaceCalculator] the
    methods of the class of the same name.  Exceptions are values of the
    type [exn]; a method that can raise returns a [result].  [SpecWords]
    holds the one definition taken from the specification instead of the
    program, and [Vocabulary] the predicates the statements use; the
    properties follow. *)

From Stdlib Require Import ZArith List String Ascii Bool Lia Floats DecimalString.
Import ListNotations.

#[local] Set Warnings "-inexact-float".
Local Open Scope string_scope.

(** ** Exceptions and the error monad *)

(** The three messages a [ValueError] carries in this program. *)
Inductive value_error : Type :=
| ExactlyTwo                       (* "Exactly two of distance, time, and pace must be provided" *)
| CouldNotConvert (s : string)     (* float(s) rejected the text s *)
| CannotConvertNaN.                (* int(nan) *)

(** [InputError] is the class defined by the program; the others are
    built-in exception classes raised by the operations it calls. *)
Inductive exn : Type :=
| InputError (unit input_type : string)
| ValueError (e : value_error)
| ZeroDivisionError
| OverflowError.

Inductive result (A : Type) : Type :=
| Ok (a : A)
| Err (e : exn).

Arguments Ok {A} a.
Arguments Err {A} e.

Definition bind {A B : Type} (r : result A) (k : A -> result B) : result B :=
  match r with
  | Ok a => k a
  | Err e => Err e
  end.

Notation "x <- r ;; k" := (bind r (fun x => k))
  (at level 61, r at next level, right associativity).
Notation "' p <- r ;; k" := (bind r (fun p => k))
  (at level 61, p pattern, r at next level, right associativity).

(** [try: r except ValueError: raise e]. *)
Definition except_ValueError {A : Type} (r : result A) (e : exn) : result A :=
  match r with
  | Err (ValueError _) => Err e
  | _ => r
  end.

(** ** The [str] methods used by the calculator

    Strings are byte strings; the model covers ASCII text, on which
    [lower], [strip] and [split] act as below.  Beyond ASCII the program
    knows more blanks, capitals and digits than these definitions (a
    no-break space, a Kelvin sign, a full-width digit), so a statement
    about a text is a statement about an ASCII text. *)
Module PyStr.

Definition code (c : ascii) : N := N_of_ascii c.

Definition in_range (lo hi : N) (c : ascii) : bool :=
  (lo <=? code c)%N && (code c <=? hi)%N.

Definition is_digit (c : ascii) : bool := in_range 48 57 c.

(** [str.isspace] on ASCII: tab to carriage return, the four separators
    0x1c-0x1f, and the space. *)
Definition isspace (c : ascii) : bool :=
  in_range 9 13 c || in_range 28 32 c.

Definition lower_char (c : ascii) : ascii :=
  if in_range 65 90 c then ascii_of_N (code c + 32) else c.

Fixpoint lower (s : string) : string :=
  match s with
  | EmptyString => EmptyString
  | String c r => String (lower_char c) (lower r)
  end.

Fixpoint lstrip (s : string) : string :=
  match s with
  | EmptyString => EmptyString
  | String c r => if isspace c then lstrip r else s
  end.

Fixpoint rstrip (s : string) : string :=
  match s with
  | EmptyString => EmptyString
  | String c r =>
      let r' := rstrip r in
      if isspace c && (r' =? "") then EmptyString else String c r'
  end.

Definition strip (s : string) : string := rstrip (lstrip s).

(** [c in s] for a one-character [c]. *)
Fixpoint contains (c : ascii) (s : string) : bool :=
  match s with
  | EmptyString => false
  | String d r => (d =? c)%char || contains c r
  end.

(** [s.endswith(suffix)]. *)
Fixpoint endswith (s suffix : string) : bool :=
  (s =? suffix) ||
  match s with
  | EmptyString => false
  | String _ r => endswith r suffix
  end.

(** [s.removesuffix(suffix)]: [s] itself when [suffix] is not at its end. *)
Fixpoint removesuffix (s suffix : string) : string :=
  if s =? suffix then EmptyString
  else match s with
       | EmptyString => EmptyString
       | String c r => String c (removesuffix r suffix)
       end.

(** [s.split(sep)] for a one-character separator. *)
Fixpoint split (sep : ascii) (s : string) : list string :=
  match s with
  | EmptyString => [EmptyString]
  | String c r =>
      if (c =? sep)%char then EmptyString :: split sep r
      else match split sep r with
           | p :: ps => String c p :: ps
           | [] => [String c EmptyString]
           end
  end.

(** The longest run of decimal digits at the front, and what follows. *)
Fixpoint span_digits (s : string) : string * string :=
  match s with
  | EmptyString => (EmptyString, EmptyString)
  | String c r =>
      if is_digit c
      then let (ds, rest) := span_digits r in (String c ds, rest)
      else (EmptyString, s)
  end.

Definition digit_val (c : ascii) : Z := Z.of_N (code c) - 48.

Fixpoint Z_of_digits (acc : Z) (ds : string) : Z :=
  match ds with
  | EmptyString => acc
  | String c r => Z_of_digits (10 * acc + digit_val c) r
  end.

End PyStr.

(** ** Python's [float]

    A Python [float] is an IEEE 754 binary64 value, here the primitive type
    [float] with its correctly rounded operations. *)
Module PyFloat.
Import PyStr.

Local Open Scope Z_scope.

(** *** Construction from text: [float(s)] *)

(** The value [(-1)^neg * m * 10^e] rounded to nearest, ties to even.
    The two early exits only cut the size of the powers of ten: with [nd]
    decimal digits in [m], the value is at least [10^e] and below
    [10^(nd+e)]. *)
Definition of_decimal (neg : bool) (m : Z) (nd e : Z) : float :=
  match m with
  | Zpos p =>
      if 310 <? e then (if neg then neg_infinity else infinity)
      else if nd + e <? -330 then (if neg then neg_zero else zero)
      else
        let num := Z.to_pos (Zpos p * 10 ^ Z.max e 0) in
        let den := Z.to_pos (10 ^ Z.max (- e) 0) in
        SF2Prim (SFdiv prec emax (S754_finite neg num 0) (S754_finite false den 0))
  | _ => if neg then neg_zero else zero
  end.

Definition parse_sign (s : string) : bool * string :=
  match s with
  | String "-"%char r => (true, r)
  | String "+"%char r => (false, r)
  | _ => (false, s)
  end.

(** [inf], [infinity] and [nan], in any letter case, after the sign. *)
Definition parse_inf_or_nan (s : string) : option float :=
  let (neg, body) := parse_sign s in
  let l := lower body in
  if (l =? "inf")%string || (l =? "infinity")%string
  then Some (if neg then neg_infinity else infinity)
  else if (l =? "nan")%string then Some nan
  else None.

Definition is_exp_marker (c : ascii) : bool :=
  (c =? "e")%char || (c =? "E")%char.

(** [sign digits [. digits] [(e|E) sign digits]], with at least one digit
    before the exponent and nothing after the number. *)
Definition parse_decimal (s : string) : option float :=
  let (neg, s1) := parse_sign s in
  let (ip, s2) := span_digits s1 in
  let (fp, s3) :=
    match s2 with
    | String "."%char r => span_digits r
    | _ => (EmptyString, s2)
    end in
  let ds := (ip ++ fp)%string in
  let nd := Z.of_nat (String.length ds) in
  let scale := - Z.of_nat (String.length fp) in
  if (ds =? "")%string then None
  else
    match s3 with
    | EmptyString => Some (of_decimal neg (Z_of_digits 0 ds) nd scale)
    | String c r =>
        if is_exp_marker c then
          let (eneg, r1) := parse_sign r in
          let (ed, r2) := span_digits r1 in
          if (ed =? "")%string || negb (r2 =? "")%string then None
          else
            let ev := Z_of_digits 0 ed in
            Some (of_decimal neg (Z_of_digits 0 ds) nd
                    (scale + (if eneg then - ev else ev)))
        else None
    end.

(** Underscores may group digits: each one must stand between two
    digits.  [prev] is the character before [s]. *)
Fixpoint drop_underscores (prev : ascii) (s : string) : option string :=
  match s with
  | EmptyString => if (prev =? "_")%char then None else Some EmptyString
  | String c r =>
      if (c =? "_")%char then
        if is_digit prev then drop_underscores c r else None
      else if (prev =? "_")%char && negb (is_digit c) then None
      else option_map (String c) (drop_underscores c r)
  end.

Definition parse_number (s : string) : option float :=
  match parse_inf_or_nan s with
  | Some f => Some f
  | None => parse_decimal s
  end.

(** The blanks [float] skips around a number are the six of C's
    [isspace]: tab to carriage return, and the space.  The separators
    0x1c-0x1f, which [str.strip] removes, are no blanks for it. *)
Definition is_blank (c : ascii) : bool :=
  in_range 9 13 c || (code c =? 32)%N.

Fixpoint skip_blanks (s : string) : string :=
  match s with
  | EmptyString => EmptyString
  | String c r => if is_blank c then skip_blanks r else s
  end.

Fixpoint drop_blanks (s : string) : string :=
  match s with
  | EmptyString => EmptyString
  | String c r =>
      let r' := drop_blanks r in
      if is_blank c && (r' =? "")%string then EmptyString else String c r'
  end.

(** The text between the blanks at its two ends. *)
Definition strip_blanks (s : string) : string := drop_blanks (skip_blanks s).

(** [float(s)]: blanks around the number are ignored. *)
Definition of_string (s : string) : result float :=
  let body := strip_blanks s in
  let parsed :=
    if contains "_" body
    then match drop_underscores "000" body with
         | Some t => parse_number t
         | None => None
         end
    else parse_number body in
  match parsed with
  | Some f => Ok f
  | None => Err (ValueError (CouldNotConvert s))
  end.

End PyFloat.

(** *** Arithmetic, [divmod] and [int] *)
Module PyNum.

Local Open Scope Z_scope.

(** [a / b] on floats. *)
Definition truediv (a b : float) : result float :=
  if (b =? 0)%float then Err ZeroDivisionError else Ok (a / b)%float.

Definition copysign_zero (w : float) : float :=
  if get_sign w then neg_zero else zero.

(** The exact integer [z] as a float ([z] is below [2^53] in magnitude
    wherever this is used, so nothing is rounded). *)
Definition float_of_Z (z : Z) : float :=
  SF2Prim (binary_normalize prec emax z 0 false).

(** C's [floor]. *)
Definition floor (x : float) : float :=
  match Prim2SF x with
  | S754_finite s m e =>
      if 0 <=? e then x
      else
        let q := Z.shiftr (cond_Zopp s (Zpos m)) (- e) in
        if q =? 0 then zero else float_of_Z q
  | _ => x
  end.

(** C's [fmod]: the exact remainder of [x / y], with the sign of [x]. *)
Definition fmod (x y : float) : float :=
  match Prim2SF x, Prim2SF y with
  | S754_nan, _ | _, S754_nan => nan
  | S754_infinity _, _ | _, S754_zero _ => nan
  | _, S754_infinity _ => x
  | S754_zero _, _ => x
  | S754_finite sx mx ex, S754_finite _ my ey =>
      let e := Z.min ex ey in
      let r := Z.rem (Z.shiftl (Zpos mx) (ex - e)) (Z.shiftl (Zpos my) (ey - e)) in
      if r =? 0 then (if sx then neg_zero else zero)
      else SF2Prim (binary_normalize prec emax (cond_Zopp sx r) e false)
  end.

(** [divmod(vx, wx)] on floats, as the interpreter computes it: the
    remainder takes the sign of the divisor, and the quotient is the
    floor that goes with it. *)
Definition float_divmod (vx wx : float) : result (float * float) :=
  if (wx =? 0)%float then Err ZeroDivisionError
  else
    let mod0 := fmod vx wx in
    let div0 := ((vx - mod0) / wx)%float in
    let '(md, dv) :=
      if (mod0 =? 0)%float then (copysign_zero wx, div0)
      else if xorb (wx <? 0)%float (mod0 <? 0)%float
           then ((mod0 + wx)%float, (div0 - 1)%float)
           else (mod0, div0) in
    let floordiv :=
      if (dv =? 0)%float then copysign_zero (vx / wx)%float
      else
        let f := floor dv in
        if (0.5 <? dv - f)%float then (f + 1)%float else f in
    Ok (floordiv, md).

(** [int(x)]: truncation toward zero. *)
Definition int_of_float (x : float) : result Z :=
  match Prim2SF x with
  | S754_nan => Err (ValueError CannotConvertNaN)
  | S754_infinity _ => Err OverflowError
  | S754_zero _ => Ok 0
  | S754_finite s m e =>
      Ok (cond_Zopp s (if 0 <=? e then Z.shiftl (Zpos m) e
                       else Z.shiftr (Zpos m) (- e)))
  end.

(** [str(n)] for an integer. *)
Definition str_of_Z (n : Z) : string :=
  DecimalString.NilZero.string_of_int (Z.to_int n).

Fixpoint zeros (n : nat) : string :=
  match n with
  | O => EmptyString
  | S k => String "0"%char (zeros k)
  end.

(** [format(n, "02d")]: zeros between the sign and the digits up to a
    width of two. *)
Definition format_02d (n : Z) : string :=
  let sign := if n <? 0 then "-" else "" in
  let body := str_of_Z (Z.abs n) in
  (sign ++ zeros (2 - String.length sign - String.length body)%nat ++ body)%string.

End PyNum.

(** ** The calculator *)

(** The dataclass [RunningMetrics].  The three mappings are dicts; a dict
    keeps its keys in insertion order, which is what an association list
    with distinct keys records. *)
Record RunningMetrics : Type := mkRunningMetrics {
  distance_km : float;
  time_minutes : float;
  pace_min_per_km : float;
  speed_kmh : float;
  splits : list (string * string);
  projected_times : list (string * string);
  training_zones : list (string * string)
}.

(** [d.get(key)] on a dict held as an association list. *)
Fixpoint dict_get {A : Type} (key : string) (d : list (string * A)) : option A :=
  match d with
  | [] => None
  | (k, v) :: rest => if (k =? key)%string then Some v else dict_get key rest
  end.

Module PaceCalculator.
Import PyStr PyNum.

Local Open Scope float_scope.

Definition DISTANCE_UNITS : list (string * float) :=
  [ ("mi", 1.609344);
    ("km", 1.0);
    ("k", 1.0);
    ("m", 42.195);
    ("marathon", 42.195);
    ("hm", 21.0975);
    ("half-marathon", 21.0975);
    ("10k", 10.0);
    ("5k", 5.0);
    ("1k", 1.0);
    ("400m", 0.4);
    ("800m", 0.8);
    ("1mi", 1.609344) ].

Definition TRAINING_ZONES : list (string * (float * float)) :=
  [ ("Easy", (1.15, 1.25));
    ("Threshold", (1.05, 1.15));
    ("Tempo", (1.0, 1.05));
    ("VO2 Max", (0.9, 1.0));
    ("Speed", (0.8, 0.9)) ].

(** The loop over [DISTANCE_UNITS.items()]: the first unit that ends the
    text decides, by a value or by an [InputError]; [None] when the loop
    runs to its end. *)
Fixpoint scan_units (distance : string) (units : list (string * float))
  : option (result float) :=
  match units with
  | [] => None
  | (unit, multiplier) :: rest =>
      if endswith distance unit
      then Some (except_ValueError
                   (value <- PyFloat.of_string (removesuffix distance unit) ;;
                    Ok (value * multiplier))
                   (InputError distance "distance"))
      else scan_units distance rest
  end.

Definition distance_str_to_km (distance : string) : result float :=
  let distance := strip (lower distance) in
  match dict_get distance DISTANCE_UNITS with
  | Some km => Ok km
  | None =>
      match scan_units distance DISTANCE_UNITS with
      | Some r => r
      | None =>
          except_ValueError (PyFloat.of_string distance)
                            (InputError distance "distance")
      end
  end.

(** One number of the letter pattern: [\d+(?:\.\d+)?] when [frac] is set,
    [\d+] otherwise; the text matched and the text after it. *)
Definition number_token (frac : bool) (s : string) : option (string * string) :=
  let (ip, r) := span_digits s in
  if (ip =? "")%string then None
  else
    match r with
    | String "."%char r' =>
        let (fp, r'') := span_digits r' in
        if frac && negb (fp =? "")%string
        then Some ((ip ++ "." ++ fp)%string, r'')
        else Some (ip, r)
    | _ => Some (ip, r)
    end.

(** An optional group [(?:(number)letter)?]: the captured number, if the
    group matches here, and the text left.  A number is followed by its
    letter or the group matches nothing: a shorter number would be
    followed by a digit or a dot. *)
Definition unit_group (frac : bool) (letter : ascii) (s : string)
  : option string * string :=
  match number_token frac s with
  | Some (tok, String c r) =>
      if (c =? letter)%char then (Some tok, r) else (None, s)
  | _ => (None, s)
  end.

(** [$]: the end of the text, or the newline that ends it. *)
Definition at_end (s : string) : bool :=
  (s =? "")%string || (s =? String (ascii_of_N 10) EmptyString)%string.

(** [float(group or 0)]. *)
Definition group_value (g : option string) : result float :=
  match g with
  | Some tok => PyFloat.of_string tok
  | None => Ok 0
  end.

Definition _parse_time_with_letters (time : string) : result float :=
  let (gh, s1) := unit_group true "h" time in
  let (gm, s2) := unit_group true "m" s1 in
  let (gs, s3) := unit_group false "s" s2 in
  if at_end s3 then
    hours <- group_value gh ;;
    minutes <- group_value gm ;;
    seconds <- group_value gs ;;
    Ok (hours * 60 + minutes + seconds / 60)
  else Err (InputError time "time").

Definition _parse_time_with_colons (time : string) : result float :=
  match split ":" time with
  | [minutes; seconds] =>
      m <- PyFloat.of_string minutes ;;
      s <- PyFloat.of_string seconds ;;
      Ok (m + s / 60)
  | [hours; minutes; seconds] =>
      h <- PyFloat.of_string hours ;;
      m <- PyFloat.of_string minutes ;;
      s <- PyFloat.of_string seconds ;;
      Ok (h * 60 + m + s / 60)
  | _ => Err (InputError time "time")
  end.

Definition time_str_to_minutes (time : string) : result float :=
  let time := strip time in
  if contains "h" time || contains "m" time || contains "s" time
  then _parse_time_with_letters time
  else if contains ":" time
  then _parse_time_with_colons time
  else except_ValueError (PyFloat.of_string time) (InputError time "time").

Definition pace_str_to_minutes (pace : string) : result float :=
  let pace := strip pace in
  let plain := except_ValueError (PyFloat.of_string pace) (InputError pace "pace") in
  if contains ":" pace then
    match split ":" pace with
    | [minutes; seconds] =>
        m <- PyFloat.of_string minutes ;;
        s <- PyFloat.of_string seconds ;;
        Ok (m + s / 60)
    | _ => plain
    end
  else plain.

Definition minutes_to_time_str (minutes : float) (show_hours : bool) : result string :=
  if (minutes <? 60) || negb show_hours then
    '(mins, secs) <- float_divmod minutes 1 ;;
    m <- int_of_float mins ;;
    s <- int_of_float (secs * 60) ;;
    Ok (str_of_Z m ++ ":" ++ format_02d s)%string
  else
    '(hours, remaining_minutes) <- float_divmod minutes 60 ;;
    '(mins, secs) <- float_divmod remaining_minutes 1 ;;
    h <- int_of_float hours ;;
    m <- int_of_float mins ;;
    s <- int_of_float (secs * 60) ;;
    Ok (str_of_Z h ++ ":" ++ format_02d m ++ ":" ++ format_02d s)%string.

(** [common_distances] of [_calculate_splits]: each checkpoint with the
    text [f"{dist}"] gives for it and its value as a float (the first
    three are written as integers in the source, and enter every product
    and comparison as the floats below). *)
Definition split_distances : list (string * float) :=
  [ ("1", 1); ("5", 5); ("10", 10); ("21.0975", 21.0975); ("42.195", 42.195) ].

(** [common_distances] of [_calculate_projected_times]. *)
Definition projected_distances : list (string * float) :=
  [ ("5", 5); ("10", 10); ("21.0975", 21.0975); ("42.195", 42.195) ].

Definition label (text : string) : string := (text ++ "km")%string.

Fixpoint splits_loop (pace_mins : float) (ds : list (string * float))
  : result (list (string * string)) :=
  match ds with
  | [] => Ok []
  | (text, dist) :: rest =>
      let time_mins := dist * pace_mins in
      t <- minutes_to_time_str time_mins (10 <=? dist) ;;
      tail <- splits_loop pace_mins rest ;;
      Ok ((label text, t) :: tail)
  end.

Definition _calculate_splits (pace_mins : float) : result (list (string * string)) :=
  splits_loop pace_mins split_distances.

Fixpoint projected_loop (distance_km pace_mins : float) (ds : list (string * float))
  : result (list (string * string)) :=
  match ds with
  | [] => Ok []
  | (text, dist) :: rest =>
      if negb (dist =? distance_km) then
        let time_mins := dist * pace_mins in
        t <- minutes_to_time_str time_mins (10 <=? dist) ;;
        tail <- projected_loop distance_km pace_mins rest ;;
        Ok ((label text, t) :: tail)
      else projected_loop distance_km pace_mins rest
  end.

Definition _calculate_projected_times (distance_km time_mins pace_mins : float)
  : result (list (string * string)) :=
  projected_loop distance_km pace_mins projected_distances.

Fixpoint zones_loop (threshold_pace : float) (zs : list (string * (float * float)))
  : result (list (string * string)) :=
  match zs with
  | [] => Ok []
  | (zone_name, (min_mult, max_mult)) :: rest =>
      let min_pace := threshold_pace * min_mult in
      let max_pace := threshold_pace * max_mult in
      lo <- minutes_to_time_str min_pace false ;;
      hi <- minutes_to_time_str max_pace false ;;
      tail <- zones_loop threshold_pace rest ;;
      Ok ((zone_name, (lo ++ " - " ++ hi)%string) :: tail)
  end.

Definition _calculate_training_zones (threshold_pace : float)
  : result (list (string * string)) :=
  zones_loop threshold_pace TRAINING_ZONES.

(** Truth value of an optional [str] argument: [None] and the empty
    string are false. *)
Definition truthy (a : option string) : option string :=
  match a with
  | Some EmptyString => None
  | _ => a
  end.

(** The three parsing branches of [calculate_metrics]:
    [(dist_km, time_mins, pace_mins)]. *)
Definition parse_inputs (distance time pace : option string)
  : result (float * float * float) :=
  match truthy distance, truthy time, truthy pace with
  | Some d, Some t, None =>
      dist_km <- distance_str_to_km d ;;
      time_mins <- time_str_to_minutes t ;;
      pace_mins <- truediv time_mins dist_km ;;
      Ok (dist_km, time_mins, pace_mins)
  | Some d, None, Some p =>
      dist_km <- distance_str_to_km d ;;
      pace_mins <- pace_str_to_minutes p ;;
      Ok (dist_km, dist_km * pace_mins, pace_mins)
  | None, Some t, Some p =>
      time_mins <- time_str_to_minutes t ;;
      pace_mins <- pace_str_to_minutes p ;;
      dist_km <- truediv time_mins pace_mins ;;
      Ok (dist_km, time_mins, pace_mins)
  | _, _, _ => Err (ValueError ExactlyTwo)
  end.

(** The part of [calculate_metrics] after the three branches, from
    "Calculate derived metrics" to the construction of the record. *)
Definition derived_metrics (dist_km time_mins pace_mins : float)
  : result RunningMetrics :=
  speed <- (if 0 <? pace_mins then truediv 60 pace_mins else Ok 0) ;;
  sp <- _calculate_splits pace_mins ;;
  pr <- _calculate_projected_times dist_km time_mins pace_mins ;;
  tz <- _calculate_training_zones pace_mins ;;
  Ok {| distance_km := dist_km;
        time_minutes := time_mins;
        pace_min_per_km := pace_mins;
        speed_kmh := speed;
        splits := sp;
        projected_times := pr;
        training_zones := tz |}.

Definition calculate_metrics (distance time pace : option string)
  : result RunningMetrics :=
  '(dist_km, time_mins, pace_mins) <- parse_inputs distance time pace ;;
  derived_metrics dist_km time_mins pace_mins.

(** [float(value)] inside [try] with [except ValueError: return False]:
    both ways out give [False]; another exception would pass through. *)
Definition number_is_no_time (value : string) : result bool :=
  match PyFloat.of_string value with
  | Ok _ => Ok false
  | Err (ValueError _) => Ok false
  | Err e => Err e
  end.

Definition _is_likely_time (value : string) : result bool :=
  let value := lower (strip value) in
  match dict_get value DISTANCE_UNITS with
  | Some _ => Ok false
  | None =>
      if contains "h" value || contains "m" value || contains "s" value
         || contains ":" value
      then Ok true
      else if contains ":" value then Ok true
      else number_is_no_time value
  end.

(** The part of [main] between "Parse inputs" and "Calculate metrics": the
    preposition and the two values decide which arguments
    [calculate_metrics] receives.  ([argparse] admits the prepositions
    ["in"] and ["at"]; the code tests for ["in"] only.) *)
Definition main_metrics (preposition first_value second_value : string)
  : result RunningMetrics :=
  if (preposition =? "in")%string
  then calculate_metrics (Some first_value) (Some second_value) None
  else
    likely <- _is_likely_time first_value ;;
    if likely
    then calculate_metrics None (Some first_value) (Some second_value)
    else calculate_metrics (Some first_value) None (Some second_value).

End PaceCalculator.

(** ** The formatter as the specification words it

    The specification describes the [M:SS] form with the seconds
    {e rounded}: [SS = round(fractional minutes * 60)].  [format_rounded]
    follows these words; it is what [minutes_to_time_str] is compared with,
    and no part of the program. *)
Module SpecWords.
Import PyNum.

Local Open Scope Z_scope.

(** [round(x)]: the nearest integer, a tie going to the even one. *)
Definition round_of_float (x : float) : result Z :=
  match Prim2SF x with
  | S754_nan => Err (ValueError CannotConvertNaN)
  | S754_infinity _ => Err OverflowError
  | S754_zero _ => Ok 0
  | S754_finite s m e =>
      if 0 <=? e then Ok (cond_Zopp s (Z.shiftl (Zpos m) e))
      else
        let d := Z.shiftl 1 (- e) in
        let q := Zpos m / d in
        let r := Zpos m mod d in
        let up :=
          match 2 * r ?= d with
          | Lt => false
          | Gt => true
          | Eq => Z.odd q
          end in
        Ok (cond_Zopp s (if up then q + 1 else q))
  end.

Definition format_rounded (value : float) : result string :=
  let whole := floor value in
  m <- int_of_float whole ;;
  s <- round_of_float ((value - whole) * 60)%float ;;
  Ok (str_of_Z m ++ ":" ++ format_02d s)%string.

End SpecWords.

(** ** Vocabulary of the statements

    Predicates the properties below are stated with; none is part of the
    program. *)
Module Vocabulary.
Import PaceCalculator.

Local Open Scope float_scope.

(** The last character of a text. *)
Fixpoint last_char (s : string) : option ascii :=
  match s with
  | EmptyString => None
  | String c EmptyString => Some c
  | String _ r => last_char r
  end.

(** How many of the three arguments are not [None]. *)
Definition non_null (a : option string) : nat :=
  match a with Some _ => 1 | None => 0 end.

(** How many of the three arguments are true in a condition. *)
Definition given (a : option string) : nat :=
  match truthy a with Some _ => 1 | None => 0 end.

(** What it takes for the three branches of [calculate_metrics] to produce
    the triple [(dk, tm, pm)]: which pair is given, that both texts parse,
    that the divisor is not zero, and the equation of the branch. *)
Definition branch_taken (distance time pace : option string)
           (dk tm pm : float) : Prop :=
  (exists d t,
      truthy distance = Some d /\ truthy time = Some t /\ truthy pace = None /\
      distance_str_to_km d = Ok dk /\ time_str_to_minutes t = Ok tm /\
      (dk =? 0) = false /\ pm = tm / dk)
  \/
  (exists d p,
      truthy distance = Some d /\ truthy time = None /\ truthy pace = Some p /\
      distance_str_to_km d = Ok dk /\ pace_str_to_minutes p = Ok pm /\
      tm = dk * pm)
  \/
  (exists t p,
      truthy distance = None /\ truthy time = Some t /\ truthy pace = Some p /\
      time_str_to_minutes t = Ok tm /\ pace_str_to_minutes p = Ok pm /\
      (pm =? 0) = false /\ dk = tm / pm).

(** The entry a checkpoint contributes: its label, and its time at pace
    [p] in the format of its size. *)
Definition projection_of (p : float) (checkpoint : string * float)
           (entry : string * string) : Prop :=
  fst entry = label (fst checkpoint) /\
  minutes_to_time_str (snd checkpoint * p) (10 <=? snd checkpoint)
  = Ok (snd entry).

Definition differs_from (d : float) (checkpoint : string * float) : bool :=
  negb (snd checkpoint =? d).

(** The two exceptions [int] raises on a float. *)
Definition int_conversion_error (e : exn) : Prop :=
  e = ValueError CannotConvertNaN \/ e = OverflowError.

(** The exceptions the three parsers raise by themselves or let through
    from [float]. *)
Definition parse_error (e : exn) : Prop :=
  (exists text kind,
      e = InputError text kind /\
      (kind = "distance" \/ kind = "time" \/ kind = "pace")) \/
  (exists part, e = ValueError (CouldNotConvert part)).

(** Every character of a text satisfies [p]. *)
Fixpoint all_chars (p : ascii -> bool) (s : string) : bool :=
  match s with
  | EmptyString => true
  | String c r => p c && all_chars p r
  end.

Definition all_digits (s : string) : bool := all_chars PyStr.is_digit s.

(** A text opens with something that is no digit, or is empty. *)
Definition no_digit_ahead (s : string) : Prop :=
  match s with
  | EmptyString => True
  | String c _ => PyStr.is_digit c = false
  end.

(** One of the marks [_is_likely_time] looks for. *)
Definition time_mark (value : string) : bool :=
  PyStr.contains "h" value || PyStr.contains "m" value
  || PyStr.contains "s" value || PyStr.contains ":" value.

(** One of the letters that send [time_str_to_minutes] to the letter form. *)
Definition duration_letter (value : string) : bool :=
  PyStr.contains "h" value || PyStr.contains "m" value
  || PyStr.contains "s" value.

(** The characters the letter pattern can match: digits, the dot, the
    three letters, and the newline that [$] tolerates at the end. *)
Definition letter_form_char (c : ascii) : bool :=
  PyStr.is_digit c || (c =? ".")%char || (c =? "h")%char || (c =? "m")%char
  || (c =? "s")%char || (c =? ascii_of_N 10)%char.


(** How an integer is printed: a minus sign or nothing, then at least one
    digit. *)
Definition int_text (s : string) : Prop :=
  exists (neg : bool) (digits : string),
    s = (if neg then String "-" digits else digits) /\
    all_digits digits = true /\ digits <> EmptyString.

(** The characters of a printed duration. *)
Definition clock_char (c : ascii) : bool :=
  PyStr.is_digit c || (c =? "-")%char || (c =? ":")%char.

(** One group of the letter form as it is typed: a whole number and its
    letter, or nothing. *)
Definition letter_part (g : option string) (letter : ascii) : string :=
  match g with
  | Some digits => (digits ++ String letter EmptyString)%string
  | None => EmptyString
  end.

(** The number of a group, when there is one, has digits only and at least
    one. *)
Definition whole (g : option string) : Prop :=
  match g with
  | Some digits => all_digits digits = true /\ digits <> EmptyString
  | None => True
  end.

(** A character of the ASCII range, where a text means the same to the
    program and to the definitions above: a digit is one of 0-9, a blank
    one of the ASCII blanks, a capital one of A-Z. *)
Definition is_ascii (c : ascii) : bool := (PyStr.code c <? 128)%N.

(** The floor of a finite float: its exact value is [m * 2^e] with the
    sign [s], and a shift by a negative [e] is the division by [2^(-e)]
    that rounds down.  0 for a value that is not finite. *)
Definition floor_Z (x : float) : Z :=
  match Prim2SF x with
  | S754_finite s m e => Z.shiftl (cond_Zopp s (Zpos m)) e
  | _ => 0%Z
  end.

(** A zero, a finite value or an infinity with the sign [+]: a value that
    is neither negative nor NaN. *)
Definition plus_class (x : spec_float) : bool :=
  match x with
  | S754_zero false | S754_finite false _ _ | S754_infinity false => true
  | _ => false
  end.

End Vocabulary.

(** * Properties *)

(** ** The error monad *)

Lemma bind_Ok {A B : Type} (r : result A) (k : A -> result B) (b : B) :
  bind r k = Ok b -> exists a, r = Ok a /\ k a = Ok b.
Proof.
  destruct r as [a | e]; simpl; intros H.
  - exists a. split; [reflexivity | exact H].
  - discriminate H.
Qed.

Lemma except_ValueError_Ok {A : Type} (r : result A) (e : exn) (a : A) :
  except_ValueError r e = Ok a <-> r = Ok a.
Proof.
  destruct r as [x | [u t | v | | ]]; simpl; split; intros H;
    try exact H; discriminate H.
Qed.

(** Splits a hypothesis [x <- r ;; k = Ok b] into its two steps. *)
Ltac bind_inv H :=
  let a := fresh "a" in
  let Ha := fresh "Ha" in
  apply bind_Ok in H; destruct H as [a [Ha H]].

(** ** Suffixes *)
Module PyStrFacts.
Import PyStr Vocabulary.

Lemma length_app (s t : string) :
  String.length (s ++ t) = (String.length s + String.length t)%nat.
Proof. induction s as [ | c s IH]; simpl; [ reflexivity | rewrite IH; reflexivity ]. Qed.

Lemma cons_app_neq (c : ascii) (pre suffix : string) :
  (String c (pre ++ suffix) =? suffix) = false.
Proof.
  apply String.eqb_neq. intros H.
  apply (f_equal String.length) in H. simpl in H.
  rewrite length_app in H. lia.
Qed.

Lemma removesuffix_cons (c : ascii) (r suffix : string) :
  removesuffix (String c r) suffix
  = if String c r =? suffix then "" else String c (removesuffix r suffix).
Proof. reflexivity. Qed.

Lemma endswith_cons (c : ascii) (r suffix : string) :
  endswith (String c r) suffix = (String c r =? suffix) || endswith r suffix.
Proof. reflexivity. Qed.

Lemma endswith_app (pre suffix : string) :
  endswith (pre ++ suffix) suffix = true.
Proof.
  induction pre as [ | c pre IH].
  - simpl. destruct suffix; simpl; rewrite ?Ascii.eqb_refl, ?String.eqb_refl; reflexivity.
  - change (String c pre ++ suffix) with (String c (pre ++ suffix)).
    rewrite endswith_cons, IH. apply orb_true_r.
Qed.

Lemma removesuffix_app (pre suffix : string) :
  removesuffix (pre ++ suffix) suffix = pre.
Proof.
  induction pre as [ | c pre IH].
  - simpl. destruct suffix; simpl; rewrite ?Ascii.eqb_refl, ?String.eqb_refl; reflexivity.
  - change (String c pre ++ suffix) with (String c (pre ++ suffix)).
    rewrite removesuffix_cons, cons_app_neq, IH. reflexivity.
Qed.

Lemma endswith_empty (suffix : string) :
  endswith "" suffix = true -> suffix = "".
Proof. destruct suffix; simpl; [ reflexivity | discriminate ]. Qed.

Lemma last_char_cons (c : ascii) (r : string) :
  r <> "" -> last_char (String c r) = last_char r.
Proof. destruct r; [ intros H; exfalso; apply H; reflexivity | reflexivity ]. Qed.

(** A text and a non-empty suffix of it end with the same character. *)
Lemma endswith_last_char (s suffix : string) :
  endswith s suffix = true -> suffix <> "" -> last_char s = last_char suffix.
Proof.
  induction s as [ | c r IH]; intros H Hne.
  - apply endswith_empty in H. contradiction.
  - rewrite endswith_cons in H. apply orb_true_iff in H. destruct H as [H | H].
    + apply String.eqb_eq in H. rewrite <- H. reflexivity.
    + rewrite last_char_cons.
      * apply IH; assumption.
      * intros ->. apply endswith_empty in H. contradiction.
Qed.

Lemma last_char_app (pre : string) (c : ascii) :
  last_char (pre ++ String c "") = Some c.
Proof.
  induction pre as [ | a pre IH]; [ reflexivity | ].
  change (String a pre ++ String c "") with (String a (pre ++ String c "")).
  rewrite last_char_cons; [ exact IH | ].
  destruct pre; discriminate.
Qed.

(** A text that ends with [c] does not end with a suffix whose last
    character is another one. *)
Lemma endswith_other_last (pre suffix : string) (c d : ascii) :
  last_char suffix = Some d -> c <> d ->
  endswith (pre ++ String c "") suffix = false.
Proof.
  intros Hl Hcd. destruct (endswith (pre ++ String c "") suffix) eqn:E; [ | reflexivity ].
  apply endswith_last_char in E.
  - rewrite last_char_app, Hl in E. injection E as E. contradiction.
  - intros ->. discriminate Hl.
Qed.

End PyStrFacts.

Module PaceCalculatorFacts.
Import PyStr PyNum PaceCalculator Vocabulary.

Local Open Scope float_scope.

Lemma truthy_idem (a : option string) : truthy (truthy a) = truthy a.
Proof. destruct a as [[ | c s] | ]; reflexivity. Qed.

Lemma parse_inputs_truthy (distance time pace : option string) :
  parse_inputs (truthy distance) (truthy time) (truthy pace)
  = parse_inputs distance time pace.
Proof. unfold parse_inputs. rewrite !truthy_idem. reflexivity. Qed.

Lemma parse_inputs_not_two (distance time pace : option string) :
  (given distance + given time + given pace <> 2)%nat ->
  parse_inputs distance time pace = Err (ValueError ExactlyTwo).
Proof.
  unfold given, parse_inputs.
  destruct (truthy distance), (truthy time), (truthy pace); simpl; intros H;
    try reflexivity; exfalso; apply H; reflexivity.
Qed.

(** C8: the presets ["10k"] and ["5k"] are looked up before any unit suffix
    is tried, and give exactly 10.0 and 5.0. *)
Theorem distance_presets_10k_5k :
  distance_str_to_km "10k" = Ok 10 /\
  distance_str_to_km "5k" = Ok 5 /\
  dict_get "10k" DISTANCE_UNITS = Some 10 /\
  dict_get "5k" DISTANCE_UNITS = Some 5.
Proof. repeat split; vm_compute; reflexivity. Qed.

(** C4 (the code departs from the claim): a colon form whose part is not a
    number leaves [time_str_to_minutes] as the [ValueError] of [float],
    not as an [InputError] for the time. *)
Theorem time_colon_part_raises_ValueError :
  time_str_to_minutes "1:xx" = Err (ValueError (CouldNotConvert "xx")).
Proof. vm_compute. reflexivity. Qed.

(** C9: an empty string is treated as an absent argument; with an empty
    time, a distance and a pace are the distance-and-pace case. *)
Theorem empty_string_is_absent :
  (forall distance time pace,
      calculate_metrics distance time pace
      = calculate_metrics (truthy distance) (truthy time) (truthy pace)) /\
  (forall time pace, calculate_metrics (Some "") time pace
                     = calculate_metrics None time pace) /\
  (forall distance pace, calculate_metrics distance (Some "") pace
                         = calculate_metrics distance None pace) /\
  (forall distance time, calculate_metrics distance time (Some "")
                         = calculate_metrics distance time None) /\
  calculate_metrics (Some "5km") (Some "") (Some "4:30")
  = calculate_metrics (Some "5km") None (Some "4:30") /\
  (exists r, calculate_metrics (Some "5km") (Some "") (Some "4:30") = Ok r /\
             distance_km r = 5 /\ pace_min_per_km r = 4.5 /\
             time_minutes r = 22.5).
Proof.
  split; [ | split; [ | split; [ | split; [ | split ] ] ] ].
  - intros distance time pace. unfold calculate_metrics.
    rewrite parse_inputs_truthy. reflexivity.
  - reflexivity.
  - reflexivity.
  - reflexivity.
  - reflexivity.
  - eexists. split; [ vm_compute; reflexivity | ].
    repeat split; reflexivity.
Qed.

(** C2, as the code has it: when the number of arguments that are neither
    [None] nor empty is not two, the call raises the [ValueError] "Exactly
    two of distance, time, and pace must be provided". *)
Theorem not_two_given_raises (distance time pace : option string) :
  (given distance + given time + given pace <> 2)%nat ->
  calculate_metrics distance time pace = Err (ValueError ExactlyTwo).
Proof.
  intros H. unfold calculate_metrics.
  rewrite (parse_inputs_not_two _ _ _ H). reflexivity.
Qed.

Lemma not_two_given_raises_witness :
  calculate_metrics (Some "10km") (Some "45:00") (Some "4:30")
  = Err (ValueError ExactlyTwo).
Proof. apply not_two_given_raises. vm_compute. discriminate. Defined.

(** C2 fails as stated: three arguments that are not [None], one of them
    empty, and the call returns a result. *)
Lemma three_non_null_accepted :
  (non_null (Some "5km") + non_null (Some "") + non_null (Some "4:30") = 3)%nat /\
  exists r, calculate_metrics (Some "5km") (Some "") (Some "4:30") = Ok r.
Proof. split; [ reflexivity | eexists; vm_compute; reflexivity ]. Qed.

(** ** The three branches of [calculate_metrics] *)

Lemma distance_given (d : string) (v : float) :
  distance_str_to_km d = Ok v -> truthy (Some d) = Some d.
Proof.
  destruct d as [ | c s]; intros H; [ | reflexivity ].
  vm_compute in H. discriminate H.
Qed.

Lemma time_given (t : string) (v : float) :
  time_str_to_minutes t = Ok v -> truthy (Some t) = Some t.
Proof.
  destruct t as [ | c s]; intros H; [ | reflexivity ].
  vm_compute in H. discriminate H.
Qed.

Lemma pace_given (p : string) (v : float) :
  pace_str_to_minutes p = Ok v -> truthy (Some p) = Some p.
Proof.
  destruct p as [ | c s]; intros H; [ | reflexivity ].
  vm_compute in H. discriminate H.
Qed.

Lemma truediv_Ok (a b q : float) :
  truediv a b = Ok q <-> (b =? 0) = false /\ q = a / b.
Proof.
  unfold truediv. destruct (b =? 0); split.
  - discriminate.
  - intros [H _]. discriminate H.
  - intros H. injection H as <-. split; reflexivity.
  - intros [_ ->]. reflexivity.
Qed.

Lemma truediv_zero (a b : float) :
  (b =? 0) = true -> truediv a b = Err ZeroDivisionError.
Proof. unfold truediv. intros ->. reflexivity. Qed.

Lemma derived_metrics_fields (dk tm pm : float) (r : RunningMetrics) :
  derived_metrics dk tm pm = Ok r ->
  distance_km r = dk /\ time_minutes r = tm /\ pace_min_per_km r = pm.
Proof.
  unfold derived_metrics. intros H.
  bind_inv H. bind_inv H. bind_inv H. bind_inv H.
  injection H as <-. repeat split.
Qed.

Lemma derived_metrics_parts (dk tm pm : float) (r : RunningMetrics) :
  derived_metrics dk tm pm = Ok r ->
  _calculate_splits pm = Ok (splits r) /\
  _calculate_projected_times dk tm pm = Ok (projected_times r) /\
  _calculate_training_zones pm = Ok (training_zones r).
Proof.
  unfold derived_metrics. intros H.
  bind_inv H. bind_inv H. bind_inv H. bind_inv H.
  injection H as <-. simpl. repeat split; assumption.
Qed.

Lemma parse_inputs_Ok (distance time pace : option string) (dk tm pm : float) :
  parse_inputs distance time pace = Ok (dk, tm, pm) <->
  branch_taken distance time pace dk tm pm.
Proof.
  unfold parse_inputs, branch_taken. split.
  - destruct (truthy distance) as [d | ], (truthy time) as [t | ],
      (truthy pace) as [p | ]; intros H; try discriminate H.
    + left. exists d, t.
      bind_inv H. bind_inv H. bind_inv H. injection H as <- <- <-.
      apply truediv_Ok in Ha1. destruct Ha1 as [Hz Hq].
      repeat split; assumption.
    + right; left. exists d, p.
      bind_inv H. bind_inv H. injection H as <- <- <-.
      repeat split; assumption.
    + right; right. exists t, p.
      bind_inv H. bind_inv H. bind_inv H. injection H as <- <- <-.
      apply truediv_Ok in Ha1. destruct Ha1 as [Hz Hq].
      repeat split; assumption.
  - intros [H | [H | H]].
    + destruct H as [d [t [-> [-> [-> [Hd [Ht [Hz ->]]]]]]]].
      rewrite Hd, Ht. simpl.
      unfold truediv. rewrite Hz. reflexivity.
    + destruct H as [d [p [-> [-> [-> [Hd [Hp ->]]]]]]].
      rewrite Hd, Hp. reflexivity.
    + destruct H as [t [p [-> [-> [-> [Ht [Hp [Hz ->]]]]]]]].
      rewrite Ht, Hp. simpl.
      unfold truediv. rewrite Hz. reflexivity.
Qed.

(** C1: a call returns [r] exactly when one of the three pairs is given,
    both texts parse, the divisor is not zero and the derived metrics can
    be built; the three quantities of [r] are then the two parsed ones
    and the third by the equation of the branch: pace = time / distance,
    time = distance * pace, distance = time / pace. *)
Theorem calculate_metrics_equations
        (distance time pace : option string) (r : RunningMetrics) :
  calculate_metrics distance time pace = Ok r <->
  branch_taken distance time pace
               (distance_km r) (time_minutes r) (pace_min_per_km r) /\
  derived_metrics (distance_km r) (time_minutes r) (pace_min_per_km r) = Ok r.
Proof.
  unfold calculate_metrics. split.
  - intros H. bind_inv H. destruct a as [[dk tm] pm].
    destruct (derived_metrics_fields _ _ _ _ H) as [-> [-> ->]].
    split; [ apply parse_inputs_Ok; exact Ha | exact H ].
  - intros [Hb Hd]. apply parse_inputs_Ok in Hb. rewrite Hb. exact Hd.
Qed.

Lemma calculate_metrics_equations_witness :
  exists r,
    calculate_metrics (Some "10km") (Some "45:00") None = Ok r /\
    distance_km r = 10 /\ time_minutes r = 45 /\
    pace_min_per_km r = time_minutes r / distance_km r.
Proof.
  assert (H : exists r, calculate_metrics (Some "10km") (Some "45:00") None = Ok r /\
                        distance_km r = 10 /\ time_minutes r = 45).
  { eexists. split; [ vm_compute; reflexivity | split; reflexivity ]. }
  destruct H as [r [Hr [Hd Ht]]]. exists r.
  destruct (proj1 (calculate_metrics_equations _ _ _ r) Hr) as [Hb _].
  repeat split; try assumption.
  destruct Hb as [H | [H | H]].
  - destruct H as [d [t [_ [_ [_ [_ [_ [_ Hq]]]]]]]]. exact Hq.
  - destruct H as [d [p [_ [Hn _]]]]. discriminate Hn.
  - destruct H as [t [p [Hn _]]]. discriminate Hn.
Defined.

(** C3: when the parsed divisor (the distance beside a time, the pace
    beside a time) is zero, the call raises [ZeroDivisionError]; no
    infinity is produced. *)
Theorem zero_divisor_raises (d t p : string) (num den : float) :
  (den =? 0) = true ->
  (distance_str_to_km d = Ok den -> time_str_to_minutes t = Ok num ->
   calculate_metrics (Some d) (Some t) None = Err ZeroDivisionError) /\
  (time_str_to_minutes t = Ok num -> pace_str_to_minutes p = Ok den ->
   calculate_metrics None (Some t) (Some p) = Err ZeroDivisionError).
Proof.
  intros Hz. split.
  - intros Hd Ht. unfold calculate_metrics, parse_inputs.
    rewrite (distance_given _ _ Hd), (time_given _ _ Ht). simpl.
    rewrite Hd, Ht. simpl. rewrite (truediv_zero _ _ Hz). reflexivity.
  - intros Ht Hp. unfold calculate_metrics, parse_inputs.
    rewrite (time_given _ _ Ht), (pace_given _ _ Hp). simpl.
    rewrite Ht, Hp. simpl. rewrite (truediv_zero _ _ Hz). reflexivity.
Qed.

Lemma zero_divisor_raises_witness :
  calculate_metrics (Some "0") (Some "45:00") None = Err ZeroDivisionError /\
  calculate_metrics None (Some "45:00") (Some "0") = Err ZeroDivisionError.
Proof.
  destruct (zero_divisor_raises "0" "45:00" "0" 45 0 eq_refl) as [H1 H2].
  split; [ apply H1 | apply H2 ]; vm_compute; reflexivity.
Defined.

(** ** Projected times *)

Lemma projected_loop_spec (d p : float) (ds : list (string * float)) :
  forall out,
    projected_loop d p ds = Ok out ->
    Forall2 (projection_of p) (filter (differs_from d) ds) out.
Proof.
  induction ds as [ | [text c] rest IH]; simpl; intros out H.
  - injection H as <-. constructor.
  - unfold differs_from at 1. simpl.
    destruct (negb (c =? d)).
    + bind_inv H. bind_inv H. injection H as <-.
      constructor; [ split; [ reflexivity | exact Ha ] | apply IH; exact Ha0 ].
    + apply IH. exact H.
Qed.

Lemma calculate_metrics_projected
      (distance time pace : option string) (r : RunningMetrics) :
  calculate_metrics distance time pace = Ok r ->
  projected_loop (distance_km r) (pace_min_per_km r) projected_distances
  = Ok (projected_times r).
Proof.
  unfold calculate_metrics. intros H.
  bind_inv H. destruct a as [[dk tm] pm].
  destruct (derived_metrics_fields _ _ _ _ H) as [Hd [Ht Hp]].
  apply derived_metrics_parts in H. destruct H as [_ [H _]].
  rewrite Hd, Hp. exact H.
Qed.



(** ** The unit ["m"] *)

(** C10: a text that ends with ["m"], is no preset and does not end with
    ["km"] (the units ["mi"] and ["k"] cannot end it) is read with the unit
    ["m"], whose factor is the marathon distance: a numeric prefix [x]
    gives [x * 42.195] kilometres. *)
Theorem bare_m_suffix_is_marathon (s pre : string) (x : float) :
  strip (lower s) = (pre ++ "m")%string ->
  dict_get (pre ++ "m") DISTANCE_UNITS = None ->
  endswith (pre ++ "m") "km" = false ->
  PyFloat.of_string pre = Ok x ->
  distance_str_to_km s = Ok (x * 42.195).
Proof.
  intros Hs Hpreset Hkm Hx.
  unfold distance_str_to_km. rewrite Hs, Hpreset.
  unfold DISTANCE_UNITS. cbn [scan_units].
  rewrite (PyStrFacts.endswith_other_last pre "mi" "m" "i" eq_refl)
    by discriminate.
  rewrite Hkm.
  rewrite (PyStrFacts.endswith_other_last pre "k" "m" "k" eq_refl)
    by discriminate.
  rewrite PyStrFacts.endswith_app, PyStrFacts.removesuffix_app, Hx.
  reflexivity.
Qed.

Lemma bare_m_suffix_is_marathon_witness :
  distance_str_to_km "100m" = Ok 4219.5.
Proof.
  change 4219.5 with (100 * 42.195).
  apply (bare_m_suffix_is_marathon "100m" "100" 100); vm_compute; reflexivity.
Defined.

(** ** The [M:SS] form *)

Lemma zeros_length (n : nat) : String.length (zeros n) = n.
Proof. induction n as [ | n IH]; simpl; [ reflexivity | rewrite IH; reflexivity ]. Qed.

(** [format(n, "02d")] is never shorter than two characters. *)
Lemma format_02d_width (n : Z) : (2 <= String.length (format_02d n))%nat.
Proof.
  unfold format_02d.
  rewrite !PyStrFacts.length_app, zeros_length. lia.
Qed.

(** C5 fails as stated: 4.76 minutes are 4 minutes and 45.6 seconds; the
    rounded form of the specification is "4:46", the program prints "4:45". *)
Lemma seconds_are_not_rounded :
  is_finite 4.76 = true /\ (0 <=? 4.76) = true /\ (4.76 <? 60) = true /\
  SpecWords.format_rounded 4.76 = Ok "4:46" /\
  minutes_to_time_str 4.76 true = Ok "4:45" /\
  minutes_to_time_str 4.76 false = Ok "4:45".
Proof. repeat split; vm_compute; reflexivity. Qed.

(** ** The range of the parsed values *)

Lemma preset_values_positive (key : string) (km : float) :
  dict_get key DISTANCE_UNITS = Some km ->
  is_finite km = true /\ (0 <? km) = true.
Proof.
  unfold DISTANCE_UNITS. cbn [dict_get].
  repeat match goal with
         | |- (if ?b then _ else _) = _ -> _ => destruct b
         end;
    intros H; try discriminate H; injection H as <-;
    split; vm_compute; reflexivity.
Qed.

(** C6 fails as stated: each parser returns a value that is negative,
    infinite or not a number - from a bare number, from a number with a
    unit, from a colon form; and the letter form returns an infinity for a
    number of 310 digits. *)
Lemma parsed_values_out_of_range :
  distance_str_to_km "-5" = Ok (-5) /\ (-5 <? 0) = true /\
  time_str_to_minutes "inf" = Ok infinity /\ is_finite infinity = false /\
  pace_str_to_minutes "nan" = Ok nan /\ is_finite nan = false /\
  time_str_to_minutes "-90" = Ok (-90) /\ (-90 <? 0) = true /\
  pace_str_to_minutes "-4:30" = Ok (-3.5) /\ (-3.5 <? 0) = true /\
  distance_str_to_km "-5km" = Ok (-5) /\
  time_str_to_minutes "-1:30" = Ok (-0.5) /\ (-0.5 <? 0) = true /\
  time_str_to_minutes ("1" ++ zeros 309 ++ "h") = Ok infinity.
Proof. repeat split; vm_compute; reflexivity. Qed.

(** ** Further facts about the result *)

Lemma splits_loop_labels (p : float) (ds : list (string * float)) :
  forall out,
    splits_loop p ds = Ok out ->
    map fst out = map (fun checkpoint => label (fst checkpoint)) ds.
Proof.
  induction ds as [ | [text c] rest IH]; simpl; intros out H.
  - injection H as <-. reflexivity.
  - bind_inv H. bind_inv H. injection H as <-.
    simpl. rewrite (IH _ Ha0). reflexivity.
Qed.

Lemma zones_loop_names (p : float) (zs : list (string * (float * float))) :
  forall out, zones_loop p zs = Ok out -> map fst out = map fst zs.
Proof.
  induction zs as [ | [name [lo hi]] rest IH]; simpl; intros out H.
  - injection H as <-. reflexivity.
  - bind_inv H. bind_inv H. bind_inv H. injection H as <-.
    simpl. rewrite (IH _ Ha1). reflexivity.
Qed.

(** The keys of [splits] and [training_zones] are always the five
    checkpoints and the five zones, in the order of the source. *)
Theorem result_keys_fixed
        (distance time pace : option string) (r : RunningMetrics) :
  calculate_metrics distance time pace = Ok r ->
  map fst (splits r) = ["1km"; "5km"; "10km"; "21.0975km"; "42.195km"] /\
  map fst (training_zones r) = ["Easy"; "Threshold"; "Tempo"; "VO2 Max"; "Speed"].
Proof.
  unfold calculate_metrics. intros H.
  bind_inv H. destruct a as [[dk tm] pm].
  apply derived_metrics_parts in H. destruct H as [Hs [_ Hz]].
  split.
  - apply splits_loop_labels in Hs. exact Hs.
  - apply zones_loop_names in Hz. exact Hz.
Qed.

Lemma result_keys_fixed_witness :
  exists r,
    calculate_metrics (Some "marathon") None (Some "4:30") = Ok r /\
    map fst (splits r) = ["1km"; "5km"; "10km"; "21.0975km"; "42.195km"] /\
    map fst (training_zones r) = ["Easy"; "Threshold"; "Tempo"; "VO2 Max"; "Speed"].
Proof.
  assert (H : exists r, calculate_metrics (Some "marathon") None (Some "4:30") = Ok r).
  { eexists. vm_compute. reflexivity. }
  destruct H as [r Hr]. exists r.
  split; [ exact Hr | exact (result_keys_fixed _ _ _ r Hr) ].
Defined.

(** X2: the speed of a result is [60 / pace] for a positive pace and [0]
    otherwise. *)
Theorem speed_of_result
        (distance time pace : option string) (r : RunningMetrics) :
  calculate_metrics distance time pace = Ok r ->
  speed_kmh r = if 0 <? pace_min_per_km r then 60 / pace_min_per_km r else 0.
Proof.
  unfold calculate_metrics. intros H.
  bind_inv H. destruct a as [[dk tm] pm].
  destruct (derived_metrics_fields _ _ _ _ H) as [_ [_ ->]].
  unfold derived_metrics in H.
  bind_inv H. bind_inv H. bind_inv H. bind_inv H.
  injection H as <-. simpl.
  destruct (0 <? pm).
  - apply truediv_Ok in Ha0. destruct Ha0 as [_ ->]. reflexivity.
  - injection Ha0 as <-. reflexivity.
Qed.

Lemma speed_of_result_witness :
  exists r,
    calculate_metrics None (Some "1:30:00") (Some "5:00") = Ok r /\
    distance_km r = 18 /\ speed_kmh r = 12.
Proof.
  assert (H : exists r, calculate_metrics None (Some "1:30:00") (Some "5:00") = Ok r /\
                        distance_km r = 18 /\ pace_min_per_km r = 5).
  { eexists. split; [ vm_compute; reflexivity | split; reflexivity ]. }
  destruct H as [r [Hr [Hd Hp]]]. exists r.
  split; [ exact Hr | split; [ exact Hd | ] ].
  rewrite (speed_of_result _ _ _ r Hr), Hp. reflexivity.
Defined.

(** The parsing examples of the specification. *)
Theorem parsing_examples :
  distance_str_to_km "42.195km" = Ok 42.195 /\
  distance_str_to_km "marathon" = Ok 42.195 /\
  time_str_to_minutes "1h30m20s" = Ok (90 + 20 / 60) /\
  time_str_to_minutes "1:30:45" = Ok 90.75 /\
  pace_str_to_minutes "4:30" = Ok 4.5 /\
  distance_str_to_km "abc" = Err (InputError "abc" "distance") /\
  time_str_to_minutes "abc" = Err (InputError "abc" "time") /\
  pace_str_to_minutes "abc" = Err (InputError "abc" "pace").
Proof. repeat split; vm_compute; reflexivity. Qed.

(** The three scenarios of the specification; the marathon at 4:30 takes
    189.8775 minutes, shown with the seconds cut as "3:09:52". *)
Theorem scenarios :
  (exists r, calculate_metrics (Some "10km") (Some "45:00") None = Ok r /\
             pace_min_per_km r = 4.5 /\
             minutes_to_time_str (pace_min_per_km r) false = Ok "4:30" /\
             dict_get "10km" (splits r) = Some "45:00") /\
  (exists r, calculate_metrics (Some "marathon") None (Some "4:30") = Ok r /\
             time_minutes r = 42.195 * 4.5 /\
             minutes_to_time_str (time_minutes r) true = Ok "3:09:52") /\
  (exists r, calculate_metrics None (Some "1:30:00") (Some "5:00") = Ok r /\
             distance_km r = 90 / 5 /\ distance_km r = 18).
Proof.
  repeat split; eexists; (split; [ vm_compute; reflexivity | ]);
    repeat split; vm_compute; reflexivity.
Qed.

(** [float] reads a decimal text to the nearest binary64 value, a tie
    going to the even one; too large a value is an infinity. *)
Example float_of_text :
  PyFloat.of_string "42.195" = Ok 42.195 /\
  PyFloat.of_string " 1.609344 " = Ok 1.609344 /\
  PyFloat.of_string "1e23" = Ok 1e23 /\
  PyFloat.of_string "9007199254740993" = Ok 9007199254740992 /\
  PyFloat.of_string "9007199254740995" = Ok 9007199254740996 /\
  PyFloat.of_string "5e-324" = Ok 5e-324 /\
  PyFloat.of_string "1e400" = Ok infinity /\
  PyFloat.of_string "-0" = Ok (-0) /\
  PyFloat.of_string "1_000.5" = Ok 1000.5 /\
  PyFloat.of_string "-Infinity" = Ok neg_infinity /\
  PyFloat.of_string "1e" = Err (ValueError (CouldNotConvert "1e")) /\
  PyFloat.of_string "" = Err (ValueError (CouldNotConvert "")).
Proof. repeat split; vm_compute; reflexivity. Qed.

(** The formatter at the edges of a minute and of an hour. *)
Example minutes_to_time_str_edges :
  minutes_to_time_str 0 true = Ok "0:00" /\
  minutes_to_time_str 59.999 true = Ok "59:59" /\
  minutes_to_time_str 60 true = Ok "1:00:00" /\
  minutes_to_time_str 90.5 false = Ok "90:30" /\
  minutes_to_time_str 189.8775 true = Ok "3:09:52" /\
  minutes_to_time_str nan true = Err (ValueError CannotConvertNaN) /\
  minutes_to_time_str infinity false = Err (ValueError CannotConvertNaN).
Proof. repeat split; vm_compute; reflexivity. Qed.

End PaceCalculatorFacts.

(** ** Numerals *)
Module NumeralFacts.
Import PyStr Vocabulary.

Lemma append_empty (s : string) : (s ++ "")%string = s.
Proof. induction s as [ | c s IH]; simpl; [ reflexivity | rewrite IH; reflexivity ]. Qed.

Lemma append_assoc (a b c : string) : ((a ++ b) ++ c)%string = (a ++ (b ++ c))%string.
Proof. induction a as [ | x a IH]; simpl; [ reflexivity | rewrite IH; reflexivity ]. Qed.

Lemma all_chars_app (p : ascii -> bool) (a b : string) :
  all_chars p (a ++ b) = all_chars p a && all_chars p b.
Proof.
  induction a as [ | c a IH]; simpl; [ reflexivity | ].
  rewrite IH. apply andb_assoc.
Qed.

Lemma all_chars_weaken (p q : ascii -> bool) (s : string) :
  (forall c, p c = true -> q c = true) ->
  all_chars p s = true -> all_chars q s = true.
Proof.
  intros Hpq. induction s as [ | c s IH]; simpl; [ reflexivity | ].
  intros H. apply andb_true_iff in H. destruct H as [Hc Hs].
  rewrite (Hpq _ Hc), (IH Hs). reflexivity.
Qed.

(** The ten digits, one by one. *)
Lemma is_digit_cases (c : ascii) :
  is_digit c = true ->
  In c ["0"; "1"; "2"; "3"; "4"; "5"; "6"; "7"; "8"; "9"]%char.
Proof.
  destruct c as [b0 b1 b2 b3 b4 b5 b6 b7].
  destruct b0, b1, b2, b3, b4, b5, b6, b7; vm_compute; intros H;
    try discriminate H; tauto.
Qed.

(** Discharges a fact about a digit by trying the ten of them. *)
Ltac by_digit H :=
  apply is_digit_cases in H; simpl in H;
  repeat (destruct H as [H | H]; [ subst; vm_compute; try reflexivity; try discriminate | ]);
  try contradiction.

Lemma span_digits_all (ds rest : string) :
  all_digits ds = true -> no_digit_ahead rest ->
  span_digits (ds ++ rest) = (ds, rest).
Proof.
  intros Hds Hrest. induction ds as [ | c ds IH].
  - destruct rest as [ | c r]; simpl in *; [ reflexivity | rewrite Hrest; reflexivity ].
  - simpl in Hds. apply andb_true_iff in Hds. destruct Hds as [Hc Hds].
    simpl. rewrite Hc, (IH Hds). reflexivity.
Qed.

Lemma span_digits_spec (s : string) :
  forall ds rest,
    span_digits s = (ds, rest) ->
    s = (ds ++ rest)%string /\ all_digits ds = true /\ no_digit_ahead rest.
Proof.
  induction s as [ | c s IH]; simpl; intros ds rest H.
  - injection H as <- <-. repeat split.
  - destruct (is_digit c) eqn:Ec.
    + destruct (span_digits s) as [ds' rest'] eqn:Es.
      injection H as <- <-.
      destruct (IH _ _ eq_refl) as [-> [Hd Hr]].
      repeat split; [ | exact Hr ].
      unfold all_digits. simpl. rewrite Ec. exact Hd.
    + injection H as <- <-. repeat split. simpl. exact Ec.
Qed.

(** *** Texts that [float] accepts *)

Lemma lstrip_id (c : ascii) (r : string) :
  isspace c = false -> lstrip (String c r) = String c r.
Proof. intros H. simpl. rewrite H. reflexivity. Qed.

Lemma rstrip_id (s : string) :
  all_chars (fun c => negb (isspace c)) s = true -> rstrip s = s.
Proof.
  induction s as [ | c s IH]; simpl; [ reflexivity | ].
  intros H. apply andb_true_iff in H. destruct H as [Hc Hs].
  apply negb_true_iff in Hc. rewrite Hc, (IH Hs). reflexivity.
Qed.

Lemma strip_id (s : string) :
  all_chars (fun c => negb (isspace c)) s = true -> strip s = s.
Proof.
  intros H. unfold strip. destruct s as [ | c r]; [ reflexivity | ].
  pose proof H as H'. simpl in H'. apply andb_true_iff in H'.
  destruct H' as [Hc _]. apply negb_true_iff in Hc.
  rewrite (lstrip_id _ _ Hc). apply rstrip_id. exact H.
Qed.

Lemma blank_is_space (c : ascii) :
  negb (isspace c) = true -> negb (PyFloat.is_blank c) = true.
Proof.
  destruct c as [b0 b1 b2 b3 b4 b5 b6 b7].
  destruct b0, b1, b2, b3, b4, b5, b6, b7; intros H;
    first [ reflexivity | discriminate H ].
Qed.

Lemma drop_blanks_id (s : string) :
  all_chars (fun c => negb (PyFloat.is_blank c)) s = true ->
  PyFloat.drop_blanks s = s.
Proof.
  induction s as [ | c s IH]; simpl; [ reflexivity | ].
  intros H. apply andb_true_iff in H. destruct H as [Hc Hs].
  apply negb_true_iff in Hc. rewrite Hc, (IH Hs). reflexivity.
Qed.

(** [float] finds no blank to skip around a text that [str.strip] leaves
    as it is. *)
Lemma strip_blanks_id (s : string) :
  all_chars (fun c => negb (isspace c)) s = true -> PyFloat.strip_blanks s = s.
Proof.
  intros H.
  apply (all_chars_weaken _ (fun c => negb (PyFloat.is_blank c)) _ blank_is_space)
    in H.
  unfold PyFloat.strip_blanks. destruct s as [ | c r]; [ reflexivity | ].
  pose proof H as H'. simpl in H'. apply andb_true_iff in H'.
  destruct H' as [Hc _]. apply negb_true_iff in Hc.
  simpl PyFloat.skip_blanks. rewrite Hc. apply drop_blanks_id. exact H.
Qed.

Lemma contains_none (c : ascii) (s : string) :
  all_chars (fun d => negb (d =? c)%char) s = true -> contains c s = false.
Proof.
  induction s as [ | d s IH]; simpl; [ reflexivity | ].
  intros H. apply andb_true_iff in H. destruct H as [Hd Hs].
  apply negb_true_iff in Hd. rewrite Hd, (IH Hs). reflexivity.
Qed.

Lemma digit_no_space (c : ascii) : is_digit c = true -> negb (isspace c) = true.
Proof. intros H. by_digit H. Qed.

Lemma digit_no_underscore (c : ascii) :
  is_digit c = true -> negb (c =? "_")%char = true.
Proof. intros H. by_digit H. Qed.

Lemma parse_sign_digit (c : ascii) (r : string) :
  is_digit c = true -> PyFloat.parse_sign (String c r) = (false, String c r).
Proof. intros H. by_digit H. Qed.

Lemma parse_inf_or_nan_digit (c : ascii) (r : string) :
  is_digit c = true -> PyFloat.parse_inf_or_nan (String c r) = None.
Proof. intros H. by_digit H. Qed.

Lemma parse_inf_or_nan_minus_digit (c : ascii) (r : string) :
  is_digit c = true -> PyFloat.parse_inf_or_nan (String "-" (String c r)) = None.
Proof. intros H. by_digit H. Qed.

Lemma nonempty_app (a b : string) : a <> "" -> ((a ++ b)%string =? "") = false.
Proof.
  intros H. destruct a as [ | c a]; [ contradiction | reflexivity ].
Qed.

(** The digits of a whole number are a decimal for [float]. *)
Lemma parse_decimal_digits (neg : bool) (digits : string) :
  all_digits digits = true -> digits <> "" ->
  exists x,
    PyFloat.parse_decimal (if neg then String "-" digits else digits) = Some x.
Proof.
  intros Hd Hne. destruct digits as [ | c r]; [ contradiction | ].
  pose proof Hd as Hc. unfold all_digits in Hc. simpl in Hc.
  apply andb_true_iff in Hc. destruct Hc as [Hc _].
  assert (Hsign : PyFloat.parse_sign (if neg then String "-" (String c r) else String c r)
                  = (neg, String c r)).
  { destruct neg; [ reflexivity | apply parse_sign_digit; exact Hc ]. }
  unfold PyFloat.parse_decimal. rewrite Hsign.
  pose proof (span_digits_all (String c r) "" Hd I) as Hs.
  rewrite append_empty in Hs. rewrite Hs.
  rewrite append_empty. change (String c r =? "") with false. cbv iota.
  eexists. reflexivity.
Qed.

(** So are digits, a dot and digits. *)
Lemma parse_decimal_fraction (whole frac : string) :
  all_digits whole = true -> whole <> "" ->
  all_digits frac = true ->
  exists x, PyFloat.parse_decimal (whole ++ String "." frac) = Some x.
Proof.
  intros Hw Hne Hf. destruct whole as [ | c r]; [ contradiction | ].
  pose proof Hw as Hc. unfold all_digits in Hc. simpl in Hc.
  apply andb_true_iff in Hc. destruct Hc as [Hc _].
  unfold PyFloat.parse_decimal.
  change (String c r ++ String "." frac)%string
    with (String c (r ++ String "." frac)).
  rewrite (parse_sign_digit _ _ Hc).
  change (String c (r ++ String "." frac))
    with (String c r ++ String "." frac)%string.
  rewrite (span_digits_all (String c r) (String "." frac) Hw eq_refl).
  pose proof (span_digits_all frac "" Hf I) as Hs.
  rewrite append_empty in Hs. rewrite Hs.
  change (String c r ++ frac =? "")%string with false. cbv iota.
  eexists. reflexivity.
Qed.

(** [float] accepts a text of digits, with a minus sign before them or a
    dot and more digits after them. *)
Lemma of_string_digits (neg : bool) (digits : string) :
  all_digits digits = true -> digits <> "" ->
  exists x,
    PyFloat.of_string (if neg then String "-" digits else digits) = Ok x.
Proof.
  intros Hd Hne.
  destruct (parse_decimal_digits neg digits Hd Hne) as [x Hx].
  exists x. unfold PyFloat.of_string.
  assert (Hsp : all_chars (fun c => negb (isspace c))
                          (if neg then String "-" digits else digits) = true).
  { destruct neg; simpl;
      apply (all_chars_weaken is_digit _ _ digit_no_space); exact Hd. }
  assert (Hun : all_chars (fun c => negb (c =? "_")%char)
                          (if neg then String "-" digits else digits) = true).
  { destruct neg; simpl;
      apply (all_chars_weaken is_digit _ _ digit_no_underscore); exact Hd. }
  rewrite (strip_blanks_id _ Hsp), (contains_none _ _ Hun).
  unfold PyFloat.parse_number.
  destruct digits as [ | c r]; [ contradiction | ].
  pose proof Hd as Hc. unfold all_digits in Hc. simpl in Hc.
  apply andb_true_iff in Hc. destruct Hc as [Hc _].
  destruct neg.
  - rewrite (parse_inf_or_nan_minus_digit _ _ Hc), Hx. reflexivity.
  - rewrite (parse_inf_or_nan_digit _ _ Hc), Hx. reflexivity.
Qed.

Lemma of_string_fraction (whole frac : string) :
  all_digits whole = true -> whole <> "" ->
  all_digits frac = true ->
  exists x, PyFloat.of_string (whole ++ String "." frac) = Ok x.
Proof.
  intros Hw Hne Hf.
  destruct (parse_decimal_fraction whole frac Hw Hne Hf) as [x Hx].
  exists x. unfold PyFloat.of_string.
  assert (Hsp : all_chars (fun c => negb (isspace c)) (whole ++ String "." frac) = true).
  { rewrite all_chars_app. simpl.
    rewrite (all_chars_weaken is_digit _ _ digit_no_space Hw),
      (all_chars_weaken is_digit _ _ digit_no_space Hf). reflexivity. }
  assert (Hun : all_chars (fun c => negb (c =? "_")%char) (whole ++ String "." frac) = true).
  { rewrite all_chars_app. simpl.
    rewrite (all_chars_weaken is_digit _ _ digit_no_underscore Hw),
      (all_chars_weaken is_digit _ _ digit_no_underscore Hf). reflexivity. }
  rewrite (strip_blanks_id _ Hsp), (contains_none _ _ Hun).
  unfold PyFloat.parse_number.
  destruct whole as [ | c r]; [ contradiction | ].
  pose proof Hw as Hc. unfold all_digits in Hc. simpl in Hc.
  apply andb_true_iff in Hc. destruct Hc as [Hc _].
  change (String c r ++ String "." frac)%string
    with (String c (r ++ String "." frac)) at 1.
  rewrite (parse_inf_or_nan_digit _ _ Hc), Hx. reflexivity.
Qed.

End NumeralFacts.

(** ** Which exception comes from where *)
Module ErrorFacts.
Import PyStr PyNum PaceCalculator Vocabulary PaceCalculatorFacts NumeralFacts.

Local Open Scope float_scope.

Lemma of_string_error (s : string) (e : exn) :
  PyFloat.of_string s = Err e -> e = ValueError (CouldNotConvert s).
Proof.
  unfold PyFloat.of_string.
  destruct (if contains "_" (PyFloat.strip_blanks s) then _ else _); intros H.
  - discriminate H.
  - injection H as <-. reflexivity.
Qed.

Lemma bind_Err {A B : Type} (r : result A) (k : A -> result B) (e : exn) :
  bind r k = Err e -> r = Err e \/ exists a, r = Ok a /\ k a = Err e.
Proof.
  destruct r as [a | e']; simpl; intros H.
  - right. exists a. split; [ reflexivity | exact H ].
  - left. injection H as <-. reflexivity.
Qed.

(** [try: return float(text) * factor except ValueError: raise e0] fails
    with [e0] only. *)
Lemma guarded_float_error (text : string) (f : float -> float) (e0 e : exn) :
  except_ValueError (value <- PyFloat.of_string text ;; Ok (f value)) e0 = Err e ->
  e = e0.
Proof.
  destruct (PyFloat.of_string text) as [v | e1] eqn:E; simpl.
  - discriminate.
  - apply of_string_error in E. subst e1. simpl. intros H. injection H as <-.
    reflexivity.
Qed.

Lemma guarded_plain_float_error (text : string) (e0 e : exn) :
  except_ValueError (PyFloat.of_string text) e0 = Err e -> e = e0.
Proof.
  destruct (PyFloat.of_string text) as [v | e1] eqn:E; simpl.
  - discriminate.
  - apply of_string_error in E. subst e1. simpl. intros H. injection H as <-.
    reflexivity.
Qed.

Lemma scan_units_error (distance : string) (units : list (string * float)) (e : exn) :
  scan_units distance units = Some (Err e) ->
  e = InputError distance "distance".
Proof.
  induction units as [ | [unit multiplier] rest IH]; simpl.
  - discriminate.
  - destruct (endswith distance unit).
    + intros H. injection H as H. apply guarded_float_error in H. exact H.
    + exact IH.
Qed.

Lemma distance_fails_with_InputError_aux (s : string) (e : exn) :
  distance_str_to_km s = Err e ->
  e = InputError (strip (lower s)) "distance".
Proof.
  unfold distance_str_to_km.
  destruct (dict_get (strip (lower s)) DISTANCE_UNITS) as [km | ].
  - discriminate.
  - destruct (scan_units (strip (lower s)) DISTANCE_UNITS) as [[v | e1] | ] eqn:E.
    + discriminate.
    + intros H. injection H as <-. apply scan_units_error in E. exact E.
    + apply guarded_plain_float_error.
Qed.

(** X3: whatever the text, [distance_str_to_km] returns a value or fails in
    one way only: with the [InputError] for a distance that carries the
    text in lower case without the blanks around it. *)
Theorem distance_fails_with_InputError (s : string) (e : exn) :
  distance_str_to_km s = Err e ->
  e = InputError (strip (lower s)) "distance".
Proof. exact (distance_fails_with_InputError_aux s e). Qed.

Lemma distance_fails_with_InputError_witness :
  distance_str_to_km " 12xKM " = Err (InputError "12xkm" "distance").
Proof.
  destruct (distance_str_to_km " 12xKM ") as [v | e] eqn:E.
  - vm_compute in E. discriminate E.
  - rewrite (distance_fails_with_InputError _ _ E). reflexivity.
Defined.

(** *** The letter form of a time *)

Lemma number_token_unfold (frac : bool) (s : string) :
  number_token frac s =
  let (ip, r) := span_digits s in
  if (ip =? "")%string then None
  else match r with
       | EmptyString => Some (ip, r)
       | String c r' =>
           if (c =? ".")%char
           then let (fp, r'') := span_digits r' in
                if frac && negb (fp =? "")%string
                then Some ((ip ++ "." ++ fp)%string, r'')
                else Some (ip, r)
           else Some (ip, r)
       end.
Proof.
  unfold number_token. destruct (span_digits s) as [ip r].
  destruct (ip =? "")%string; [ reflexivity | ].
  destruct r as [ | c r']; [ reflexivity | ].
  destruct c as [b0 b1 b2 b3 b4 b5 b6 b7].
  destruct b0, b1, b2, b3, b4, b5, b6, b7; reflexivity.
Qed.

(** A number the letter pattern matches is a number for [float]. *)
Lemma number_token_accepted (frac : bool) (s tok rest : string) :
  number_token frac s = Some (tok, rest) ->
  exists x, PyFloat.of_string tok = Ok x.
Proof.
  rewrite number_token_unfold.
  destruct (span_digits s) as [ip r] eqn:Es.
  destruct (span_digits_spec _ _ _ Es) as [_ [Hip _]].
  destruct (ip =? "")%string eqn:Ene; [ discriminate | ].
  apply String.eqb_neq in Ene.
  assert (Hplain : exists x, PyFloat.of_string ip = Ok x).
  { exact (of_string_digits false ip Hip Ene). }
  destruct r as [ | c r'].
  - intros H. injection H as <- _. exact Hplain.
  - destruct (c =? ".")%char.
    + destruct (span_digits r') as [fp r''] eqn:Ef.
      destruct (span_digits_spec _ _ _ Ef) as [_ [Hfp _]].
      destruct (frac && negb (fp =? "")%string).
      * intros H. injection H as <- _.
        exact (of_string_fraction ip fp Hip Ene Hfp).
      * intros H. injection H as <- _. exact Hplain.
    + intros H. injection H as <- _. exact Hplain.
Qed.

Lemma unit_group_accepted (frac : bool) (letter : ascii) (s rest : string)
      (g : option string) :
  unit_group frac letter s = (g, rest) ->
  exists x, group_value g = Ok x.
Proof.
  unfold unit_group.
  destruct (number_token frac s) as [[tok [ | c r]] | ] eqn:E.
  - intros H. injection H as <- _. exists 0%float. reflexivity.
  - destruct (c =? letter)%char; intros H; injection H as <- _.
    + exact (number_token_accepted _ _ _ _ E).
    + exists 0%float. reflexivity.
  - intros H. injection H as <- _. exists 0%float. reflexivity.
Qed.

(** The letter form fails in one way only: the pattern does not match. *)
Lemma letters_error (time : string) (e : exn) :
  _parse_time_with_letters time = Err e -> e = InputError time "time".
Proof.
  unfold _parse_time_with_letters.
  destruct (unit_group true "h" time) as [gh s1] eqn:Eh.
  destruct (unit_group true "m" s1) as [gm s2] eqn:Em.
  destruct (unit_group false "s" s2) as [gs s3] eqn:Es.
  destruct (unit_group_accepted _ _ _ _ _ Eh) as [h Hh].
  destruct (unit_group_accepted _ _ _ _ _ Em) as [m Hm].
  destruct (unit_group_accepted _ _ _ _ _ Es) as [sec Hsec].
  destruct (at_end s3).
  - rewrite Hh, Hm, Hsec. simpl. discriminate.
  - intros H. injection H as <-. reflexivity.
Qed.

(** *** The colon forms *)

(** [float(minutes) + float(seconds) / 60] and the form with hours fail
    with the [ValueError] of the first part that is no number. *)
Lemma colons_error (time : string) (e : exn) :
  _parse_time_with_colons time = Err e ->
  e = InputError time "time" \/
  exists part, In part (split ":" time) /\ e = ValueError (CouldNotConvert part).
Proof.
  unfold _parse_time_with_colons.
  destruct (split ":" time) as [ | p1 [ | p2 [ | p3 [ | p4 rest]]]];
    try (intros H; injection H as <-; left; reflexivity).
  - intros H.
    destruct (PyFloat.of_string p1) as [m | e1] eqn:E1; simpl in H.
    + destruct (PyFloat.of_string p2) as [sec | e2] eqn:E2; simpl in H;
        [ discriminate H | ].
      injection H as <-. apply of_string_error in E2.
      right. exists p2. split; [ simpl; tauto | exact E2 ].
    + injection H as <-. apply of_string_error in E1.
      right. exists p1. split; [ simpl; tauto | exact E1 ].
  - intros H.
    destruct (PyFloat.of_string p1) as [h | e1] eqn:E1; simpl in H.
    + destruct (PyFloat.of_string p2) as [m | e2] eqn:E2; simpl in H.
      * destruct (PyFloat.of_string p3) as [sec | e3] eqn:E3; simpl in H;
          [ discriminate H | ].
        injection H as <-. apply of_string_error in E3.
        right. exists p3. split; [ simpl; tauto | exact E3 ].
      * injection H as <-. apply of_string_error in E2.
        right. exists p2. split; [ simpl; tauto | exact E2 ].
    + injection H as <-. apply of_string_error in E1.
      right. exists p1. split; [ simpl; tauto | exact E1 ].
Qed.

(** X4: [time_str_to_minutes] fails with the [InputError] for a time that
    carries the text without the blanks around it, except in the colon
    form: there, and only there (no letter h, m or s in the text, a colon
    in it), a part that is no number lets the [ValueError] of [float]
    through. *)
Theorem time_failures (s : string) (e : exn) :
  time_str_to_minutes s = Err e ->
  e = InputError (strip s) "time" \/
  (contains "h" (strip s) || contains "m" (strip s) || contains "s" (strip s)
   = false /\
   contains ":" (strip s) = true /\
   exists part,
     In part (split ":" (strip s)) /\ e = ValueError (CouldNotConvert part)).
Proof.
  unfold time_str_to_minutes.
  destruct (contains "h" (strip s) || contains "m" (strip s) || contains "s" (strip s)).
  - intros H. left. apply letters_error. exact H.
  - destruct (contains ":" (strip s)).
    + intros H. apply colons_error in H. destruct H as [H | H].
      * left. exact H.
      * right. repeat split. exact H.
    + intros H. left. apply guarded_plain_float_error in H. exact H.
Qed.

Lemma time_failures_aux (s : string) (e : exn) :
  time_str_to_minutes s = Err e ->
  e = InputError (strip s) "time" \/
  exists part, e = ValueError (CouldNotConvert part).
Proof.
  unfold time_str_to_minutes.
  destruct (contains "h" (strip s) || contains "m" (strip s) || contains "s" (strip s)).
  - intros H. left. apply letters_error. exact H.
  - destruct (contains ":" (strip s)).
    + intros H. apply colons_error in H. destruct H as [H | [part [_ H]]].
      * left. exact H.
      * right. exists part. exact H.
    + intros H. left. apply guarded_plain_float_error in H. exact H.
Qed.

Lemma time_failures_witness :
  ValueError (CouldNotConvert "3o") = InputError (strip "1:3o") "time" \/
  (contains "h" (strip "1:3o") || contains "m" (strip "1:3o")
   || contains "s" (strip "1:3o") = false /\
   contains ":" (strip "1:3o") = true /\
   exists part,
     In part (split ":" (strip "1:3o")) /\
     ValueError (CouldNotConvert "3o") = ValueError (CouldNotConvert part)).
Proof. apply (time_failures "1:3o"). vm_compute. reflexivity. Defined.

(** X5: [pace_str_to_minutes] fails with the [InputError] for a pace,
    except when the text has exactly two parts around one colon: then a
    part that is no number lets the [ValueError] of [float] through. *)
Theorem pace_failures (s : string) (e : exn) :
  pace_str_to_minutes s = Err e ->
  e = InputError (strip s) "pace" \/
  (contains ":" (strip s) = true /\
   exists minutes seconds,
     split ":" (strip s) = [minutes; seconds] /\
     (e = ValueError (CouldNotConvert minutes) \/
      e = ValueError (CouldNotConvert seconds))).
Proof.
  unfold pace_str_to_minutes.
  destruct (contains ":" (strip s)).
  - destruct (split ":" (strip s)) as [ | p1 [ | p2 [ | p3 rest]]];
      try (intros H; left; apply guarded_plain_float_error in H; exact H).
    intros H. right. split; [ reflexivity | ]. exists p1, p2.
    split; [ reflexivity | ].
    destruct (PyFloat.of_string p1) as [m | e1] eqn:E1; simpl in H.
    + destruct (PyFloat.of_string p2) as [sec | e2] eqn:E2; simpl in H;
        [ discriminate H | ].
      injection H as <-. right. apply of_string_error in E2. exact E2.
    + injection H as <-. left. apply of_string_error in E1. exact E1.
  - intros H. left. apply guarded_plain_float_error in H. exact H.
Qed.

Lemma pace_failures_aux (s : string) (e : exn) :
  pace_str_to_minutes s = Err e ->
  e = InputError (strip s) "pace" \/
  exists part, e = ValueError (CouldNotConvert part).
Proof.
  unfold pace_str_to_minutes.
  destruct (contains ":" (strip s)).
  - destruct (split ":" (strip s)) as [ | p1 [ | p2 [ | p3 rest]]];
      try (intros H; left; apply guarded_plain_float_error in H; exact H).
    intros H.
    destruct (PyFloat.of_string p1) as [m | e1] eqn:E1; simpl in H.
    + destruct (PyFloat.of_string p2) as [sec | e2] eqn:E2; simpl in H;
        [ discriminate H | ].
      injection H as <-. right. exists p2. apply of_string_error in E2. exact E2.
    + injection H as <-. right. exists p1. apply of_string_error in E1. exact E1.
  - intros H. left. apply guarded_plain_float_error in H. exact H.
Qed.

Lemma pace_failures_witness :
  ValueError (CouldNotConvert "3o") = InputError (strip "4:3o") "pace" \/
  (contains ":" (strip "4:3o") = true /\
   exists minutes seconds,
     split ":" (strip "4:3o") = [minutes; seconds] /\
     (ValueError (CouldNotConvert "3o") = ValueError (CouldNotConvert minutes) \/
      ValueError (CouldNotConvert "3o") = ValueError (CouldNotConvert seconds))).
Proof. apply (pace_failures "4:3o"). vm_compute. reflexivity. Defined.

(** *** The derived metrics *)

Lemma float_divmod_total (vx wx : float) :
  (wx =? 0) = false -> exists q r, float_divmod vx wx = Ok (q, r).
Proof.
  intros Hw. unfold float_divmod. rewrite Hw.
  destruct (fmod vx wx =? 0).
  - eexists. eexists. reflexivity.
  - destruct (xorb (wx <? 0) (fmod vx wx <? 0)); eexists; eexists; reflexivity.
Qed.

Lemma int_of_float_error (x : float) (e : exn) :
  int_of_float x = Err e -> int_conversion_error e.
Proof.
  unfold int_of_float, int_conversion_error.
  destruct (Prim2SF x); intros H; try discriminate H; injection H as <-; tauto.
Qed.

(** The formatter fails only where [int] does. *)
Lemma minutes_to_time_str_error (minutes : float) (show_hours : bool) (e : exn) :
  minutes_to_time_str minutes show_hours = Err e -> int_conversion_error e.
Proof.
  unfold minutes_to_time_str.
  destruct ((minutes <? 60) || negb show_hours).
  - destruct (float_divmod_total minutes 1 eq_refl) as [mins [secs ->]]. simpl.
    intros H. apply bind_Err in H. destruct H as [H | [M [_ H]]].
    + exact (int_of_float_error _ _ H).
    + apply bind_Err in H. destruct H as [H | [SS [_ H]]].
      * exact (int_of_float_error _ _ H).
      * discriminate H.
  - destruct (float_divmod_total minutes 60 eq_refl) as [hours [rest ->]]. simpl.
    destruct (float_divmod_total rest 1 eq_refl) as [mins [secs ->]]. simpl.
    intros H. apply bind_Err in H. destruct H as [H | [Hh [_ H]]].
    + exact (int_of_float_error _ _ H).
    + apply bind_Err in H. destruct H as [H | [M [_ H]]].
      * exact (int_of_float_error _ _ H).
      * apply bind_Err in H. destruct H as [H | [SS [_ H]]].
        -- exact (int_of_float_error _ _ H).
        -- discriminate H.
Qed.

Lemma splits_loop_error (p : float) (ds : list (string * float)) (e : exn) :
  splits_loop p ds = Err e -> int_conversion_error e.
Proof.
  induction ds as [ | [text c] rest IH]; simpl; [ discriminate | ].
  intros H. apply bind_Err in H. destruct H as [H | [t [_ H]]].
  - exact (minutes_to_time_str_error _ _ _ H).
  - apply bind_Err in H. destruct H as [H | [tail [_ H]]];
      [ exact (IH H) | discriminate H ].
Qed.

Lemma projected_loop_error (d p : float) (ds : list (string * float)) (e : exn) :
  projected_loop d p ds = Err e -> int_conversion_error e.
Proof.
  induction ds as [ | [text c] rest IH]; simpl; [ discriminate | ].
  destruct (negb (c =? d)); [ | exact IH ].
  intros H. apply bind_Err in H. destruct H as [H | [t [_ H]]].
  - exact (minutes_to_time_str_error _ _ _ H).
  - apply bind_Err in H. destruct H as [H | [tail [_ H]]];
      [ exact (IH H) | discriminate H ].
Qed.

Lemma zones_loop_error (p : float) (zs : list (string * (float * float))) (e : exn) :
  zones_loop p zs = Err e -> int_conversion_error e.
Proof.
  induction zs as [ | [name [lo hi]] rest IH]; simpl; [ discriminate | ].
  intros H. apply bind_Err in H. destruct H as [H | [a [_ H]]].
  - exact (minutes_to_time_str_error _ _ _ H).
  - apply bind_Err in H. destruct H as [H | [b [_ H]]].
    + exact (minutes_to_time_str_error _ _ _ H).
    + apply bind_Err in H. destruct H as [H | [tail [_ H]]];
        [ exact (IH H) | discriminate H ].
Qed.

Lemma truediv_error (a b : float) (e : exn) :
  truediv a b = Err e -> e = ZeroDivisionError.
Proof.
  unfold truediv. destruct (b =? 0); intros H;
    [ injection H as <-; reflexivity | discriminate H ].
Qed.

Lemma derived_metrics_error (dk tm pm : float) (e : exn) :
  derived_metrics dk tm pm = Err e ->
  e = ZeroDivisionError \/ int_conversion_error e.
Proof.
  unfold derived_metrics. intros H.
  apply bind_Err in H. destruct H as [H | [speed [_ H]]].
  - destruct (0 <? pm); [ left; exact (truediv_error _ _ _ H) | discriminate H ].
  - apply bind_Err in H. destruct H as [H | [sp [_ H]]];
      [ right; exact (splits_loop_error _ _ _ H) | ].
    apply bind_Err in H. destruct H as [H | [pr [_ H]]];
      [ right; exact (projected_loop_error _ _ _ _ H) | ].
    apply bind_Err in H. destruct H as [H | [tz [_ H]]];
      [ right; exact (zones_loop_error _ _ _ H) | discriminate H ].
Qed.

(** *** All of [calculate_metrics] *)

Lemma distance_parse_error (s : string) (e : exn) :
  distance_str_to_km s = Err e -> parse_error e.
Proof.
  intros H. apply distance_fails_with_InputError_aux in H. subst e.
  left. eexists. eexists. split; [ reflexivity | tauto ].
Qed.

Lemma time_parse_error (s : string) (e : exn) :
  time_str_to_minutes s = Err e -> parse_error e.
Proof.
  intros H. apply time_failures_aux in H.
  destruct H as [-> | [part ->]].
  - left. eexists. eexists. split; [ reflexivity | tauto ].
  - right. exists part. reflexivity.
Qed.

Lemma pace_parse_error (s : string) (e : exn) :
  pace_str_to_minutes s = Err e -> parse_error e.
Proof.
  intros H. apply pace_failures_aux in H.
  destruct H as [-> | [part ->]].
  - left. eexists. eexists. split; [ reflexivity | tauto ].
  - right. exists part. reflexivity.
Qed.

Lemma parse_inputs_error (distance time pace : option string) (e : exn) :
  parse_inputs distance time pace = Err e ->
  (e = ValueError ExactlyTwo /\
   (given distance + given time + given pace <> 2)%nat) \/
  ((given distance + given time + given pace = 2)%nat /\
   (parse_error e \/ e = ZeroDivisionError)).
Proof.
  unfold parse_inputs, given.
  destruct (truthy distance) as [d | ], (truthy time) as [t | ],
    (truthy pace) as [p | ]; simpl; intros H;
    try (left; injection H as <-; split; [ reflexivity | discriminate ]);
    right; (split; [ reflexivity | ]).
  - apply bind_Err in H. destruct H as [H | [dk [_ H]]];
      [ left; exact (distance_parse_error _ _ H) | ].
    apply bind_Err in H. destruct H as [H | [tm [_ H]]];
      [ left; exact (time_parse_error _ _ H) | ].
    apply bind_Err in H. destruct H as [H | [pm [_ H]]];
      [ right; exact (truediv_error _ _ _ H) | discriminate H ].
  - apply bind_Err in H. destruct H as [H | [dk [_ H]]];
      [ left; exact (distance_parse_error _ _ H) | ].
    apply bind_Err in H. destruct H as [H | [pm [_ H]]];
      [ left; exact (pace_parse_error _ _ H) | discriminate H ].
  - apply bind_Err in H. destruct H as [H | [tm [_ H]]];
      [ left; exact (time_parse_error _ _ H) | ].
    apply bind_Err in H. destruct H as [H | [pm [_ H]]];
      [ left; exact (pace_parse_error _ _ H) | ].
    apply bind_Err in H. destruct H as [H | [dk [_ H]]];
      [ right; exact (truediv_error _ _ _ H) | discriminate H ].
Qed.

Lemma int_conversion_not_two (e : exn) :
  int_conversion_error e -> e <> ValueError ExactlyTwo.
Proof. intros [-> | ->]; discriminate. Qed.

Lemma parse_error_not_two (e : exn) :
  parse_error e -> e <> ValueError ExactlyTwo.
Proof.
  intros [[text [kind [-> _]]] | [part ->]]; discriminate.
Qed.

Lemma calculate_metrics_error (distance time pace : option string) (e : exn) :
  calculate_metrics distance time pace = Err e ->
  (e = ValueError ExactlyTwo /\
   (given distance + given time + given pace <> 2)%nat) \/
  ((given distance + given time + given pace = 2)%nat /\
   (parse_error e \/ e = ZeroDivisionError \/ int_conversion_error e)).
Proof.
  unfold calculate_metrics. intros H.
  apply bind_Err in H. destruct H as [H | [[[dk tm] pm] [Hp H]]].
  - apply parse_inputs_error in H. destruct H as [H | [Hg [H | H]]].
    + left. exact H.
    + right. split; [ exact Hg | left; exact H ].
    + right. split; [ exact Hg | right; left; exact H ].
  - right. split.
    + destruct (Nat.eq_dec (given distance + given time + given pace) 2)
        as [Hg | Hg]; [ exact Hg | ].
      rewrite (parse_inputs_not_two _ _ _ Hg) in Hp. discriminate Hp.
    + apply derived_metrics_error in H. destruct H as [H | H];
        [ right; left; exact H | right; right; exact H ].
Qed.

Lemma calculate_metrics_exactly_two (distance time pace : option string) :
  calculate_metrics distance time pace = Err (ValueError ExactlyTwo) <->
  (given distance + given time + given pace <> 2)%nat.
Proof.
  split.
  - intros H. apply calculate_metrics_error in H.
    destruct H as [[_ H] | [_ [H | [H | H]]]].
    + exact H.
    + exfalso. exact (parse_error_not_two _ H eq_refl).
    + discriminate H.
    + exfalso. exact (int_conversion_not_two _ H eq_refl).
  - intros H. unfold calculate_metrics.
    rewrite (parse_inputs_not_two _ _ _ H). reflexivity.
Qed.

(** X6: [calculate_metrics] raises "Exactly two of distance, time, and pace
    must be provided" exactly when the number of arguments that are neither
    [None] nor empty is not two: no other step of the call raises it, and
    two given arguments never do. *)
Theorem exactly_two_error_iff (distance time pace : option string) :
  calculate_metrics distance time pace = Err (ValueError ExactlyTwo) <->
  (given distance + given time + given pace <> 2)%nat.
Proof. exact (calculate_metrics_exactly_two distance time pace). Qed.

(** X7: any other failure of [calculate_metrics] is one of: an
    [InputError] for a distance, a time or a pace; the [ValueError] of
    [float] for a part of a colon form; [ZeroDivisionError]; the
    [ValueError] or [OverflowError] of [int] on a value that is not
    finite. *)
Theorem calculate_metrics_failures
        (distance time pace : option string) (e : exn) :
  calculate_metrics distance time pace = Err e ->
  e <> ValueError ExactlyTwo ->
  (given distance + given time + given pace = 2)%nat /\
  (parse_error e \/ e = ZeroDivisionError \/ int_conversion_error e).
Proof.
  intros H Hne. apply calculate_metrics_error in H.
  destruct H as [[H _] | H]; [ contradiction | exact H ].
Qed.

Lemma calculate_metrics_failures_witness :
  (given (Some "1") + given (Some "nan") + given None = 2)%nat /\
  (parse_error (ValueError CannotConvertNaN) \/
   ValueError CannotConvertNaN = ZeroDivisionError \/
   int_conversion_error (ValueError CannotConvertNaN)).
Proof.
  apply (calculate_metrics_failures (Some "1") (Some "nan") None).
  - vm_compute. reflexivity.
  - discriminate.
Defined.

End ErrorFacts.

(** ** Telling a time from a distance, and [main] *)
Module ResolverFacts.
Import PyStr PyNum PaceCalculator Vocabulary PaceCalculatorFacts NumeralFacts ErrorFacts.

Local Open Scope float_scope.

Lemma number_is_no_time_false (value : string) :
  number_is_no_time value = Ok false.
Proof.
  unfold number_is_no_time.
  destruct (PyFloat.of_string value) as [x | e] eqn:E; [ reflexivity | ].
  apply of_string_error in E. subst e. reflexivity.
Qed.

Lemma is_likely_time_value (value : string) :
  _is_likely_time value =
  Ok (match dict_get (lower (strip value)) DISTANCE_UNITS with
      | Some _ => false
      | None => time_mark (lower (strip value))
      end).
Proof.
  unfold _is_likely_time, time_mark.
  destruct (dict_get (lower (strip value)) DISTANCE_UNITS); [ reflexivity | ].
  destruct (contains "h" (lower (strip value)) || contains "m" (lower (strip value))
            || contains "s" (lower (strip value))
            || contains ":" (lower (strip value))) eqn:E; [ reflexivity | ].
  apply orb_false_iff in E. destruct E as [_ ->].
  apply number_is_no_time_false.
Qed.

Lemma is_likely_time_total (value : string) :
  exists b, _is_likely_time value = Ok b.
Proof. rewrite is_likely_time_value. eexists. reflexivity. Qed.

(** X8: [_is_likely_time] never raises.  It answers [True] exactly for a
    text that, in lower case and without the blanks around it, is no key
    of the unit table and has an h, m, s or colon in it; so every key of
    the table (with its letters h and m: "marathon", "hm", "400m") and
    every text without these four characters is no time. *)
Theorem is_likely_time_decides :
  (forall value,
      exists b,
        _is_likely_time value = Ok b /\
        (b = true <->
         dict_get (lower (strip value)) DISTANCE_UNITS = None /\
         time_mark (lower (strip value)) = true)) /\
  (forall key km, In (key, km) DISTANCE_UNITS -> _is_likely_time key = Ok false) /\
  (forall value,
      time_mark (lower (strip value)) = false -> _is_likely_time value = Ok false).
Proof.
  split; [ | split ].
  - intros value. rewrite is_likely_time_value.
    destruct (dict_get (lower (strip value)) DISTANCE_UNITS) as [km | ].
    + exists false. split; [ reflexivity | ]. split.
      * discriminate.
      * intros [H _]. discriminate H.
    + exists (time_mark (lower (strip value))). split; [ reflexivity | ].
      split; [ intros H; split; [ reflexivity | exact H ] | intros [_ H]; exact H ].
  - intros key km Hin. unfold DISTANCE_UNITS in Hin. simpl in Hin.
    repeat (destruct Hin as [Hin | Hin];
            [ injection Hin as <- <-; vm_compute; reflexivity | ]).
    contradiction.
  - intros value H. rewrite is_likely_time_value, H.
    destruct (dict_get (lower (strip value)) DISTANCE_UNITS); reflexivity.
Qed.

(** *** What the letter form can read *)

Lemma digit_is_letter_form (c : ascii) :
  is_digit c = true -> letter_form_char c = true.
Proof. intros H. unfold letter_form_char. rewrite H. reflexivity. Qed.

Lemma number_token_shape (frac : bool) (s tok rest : string) :
  number_token frac s = Some (tok, rest) ->
  s = (tok ++ rest)%string /\ all_chars letter_form_char tok = true.
Proof.
  rewrite number_token_unfold.
  destruct (span_digits s) as [ip r] eqn:Es.
  destruct (span_digits_spec _ _ _ Es) as [-> [Hip _]].
  apply (all_chars_weaken _ _ _ digit_is_letter_form) in Hip.
  destruct (ip =? "")%string; [ discriminate | ].
  destruct r as [ | c r'].
  - intros H. injection H as <- <-. split; [ reflexivity | exact Hip ].
  - destruct (Ascii.eqb_spec c ".") as [-> | Hc].
    + destruct (span_digits r') as [fp r''] eqn:Ef.
      destruct (span_digits_spec _ _ _ Ef) as [-> [Hfp _]].
      apply (all_chars_weaken _ _ _ digit_is_letter_form) in Hfp.
      destruct (frac && negb (fp =? "")%string).
      * intros H. injection H as <- <-. split.
        -- rewrite !append_assoc. reflexivity.
        -- rewrite all_chars_app, Hip. cbn [append all_chars].
           rewrite Hfp. reflexivity.
      * intros H. injection H as <- <-. split; [ reflexivity | exact Hip ].
    + intros H. injection H as <- <-. split; [ reflexivity | exact Hip ].
Qed.

Lemma unit_group_shape (frac : bool) (letter : ascii) (s rest : string)
      (g : option string) :
  letter_form_char letter = true ->
  unit_group frac letter s = (g, rest) ->
  exists consumed,
    s = (consumed ++ rest)%string /\ all_chars letter_form_char consumed = true.
Proof.
  intros Hl. unfold unit_group.
  destruct (number_token frac s) as [[tok [ | c r]] | ] eqn:E;
    try (intros H; injection H as _ <-; exists ""%string; split; reflexivity).
  destruct (Ascii.eqb_spec c letter) as [-> | Hc];
    [ | intros H; injection H as _ <-; exists ""%string; split; reflexivity ].
  intros H. injection H as _ <-.
  destruct (number_token_shape _ _ _ _ E) as [-> Htok].
  exists (tok ++ String letter "")%string. split.
  - rewrite append_assoc. reflexivity.
  - rewrite all_chars_app, Htok. simpl. rewrite Hl. reflexivity.
Qed.

Lemma at_end_shape (s : string) :
  at_end s = true -> all_chars letter_form_char s = true.
Proof.
  unfold at_end. intros H. apply orb_true_iff in H.
  destruct H as [H | H]; apply String.eqb_eq in H; subst s; reflexivity.
Qed.

(** A text the letter form reads is made of digits, dots and the letters
    h, m and s (and may end with a newline). *)
Lemma letters_alphabet (time : string) (x : float) :
  _parse_time_with_letters time = Ok x ->
  all_chars letter_form_char time = true.
Proof.
  unfold _parse_time_with_letters.
  destruct (unit_group true "h" time) as [gh s1] eqn:Eh.
  destruct (unit_group true "m" s1) as [gm s2] eqn:Em.
  destruct (unit_group false "s" s2) as [gs s3] eqn:Es.
  destruct (unit_group_shape true "h" _ _ _ eq_refl Eh) as [c1 [-> H1]].
  destruct (unit_group_shape true "m" _ _ _ eq_refl Em) as [c2 [-> H2]].
  destruct (unit_group_shape false "s" _ _ _ eq_refl Es) as [c3 [-> H3]].
  destruct (at_end s3) eqn:Ee; [ | discriminate ].
  intros _. rewrite !all_chars_app, H1, H2, H3, (at_end_shape _ Ee). reflexivity.
Qed.

Lemma all_chars_contains (p : ascii -> bool) (c : ascii) (s : string) :
  all_chars p s = true -> contains c s = true -> p c = true.
Proof.
  induction s as [ | d s IH]; simpl; [ discriminate | ].
  intros H Hc. apply andb_true_iff in H. destruct H as [Hd Hs].
  apply orb_true_iff in Hc. destruct Hc as [Hc | Hc].
  - apply Ascii.eqb_eq in Hc. subst d. exact Hd.
  - exact (IH Hs Hc).
Qed.

Lemma contains_lower (c : ascii) (s : string) :
  lower_char c = c -> contains c s = true -> contains c (lower s) = true.
Proof.
  intros Hc. induction s as [ | d s IH]; simpl; [ discriminate | ].
  intros H. apply orb_true_iff in H. destruct H as [H | H].
  - apply Ascii.eqb_eq in H. subst d. rewrite Hc, Ascii.eqb_refl. reflexivity.
  - rewrite (IH H). apply orb_true_r.
Qed.

Lemma duration_letter_lower (s : string) :
  duration_letter s = true -> time_mark (lower s) = true.
Proof.
  unfold duration_letter, time_mark. intros H.
  apply orb_true_iff in H. destruct H as [H | H].
  - apply orb_true_iff in H. destruct H as [H | H].
    + rewrite (contains_lower "h" s eq_refl H). reflexivity.
    + rewrite (contains_lower "m" s eq_refl H). rewrite orb_true_r. reflexivity.
  - rewrite (contains_lower "s" s eq_refl H). rewrite orb_true_r. reflexivity.
Qed.

(** A text with a letter h, m or s and some character the letter form
    cannot read is no time. *)
Lemma letters_rejected (s : string) (c : ascii) :
  duration_letter (strip s) = true ->
  contains c (strip s) = true -> letter_form_char c = false ->
  time_str_to_minutes s = Err (InputError (strip s) "time").
Proof.
  intros Hl Hc Hbad. unfold time_str_to_minutes.
  unfold duration_letter in Hl. rewrite Hl.
  destruct (_parse_time_with_letters (strip s)) as [x | e] eqn:E.
  - apply letters_alphabet in E.
    rewrite (all_chars_contains _ _ _ E Hc) in Hbad. discriminate Hbad.
  - apply letters_error in E. subst e. reflexivity.
Qed.

Lemma duration_letter_nonempty (s : string) :
  duration_letter (strip s) = true -> truthy (Some s) = Some s.
Proof.
  destruct s as [ | c r]; [ discriminate | reflexivity ].
Qed.

(** X9: with a preposition other than "in", an ASCII first value that is
    no key of the unit table and has a letter h, m or s is passed on as the
    time.  If it also has a character the letter form cannot read - the k
    of "5km", the i of "3mi" - the run ends with the [InputError] for a
    time: a distance with the unit km, mi or m cannot be given before
    "at". *)
Theorem unit_distance_at_pace_rejected
        (preposition first_value second_value : string) (c : ascii) :
  all_chars is_ascii first_value = true ->
  preposition <> "in" ->
  second_value <> "" ->
  dict_get (lower (strip first_value)) DISTANCE_UNITS = None ->
  duration_letter (strip first_value) = true ->
  contains c (strip first_value) = true -> letter_form_char c = false ->
  _is_likely_time first_value = Ok true /\
  main_metrics preposition first_value second_value
  = Err (InputError (strip first_value) "time").
Proof.
  intros _ Hprep Hsecond Hpreset Hl Hc Hbad.
  assert (Hlikely : _is_likely_time first_value = Ok true).
  { rewrite is_likely_time_value, Hpreset, (duration_letter_lower _ Hl).
    reflexivity. }
  split; [ exact Hlikely | ].
  unfold main_metrics. apply String.eqb_neq in Hprep. rewrite Hprep, Hlikely.
  simpl. unfold calculate_metrics, parse_inputs.
  rewrite (duration_letter_nonempty _ Hl).
  destruct second_value as [ | d r]; [ contradiction | ].
  simpl. rewrite (letters_rejected _ _ Hl Hc Hbad). reflexivity.
Qed.

Lemma unit_distance_at_pace_rejected_witness :
  _is_likely_time "5km" = Ok true /\
  main_metrics "at" "5km" "4:30" = Err (InputError "5km" "time").
Proof.
  apply (unit_distance_at_pace_rejected "at" "5km" "4:30" "k");
    try discriminate; vm_compute; reflexivity.
Defined.

(** *** The arguments [main] passes on *)

Lemma given_two_texts (a b : string) :
  (given (Some a) + given (Some b) <> 2)%nat <-> a = "" \/ b = "".
Proof.
  destruct a as [ | c a], b as [ | d b]; unfold given, truthy; simpl;
    split; intros H;
    first [ left; reflexivity
          | right; reflexivity
          | discriminate
          | exfalso; apply H; reflexivity
          | destruct H as [H | H]; discriminate H ].
Qed.

(** X10: from the command line, "Exactly two of distance, time, and pace
    must be provided" is raised exactly when one of the two values is the
    empty text, whatever the preposition and however the first value is
    taken. *)
Theorem main_exactly_two_iff (preposition first_value second_value : string) :
  main_metrics preposition first_value second_value = Err (ValueError ExactlyTwo)
  <-> first_value = "" \/ second_value = "".
Proof.
  unfold main_metrics. destruct (preposition =? "in")%string.
  - rewrite calculate_metrics_exactly_two.
    rewrite Nat.add_0_r. apply given_two_texts.
  - destruct (is_likely_time_total first_value) as [likely ->].
    unfold bind. destruct likely; rewrite calculate_metrics_exactly_two.
    + change (given None) with 0%nat. rewrite Nat.add_0_l. apply given_two_texts.
    + change (given None) with 0%nat. rewrite Nat.add_0_r. apply given_two_texts.
Qed.

End ResolverFacts.

(** ** Splits and projections *)
Module ProjectionFacts.
Import PyStr PyNum PaceCalculator Vocabulary PaceCalculatorFacts.

Local Open Scope float_scope.

(** A float that compares equal to a positive finite one is that float. *)
Lemma eqb_positive_eq (c d : float) (m : positive) (e : Z) :
  Prim2SF c = S754_finite false m e -> (c =? d) = true -> d = c.
Proof.
  intros Hc H. rewrite FloatAxioms.eqb_spec, Hc in H.
  apply Prim2SF_inj. rewrite Hc.
  destruct (Prim2SF d) as [s | s | | s m' e']; simpl in H; try discriminate H.
  - destruct s; discriminate H.
  - unfold SFeqb in H. simpl in H. destruct s; [ discriminate H | ].
    destruct (Z.compare_spec e e') as [He | He | He]; try discriminate H.
    subst e'.
    destruct (Pos.compare_cont Eq m m') eqn:Em; try discriminate H.
    apply Pos.compare_eq in Em. subst m'. reflexivity.
Qed.

Lemma checkpoint_eq (text : string) (c d : float) :
  In (text, c) projected_distances -> (c =? d) = true -> d = c.
Proof.
  unfold projected_distances. simpl.
  intros [H | [H | [H | [H | []]]]]; injection H as _ <-;
    eapply eqb_positive_eq; vm_compute; reflexivity.
Qed.

Lemma checkpoint_neq (text : string) (c d : float) :
  In (text, c) projected_distances -> (c =? d) = false -> d <> c.
Proof.
  unfold projected_distances. simpl.
  intros [H | [H | [H | [H | []]]]]; injection H as _ <-;
    intros Hf ->; vm_compute in Hf; discriminate Hf.
Qed.

(** Replaces a distance that compares equal to a checkpoint by it. *)
Ltac pin_distance :=
  match goal with
  | E : (?c =? ?d) = true |- _ =>
      is_var d;
      let H := fresh "Hpin" in
      assert (H : d = c)
        by (eapply eqb_positive_eq; [ vm_compute; reflexivity | exact E ]);
      subst d
  end.

(** Two of the four checkpoints are never both equal to the distance. *)
Lemma one_checkpoint_at_most (d : float) :
  match (5 =? d), (10 =? d), (21.0975 =? d), (42.195 =? d) with
  | false, false, false, false
  | true, false, false, false
  | false, true, false, false
  | false, false, true, false
  | false, false, false, true => True
  | _, _, _, _ => False
  end.
Proof.
  destruct (5 =? d) eqn:E5; destruct (10 =? d) eqn:E10;
    destruct (21.0975 =? d) eqn:E21; destruct (42.195 =? d) eqn:E42;
    try exact I; pin_distance;
    match goal with
    | E : (_ =? _) = true |- _ => vm_compute in E; discriminate E
    end.
Qed.

(** X11: after a successful derivation [projected_times] has three entries
    when the distance is exactly 5, 10, 21.0975 or 42.195 km, and all four
    otherwise: never more than one checkpoint is left out. *)
Theorem projected_times_count
        (distance time pace : option string) (r : RunningMetrics) :
  calculate_metrics distance time pace = Ok r ->
  (List.length (projected_times r) = 3%nat /\
   exists text c, In (text, c) projected_distances /\ distance_km r = c /\
                  dict_get (label text) (projected_times r) = None) \/
  (List.length (projected_times r) = 4%nat /\
   forall text c, In (text, c) projected_distances -> distance_km r <> c).
Proof.
  intros H. apply calculate_metrics_projected in H.
  apply projected_loop_spec in H.
  revert H. generalize (projected_times r) as out.
  generalize (pace_min_per_km r) as p. generalize (distance_km r) as d.
  intros d p out H.
  pose proof (one_checkpoint_at_most d) as Hone.
  unfold projected_distances, differs_from in H. simpl in H.
  destruct (5 =? d) eqn:E5; destruct (10 =? d) eqn:E10;
    destruct (21.0975 =? d) eqn:E21; destruct (42.195 =? d) eqn:E42;
    try contradiction; simpl in H;
    repeat match goal with
           | H : Forall2 _ (_ :: _) _ |- _ =>
               inversion H as [ | ? [? ?] ? ? [? ?] ? ]; subst; clear H
           | H : Forall2 _ [] _ |- _ => inversion H; subst; clear H
           end;
    simpl in *; subst.
  - left. split; [ reflexivity | ]. exists "5"%string, 5.
    split; [ simpl; tauto | ].
    split; [ exact (checkpoint_eq "5" _ _ ltac:(simpl; tauto) E5) | reflexivity ].
  - left. split; [ reflexivity | ]. exists "10"%string, 10.
    split; [ simpl; tauto | ].
    split; [ exact (checkpoint_eq "10" _ _ ltac:(simpl; tauto) E10) | reflexivity ].
  - left. split; [ reflexivity | ]. exists "21.0975"%string, 21.0975.
    split; [ simpl; tauto | ].
    split; [ exact (checkpoint_eq "21.0975" _ _ ltac:(simpl; tauto) E21) | reflexivity ].
  - left. split; [ reflexivity | ]. exists "42.195"%string, 42.195.
    split; [ simpl; tauto | ].
    split; [ exact (checkpoint_eq "42.195" _ _ ltac:(simpl; tauto) E42) | reflexivity ].
  - right. split; [ reflexivity | ].
    intros text c [Hin | [Hin | [Hin | [Hin | []]]]]; injection Hin as <- <-;
      intros ->;
      match goal with
      | E : (?c =? ?c) = false |- _ => vm_compute in E; discriminate E
      end.
Qed.

Lemma projected_times_count_witness :
  exists r,
    calculate_metrics (Some "hm") None (Some "5:00") = Ok r /\
    List.length (projected_times r) = 3%nat /\
    dict_get "21.0975km" (projected_times r) = None.
Proof.
  assert (H : exists r, calculate_metrics (Some "hm") None (Some "5:00") = Ok r /\
                        distance_km r = 21.0975).
  { eexists. split; [ vm_compute; reflexivity | reflexivity ]. }
  destruct H as [r [Hr Hd]]. exists r. split; [ exact Hr | ].
  destruct (projected_times_count _ _ _ r Hr) as [[Hlen [text [c [Hin [Hc Hg]]]]] | [_ Hall]].
  - split; [ exact Hlen | ].
    rewrite Hd in Hc. simpl in Hin.
    destruct Hin as [Hin | [Hin | [Hin | [Hin | []]]]]; injection Hin as <- <-;
      first [ exact Hg
            | exfalso; apply (f_equal (fun x => x =? 21.0975)) in Hc;
              vm_compute in Hc; discriminate Hc ].
  - exfalso. apply (Hall "21.0975"%string 21.0975); [ simpl; tauto | exact Hd ].
Defined.

(** *** Splits and zones *)

Lemma splits_loop_spec (p : float) (ds : list (string * float)) :
  forall out, splits_loop p ds = Ok out -> Forall2 (projection_of p) ds out.
Proof.
  induction ds as [ | [text c] rest IH]; simpl; intros out H.
  - injection H as <-. constructor.
  - bind_inv H. bind_inv H. injection H as <-.
    constructor; [ split; [ reflexivity | exact Ha ] | apply IH; exact Ha0 ].
Qed.


Lemma calculate_metrics_parts
      (distance time pace : option string) (r : RunningMetrics) :
  calculate_metrics distance time pace = Ok r ->
  splits_loop (pace_min_per_km r) split_distances = Ok (splits r) /\
  projected_loop (distance_km r) (pace_min_per_km r) projected_distances
  = Ok (projected_times r) /\
  zones_loop (pace_min_per_km r) TRAINING_ZONES = Ok (training_zones r).
Proof.
  unfold calculate_metrics. intros H.
  bind_inv H. destruct a as [[dk tm] pm].
  destruct (derived_metrics_fields _ _ _ _ H) as [Hd [Ht Hp]].
  apply derived_metrics_parts in H. rewrite Hd, Hp. exact H.
Qed.



(** X12: a projected time is always the split of the same checkpoint: what
    [projected_times] holds under a label, [splits] holds under it too. *)
Theorem projected_times_agree_with_splits
        (distance time pace : option string) (r : RunningMetrics) :
  calculate_metrics distance time pace = Ok r ->
  forall key shown,
    dict_get key (projected_times r) = Some shown ->
    dict_get key (splits r) = Some shown.
Proof.
  intros H. apply calculate_metrics_parts in H. destruct H as [Hs [Hp _]].
  apply splits_loop_spec in Hs. apply projected_loop_spec in Hp.
  revert Hs Hp. generalize (projected_times r) as pr. generalize (splits r) as sp.
  generalize (pace_min_per_km r) as p. generalize (distance_km r) as d.
  intros d p sp pr Hs Hp key shown.
  unfold split_distances in Hs.
  unfold projected_distances, differs_from in Hp. simpl in Hp.
  destruct (5 =? d); destruct (10 =? d); destruct (21.0975 =? d);
    destruct (42.195 =? d); simpl in Hp;
    repeat match goal with
           | H : Forall2 _ (_ :: _) _ |- _ =>
               inversion H as [ | ? [? ?] ? ? [? ?] ? ]; subst; clear H
           | H : Forall2 _ [] _ |- _ => inversion H; subst; clear H
           end;
    simpl in *; subst;
    repeat match goal with
           | |- context [(?l =? key)%string] =>
               destruct (String.eqb_spec l key); [ subst key; simpl | ]
           end;
    congruence.
Qed.

Lemma projected_times_agree_with_splits_witness :
  exists r,
    calculate_metrics (Some "10km") (Some "45:00") None = Ok r /\
    dict_get "42.195km" (projected_times r) = Some "3:09:52" /\
    dict_get "42.195km" (splits r) = Some "3:09:52".
Proof.
  assert (H : exists r, calculate_metrics (Some "10km") (Some "45:00") None = Ok r /\
                        dict_get "42.195km" (projected_times r) = Some "3:09:52").
  { eexists. split; [ vm_compute; reflexivity | reflexivity ]. }
  destruct H as [r [Hr Hp]]. exists r.
  split; [ exact Hr | split; [ exact Hp | ] ].
  exact (projected_times_agree_with_splits _ _ _ r Hr _ _ Hp).
Defined.

End ProjectionFacts.

(** ** Letter case and blanks *)
Module NormalisationFacts.
Import PyStr PyNum PaceCalculator Vocabulary.

Lemma lower_char_idem (c : ascii) : lower_char (lower_char c) = lower_char c.
Proof.
  destruct c as [b0 b1 b2 b3 b4 b5 b6 b7].
  destruct b0, b1, b2, b3, b4, b5, b6, b7; reflexivity.
Qed.

Lemma isspace_lower_char (c : ascii) : isspace (lower_char c) = isspace c.
Proof.
  destruct c as [b0 b1 b2 b3 b4 b5 b6 b7].
  destruct b0, b1, b2, b3, b4, b5, b6, b7; reflexivity.
Qed.

Lemma lower_idem (s : string) : lower (lower s) = lower s.
Proof.
  induction s as [ | c s IH]; simpl; [ reflexivity | ].
  rewrite lower_char_idem, IH. reflexivity.
Qed.

Lemma lower_is_empty (s : string) : (lower s =? "")%string = (s =? "")%string.
Proof. destruct s; reflexivity. Qed.

Lemma lstrip_lower (s : string) : lstrip (lower s) = lower (lstrip s).
Proof.
  induction s as [ | c s IH]; simpl; [ reflexivity | ].
  rewrite isspace_lower_char. destruct (isspace c); [ exact IH | reflexivity ].
Qed.

Lemma rstrip_lower (s : string) : rstrip (lower s) = lower (rstrip s).
Proof.
  induction s as [ | c s IH]; simpl; [ reflexivity | ].
  rewrite isspace_lower_char, IH, lower_is_empty.
  destruct (isspace c && (rstrip s =? "")%string); reflexivity.
Qed.

Lemma strip_lower (s : string) : strip (lower s) = lower (strip s).
Proof. unfold strip. rewrite lstrip_lower, rstrip_lower. reflexivity. Qed.

Lemma rstrip_idem (s : string) : rstrip (rstrip s) = rstrip s.
Proof.
  induction s as [ | c s IH]; simpl; [ reflexivity | ].
  destruct (isspace c && (rstrip s =? "")%string) eqn:E; [ reflexivity | ].
  simpl. rewrite IH, E. reflexivity.
Qed.

(** What [lstrip] leaves is empty or opens with a character that is no
    blank. *)
Lemma lstrip_head (s : string) :
  lstrip s = "" \/ exists c r, lstrip s = String c r /\ isspace c = false.
Proof.
  induction s as [ | c s IH]; simpl; [ left; reflexivity | ].
  destruct (isspace c) eqn:E; [ exact IH | ].
  right. exists c, s. split; [ reflexivity | exact E ].
Qed.

Lemma strip_idem (s : string) : strip (strip s) = strip s.
Proof.
  unfold strip. destruct (lstrip_head s) as [-> | [c [r [-> Hc]]]];
    [ reflexivity | ].
  assert (Hr : rstrip (String c r) = String c (rstrip r)).
  { simpl. rewrite Hc. reflexivity. }
  rewrite Hr, (NumeralFacts.lstrip_id _ _ Hc), <- Hr.
  apply rstrip_idem.
Qed.

(** X13: the distance parser does not tell upper from lower case and, like
    the time and pace parsers, ignores the blanks around the text: the
    outcome, value or exception, is the same. *)
Theorem parsers_normalise :
  (forall s, distance_str_to_km (lower s) = distance_str_to_km s) /\
  (forall s, distance_str_to_km (strip s) = distance_str_to_km s) /\
  (forall s, time_str_to_minutes (strip s) = time_str_to_minutes s) /\
  (forall s, pace_str_to_minutes (strip s) = pace_str_to_minutes s).
Proof.
  split; [ | split; [ | split ] ]; intros s.
  - unfold distance_str_to_km. rewrite lower_idem. reflexivity.
  - unfold distance_str_to_km.
    rewrite (strip_lower (strip s)), (strip_lower s), strip_idem.
    reflexivity.
  - unfold time_str_to_minutes. rewrite strip_idem. reflexivity.
  - unfold pace_str_to_minutes. rewrite strip_idem. reflexivity.
Qed.

End NormalisationFacts.

(** ** What the formatter prints, the parsers read *)
Module RoundTripFacts.
Import PyStr PyNum PaceCalculator Vocabulary NumeralFacts.

Lemma string_of_uint_digits (u : Decimal.uint) :
  all_digits (DecimalString.NilEmpty.string_of_uint u) = true.
Proof.
  unfold all_digits.
  induction u as [ | u IH | u IH | u IH | u IH | u IH | u IH | u IH | u IH
                   | u IH | u IH ];
    simpl; [ reflexivity | exact IH .. ].
Qed.

Lemma nilzero_digits (u : Decimal.uint) :
  all_digits (DecimalString.NilZero.string_of_uint u) = true /\
  DecimalString.NilZero.string_of_uint u <> "".
Proof.
  destruct u; (split; [ | simpl; discriminate ]);
    first [ reflexivity
          | unfold DecimalString.NilZero.string_of_uint;
            apply string_of_uint_digits ].
Qed.

Lemma str_of_Z_int_text (n : Z) : int_text (str_of_Z n).
Proof.
  unfold str_of_Z, DecimalString.NilZero.string_of_int.
  destruct (Z.to_int n) as [d | d];
    destruct (nilzero_digits d) as [Hd Hne].
  - exists false, (DecimalString.NilZero.string_of_uint d). auto.
  - exists true, (DecimalString.NilZero.string_of_uint d). auto.
Qed.

Lemma str_of_Z_abs (n : Z) :
  all_digits (str_of_Z (Z.abs n)) = true /\ str_of_Z (Z.abs n) <> "".
Proof.
  unfold str_of_Z, DecimalString.NilZero.string_of_int.
  destruct n as [ | p | p]; simpl Z.abs; simpl Z.to_int; apply nilzero_digits.
Qed.

Lemma zeros_digits (k : nat) : all_digits (zeros k) = true.
Proof. unfold all_digits. induction k as [ | k IH]; simpl; [ reflexivity | exact IH ]. Qed.

Lemma app_nonempty (a b : string) : b <> "" -> (a ++ b)%string <> "".
Proof. destruct a; simpl; [ auto | discriminate ]. Qed.

Lemma format_02d_int_text (n : Z) : int_text (format_02d n).
Proof.
  unfold format_02d. destruct (str_of_Z_abs n) as [Hd Hne].
  set (body := str_of_Z (Z.abs n)) in *.
  destruct (n <? 0)%Z.
  - exists true, (zeros (2 - String.length "-" - String.length body) ++ body)%string.
    split; [ reflexivity | ]. split; [ | apply app_nonempty; exact Hne ].
    unfold all_digits. rewrite all_chars_app.
    rewrite (zeros_digits _ : all_chars is_digit _ = true). exact Hd.
  - exists false, (zeros (2 - String.length "" - String.length body) ++ body)%string.
    split; [ reflexivity | ]. split; [ | apply app_nonempty; exact Hne ].
    unfold all_digits. rewrite all_chars_app.
    rewrite (zeros_digits _ : all_chars is_digit _ = true). exact Hd.
Qed.

Lemma digit_clock_char (c : ascii) : is_digit c = true -> clock_char c = true.
Proof. intros H. unfold clock_char. rewrite H. reflexivity. Qed.

Lemma digit_no_colon (c : ascii) : is_digit c = true -> negb (c =? ":")%char = true.
Proof. intros H. by_digit H. Qed.

Lemma int_text_clock (s : string) : int_text s -> all_chars clock_char s = true.
Proof.
  intros [neg [digits [-> [Hd _]]]].
  pose proof (all_chars_weaken is_digit clock_char digits digit_clock_char Hd) as H.
  destruct neg; [ simpl; exact H | exact H ].
Qed.

Lemma int_text_no_colon (s : string) : int_text s -> contains ":" s = false.
Proof.
  intros [neg [digits [-> [Hd _]]]]. apply contains_none.
  pose proof (all_chars_weaken is_digit _ digits digit_no_colon Hd) as H.
  destruct neg; [ simpl; exact H | exact H ].
Qed.

Lemma int_text_float (s : string) : int_text s -> exists x, PyFloat.of_string s = Ok x.
Proof.
  intros [neg [digits [-> [Hd Hne]]]]. apply of_string_digits; assumption.
Qed.

Lemma clock_char_cases (c : ascii) :
  clock_char c = true ->
  negb (isspace c) = true /\ negb (c =? "h")%char = true /\
  negb (c =? "m")%char = true /\ negb (c =? "s")%char = true.
Proof.
  destruct c as [b0 b1 b2 b3 b4 b5 b6 b7].
  destruct b0, b1, b2, b3, b4, b5, b6, b7; intros H;
    first [ discriminate H | repeat split ].
Qed.

(** A printed duration holds no blank and none of the letters [h], [m],
    [s]. *)
Lemma clock_text_plain (t : string) :
  all_chars clock_char t = true ->
  strip t = t /\ contains "h" t = false /\ contains "m" t = false /\
  contains "s" t = false.
Proof.
  intros H. repeat split.
  - apply strip_id. revert H. apply all_chars_weaken.
    intros c Hc. apply (clock_char_cases c Hc).
  - apply contains_none. revert H. apply all_chars_weaken.
    intros c Hc. apply (clock_char_cases c Hc).
  - apply contains_none. revert H. apply all_chars_weaken.
    intros c Hc. apply (clock_char_cases c Hc).
  - apply contains_none. revert H. apply all_chars_weaken.
    intros c Hc. apply (clock_char_cases c Hc).
Qed.

Lemma contains_sep (c : ascii) (a b : string) :
  contains c (a ++ String c b) = true.
Proof.
  induction a as [ | d a IH]; simpl.
  - rewrite Ascii.eqb_refl. reflexivity.
  - rewrite IH. apply orb_true_r.
Qed.

(** [split] on a text without the separator, and on one that has it after
    such a text. *)
Lemma split_none (sep : ascii) (a : string) :
  contains sep a = false -> split sep a = [a].
Proof.
  induction a as [ | d a IH]; simpl; [ reflexivity | ].
  intros H. apply orb_false_iff in H. destruct H as [Hd Ha].
  rewrite Hd, (IH Ha). reflexivity.
Qed.

Lemma split_first (sep : ascii) (a rest : string) :
  contains sep a = false ->
  split sep (a ++ String sep rest) = a :: split sep rest.
Proof.
  induction a as [ | d a IH]; simpl.
  - intros _. rewrite Ascii.eqb_refl. reflexivity.
  - intros H. apply orb_false_iff in H. destruct H as [Hd Ha].
    rewrite Hd, (IH Ha). reflexivity.
Qed.

(** What [minutes_to_time_str] returns: two or three printed integers with
    colons between them, three only when hours are asked for. *)
Lemma minutes_to_time_str_shape (minutes : float) (show_hours : bool) (text : string) :
  minutes_to_time_str minutes show_hours = Ok text ->
  (exists a b, text = (a ++ String ":" b)%string /\ int_text a /\ int_text b) \/
  (show_hours = true /\
   exists a b c, text = (a ++ String ":" (b ++ String ":" c))%string /\
                 int_text a /\ int_text b /\ int_text c).
Proof.
  unfold minutes_to_time_str.
  destruct ((minutes <? 60)%float || negb show_hours) eqn:Eb; intros H.
  - left. bind_inv H. destruct a as [mins secs]. bind_inv H. bind_inv H.
    injection H as <-.
    eexists _, _. split; [ reflexivity | ].
    split; [ apply str_of_Z_int_text | apply format_02d_int_text ].
  - right. apply orb_false_iff in Eb. destruct Eb as [_ Es].
    apply negb_false_iff in Es. split; [ exact Es | ].
    bind_inv H. destruct a as [hours remaining]. bind_inv H.
    destruct a as [mins secs]. bind_inv H. bind_inv H. bind_inv H.
    injection H as <-.
    eexists _, _, _. split; [ reflexivity | ].
    split; [ apply str_of_Z_int_text | ].
    split; apply format_02d_int_text.
Qed.

Lemma two_part_clock (a b : string) :
  int_text a -> int_text b ->
  all_chars clock_char (a ++ String ":" b) = true /\
  split ":" (a ++ String ":" b) = [a; b].
Proof.
  intros Ha Hb. split.
  - rewrite all_chars_app, (int_text_clock a Ha). cbn [all_chars andb].
    rewrite (int_text_clock b Hb). reflexivity.
  - rewrite (split_first _ _ _ (int_text_no_colon a Ha)),
      (split_none _ _ (int_text_no_colon b Hb)). reflexivity.
Qed.

Lemma three_part_clock (a b c : string) :
  int_text a -> int_text b -> int_text c ->
  all_chars clock_char (a ++ String ":" (b ++ String ":" c)) = true /\
  split ":" (a ++ String ":" (b ++ String ":" c)) = [a; b; c].
Proof.
  intros Ha Hb Hc. destruct (two_part_clock b c Hb Hc) as [Hch Hsp]. split.
  - rewrite all_chars_app, (int_text_clock a Ha). cbn [all_chars andb].
    rewrite Hch. reflexivity.
  - rewrite (split_first _ _ _ (int_text_no_colon a Ha)), Hsp. reflexivity.
Qed.

Lemma time_reads_two_parts (a b : string) :
  int_text a -> int_text b ->
  exists m s, PyFloat.of_string a = Ok m /\ PyFloat.of_string b = Ok s /\
    time_str_to_minutes (a ++ String ":" b) = Ok (m + s / 60)%float /\
    pace_str_to_minutes (a ++ String ":" b) = Ok (m + s / 60)%float.
Proof.
  intros Ha Hb. destruct (int_text_float a Ha) as [m Hm].
  destruct (int_text_float b Hb) as [s Hs]. exists m, s.
  destruct (two_part_clock a b Ha Hb) as [Hch Hsp].
  destruct (clock_text_plain _ Hch) as [Hst [Hh [Hmm Hss]]].
  split; [ exact Hm | ]. split; [ exact Hs | ]. split.
  - unfold time_str_to_minutes. rewrite Hst, Hh, Hmm, Hss, contains_sep.
    cbn [orb]. unfold _parse_time_with_colons. rewrite Hsp, Hm, Hs.
    reflexivity.
  - unfold pace_str_to_minutes. rewrite Hst, contains_sep, Hsp, Hm, Hs.
    reflexivity.
Qed.

Lemma time_reads_three_parts (a b c : string) :
  int_text a -> int_text b -> int_text c ->
  exists h m s,
    PyFloat.of_string a = Ok h /\ PyFloat.of_string b = Ok m /\
    PyFloat.of_string c = Ok s /\
    time_str_to_minutes (a ++ String ":" (b ++ String ":" c))
    = Ok (h * 60 + m + s / 60)%float.
Proof.
  intros Ha Hb Hc. destruct (int_text_float a Ha) as [h Hh].
  destruct (int_text_float b Hb) as [m Hm].
  destruct (int_text_float c Hc) as [s Hs]. exists h, m, s.
  destruct (three_part_clock a b c Ha Hb Hc) as [Hch Hsp].
  destruct (clock_text_plain _ Hch) as [Hst [Hhh [Hmm Hss]]].
  repeat (split; [ assumption | ]).
  unfold time_str_to_minutes. rewrite Hst, Hhh, Hmm, Hss, contains_sep.
  cbn [orb]. unfold _parse_time_with_colons. rewrite Hsp, Hh, Hm, Hs.
  reflexivity.
Qed.

(** X14: every text that [minutes_to_time_str] returns is a duration for
    [time_str_to_minutes], which reads it through the colon form and returns
    a value; a text printed without hours is a pace for
    [pace_str_to_minutes] as well, with the same value. *)
Theorem printed_time_is_read_back (minutes : float) (show_hours : bool) (text : string) :
  minutes_to_time_str minutes show_hours = Ok text ->
  (exists value, time_str_to_minutes text = Ok value) /\
  (show_hours = false ->
   exists value, time_str_to_minutes text = Ok value /\
                 pace_str_to_minutes text = Ok value).
Proof.
  intros H. apply minutes_to_time_str_shape in H.
  destruct H as [[a [b [-> [Ha Hb]]]] | [Hshow [a [b [c [-> [Ha [Hb Hc]]]]]]]].
  - destruct (time_reads_two_parts a b Ha Hb) as [m [s [_ [_ [Ht Hp]]]]].
    split; [ eexists; exact Ht | ].
    intros _. eexists. split; [ exact Ht | exact Hp ].
  - destruct (time_reads_three_parts a b c Ha Hb Hc) as [h [m [s [_ [_ [_ Ht]]]]]].
    split; [ eexists; exact Ht | ].
    intros Hf. rewrite Hshow in Hf. discriminate Hf.
Qed.

Lemma printed_time_is_read_back_witness :
  minutes_to_time_str 95.5 true = Ok "1:35:30"%string /\
  (exists value, time_str_to_minutes "1:35:30" = Ok value).
Proof.
  assert (H : minutes_to_time_str 95.5 true = Ok "1:35:30"%string)
    by (vm_compute; reflexivity).
  split; [ exact H | ].
  exact (proj1 (printed_time_is_read_back 95.5 true "1:35:30" H)).
Defined.

End RoundTripFacts.

(** ** The letter form *)
Module LetterFormFacts.
Import PyStr PyNum PaceCalculator Vocabulary NumeralFacts ErrorFacts RoundTripFacts.

Local Open Scope float_scope.

Lemma number_token_whole (frac : bool) (d : string) (l : ascii) (rest : string) :
  all_digits d = true -> d <> ""%string ->
  is_digit l = false -> (l =? ".")%char = false ->
  number_token frac (d ++ String l rest) = Some (d, String l rest).
Proof.
  intros Hd Hne Hl Hdot.
  rewrite number_token_unfold, (span_digits_all d (String l rest) Hd Hl).
  apply String.eqb_neq in Hne. cbv beta iota. rewrite Hne, Hdot. reflexivity.
Qed.

(** A group takes its number and its letter. *)
Lemma unit_group_take (frac : bool) (l : ascii) (d rest : string) :
  all_digits d = true -> d <> ""%string ->
  is_digit l = false -> (l =? ".")%char = false ->
  unit_group frac l (d ++ String l rest) = (Some d, rest).
Proof.
  intros Hd Hne Hl Hdot. unfold unit_group.
  rewrite (number_token_whole frac d l rest Hd Hne Hl Hdot), Ascii.eqb_refl.
  reflexivity.
Qed.

(** A group leaves a number with another letter where it is. *)
Lemma unit_group_pass (frac : bool) (letter l : ascii) (d rest : string) :
  all_digits d = true -> d <> ""%string ->
  is_digit l = false -> (l =? ".")%char = false -> (l =? letter)%char = false ->
  unit_group frac letter (d ++ String l rest) = (None, (d ++ String l rest)%string).
Proof.
  intros Hd Hne Hl Hdot Hother. unfold unit_group.
  rewrite (number_token_whole frac d l rest Hd Hne Hl Hdot), Hother.
  reflexivity.
Qed.

Lemma part_shape (d : string) (l : ascii) (rest : string) :
  ((d ++ String l "") ++ rest)%string = (d ++ String l rest)%string.
Proof. rewrite append_assoc. reflexivity. Qed.

Ltac part_shapes :=
  cbn [letter_part]; rewrite ?part_shape; cbn [append].

Ltac group_step :=
  first [ reflexivity
        | apply unit_group_take; first [ assumption | reflexivity ]
        | apply unit_group_pass; first [ assumption | reflexivity ] ].

Lemma whole_value (g : option string) :
  whole g -> exists x, group_value g = Ok x.
Proof.
  destruct g as [d | ]; simpl.
  - intros [Hd Hne]. exact (of_string_digits false d Hd Hne).
  - intros _. exists 0. reflexivity.
Qed.

(** The three groups come out of the pattern as they were typed. *)
Lemma letters_groups (gh gm gs : option string) :
  whole gh -> whole gm -> whole gs ->
  _parse_time_with_letters
    (letter_part gh "h" ++ letter_part gm "m" ++ letter_part gs "s")
  = (hours <- group_value gh ;;
     minutes <- group_value gm ;;
     seconds <- group_value gs ;;
     Ok (hours * 60 + minutes + seconds / 60)).
Proof.
  intros Hh Hm Hs. unfold _parse_time_with_letters.
  assert (E1 : unit_group true "h"
                 (letter_part gh "h" ++ letter_part gm "m" ++ letter_part gs "s")
               = (gh, (letter_part gm "m" ++ letter_part gs "s")%string)).
  { destruct gh as [h | ], gm as [m | ], gs as [s | ]; simpl in Hh, Hm, Hs;
      try destruct Hh; try destruct Hm; try destruct Hs;
      part_shapes; group_step. }
  assert (E2 : unit_group true "m" (letter_part gm "m" ++ letter_part gs "s")
               = (gm, letter_part gs "s")).
  { destruct gm as [m | ], gs as [s | ]; simpl in Hm, Hs;
      try destruct Hm; try destruct Hs;
      part_shapes; group_step. }
  assert (E3 : unit_group false "s" (letter_part gs "s") = (gs, ""%string)).
  { destruct gs as [s | ]; simpl in Hs; try destruct Hs;
      part_shapes; group_step. }
  rewrite E1, E2, E3. reflexivity.
Qed.

Lemma contains_app (c : ascii) (a b : string) :
  contains c (a ++ b) = contains c a || contains c b.
Proof.
  induction a as [ | d a IH]; simpl; [ reflexivity | ].
  rewrite IH. apply orb_assoc.
Qed.

Lemma part_has_letter (d : string) (l : ascii) :
  contains l (letter_part (Some d) l) = true.
Proof. simpl. apply contains_sep. Qed.

Lemma letters_present (gh gm gs : option string) :
  gh <> None \/ gm <> None \/ gs <> None ->
  duration_letter
    (letter_part gh "h" ++ letter_part gm "m" ++ letter_part gs "s") = true.
Proof.
  intros H. unfold duration_letter. rewrite !contains_app.
  destruct gh as [h | ].
  - rewrite part_has_letter. reflexivity.
  - destruct gm as [m | ].
    + rewrite part_has_letter. rewrite !orb_true_r. reflexivity.
    + destruct gs as [s | ].
      * rewrite part_has_letter. rewrite !orb_true_r. reflexivity.
      * destruct H as [H | [H | H]]; contradiction H; reflexivity.
Qed.

Lemma part_no_blank (g : option string) (l : ascii) :
  whole g -> isspace l = false ->
  all_chars (fun c => negb (isspace c)) (letter_part g l) = true.
Proof.
  destruct g as [d | ]; simpl; [ | reflexivity ].
  intros [Hd _] Hl. rewrite all_chars_app.
  rewrite (all_chars_weaken is_digit _ d digit_no_space Hd). simpl.
  rewrite Hl. reflexivity.
Qed.

Lemma time_reads_letters (gh gm gs : option string) :
  whole gh -> whole gm -> whole gs ->
  gh <> None \/ gm <> None \/ gs <> None ->
  exists hours minutes seconds,
    group_value gh = Ok hours /\ group_value gm = Ok minutes /\
    group_value gs = Ok seconds /\
    time_str_to_minutes
      (letter_part gh "h" ++ letter_part gm "m" ++ letter_part gs "s")
    = Ok (hours * 60 + minutes + seconds / 60).
Proof.
  intros Hh Hm Hs Hsome.
  destruct (whole_value gh Hh) as [hours Eh].
  destruct (whole_value gm Hm) as [minutes Em].
  destruct (whole_value gs Hs) as [seconds Es].
  exists hours, minutes, seconds. repeat (split; [ assumption | ]).
  unfold time_str_to_minutes.
  set (text := (letter_part gh "h" ++ letter_part gm "m" ++ letter_part gs "s")%string).
  assert (Hst : strip text = text).
  { apply strip_id. unfold text. rewrite !all_chars_app.
    rewrite (part_no_blank gh "h" Hh eq_refl),
      (part_no_blank gm "m" Hm eq_refl), (part_no_blank gs "s" Hs eq_refl).
    reflexivity. }
  rewrite Hst.
  change (contains "h" text || contains "m" text || contains "s" text)
    with (duration_letter text).
  unfold text. rewrite (letters_present gh gm gs Hsome).
  rewrite (letters_groups gh gm gs Hh Hm Hs), Eh, Em, Es. reflexivity.
Qed.

(** X15: hours, minutes and seconds typed as whole numbers with their
    letters [h], [m], [s], in this order and at least one of them, are a
    duration for [time_str_to_minutes]: it returns
    [hours * 60 + minutes + seconds / 60] where each part is what [float]
    reads from the number, and 0 for a part that is left out. *)
Theorem letter_time_is_read (gh gm gs : option string) :
  whole gh -> whole gm -> whole gs ->
  gh <> None \/ gm <> None \/ gs <> None ->
  exists hours minutes seconds,
    group_value gh = Ok hours /\ group_value gm = Ok minutes /\
    group_value gs = Ok seconds /\
    time_str_to_minutes
      (letter_part gh "h" ++ letter_part gm "m" ++ letter_part gs "s")
    = Ok (hours * 60 + minutes + seconds / 60).
Proof. exact (time_reads_letters gh gm gs). Qed.

Lemma letter_time_is_read_witness :
  exists hours minutes seconds,
    group_value (Some "1"%string) = Ok hours /\
    group_value None = Ok minutes /\
    group_value (Some "20"%string) = Ok seconds /\
    time_str_to_minutes "1h20s" = Ok (hours * 60 + minutes + seconds / 60).
Proof.
  apply (letter_time_is_read (Some "1"%string) None (Some "20"%string)).
  - split; [ reflexivity | discriminate ].
  - exact I.
  - split; [ reflexivity | discriminate ].
  - left. discriminate.
Defined.

End LetterFormFacts.

(** ** Values that are not finite *)
Module FinitenessFacts.
Import PyStr PyNum PaceCalculator Vocabulary PaceCalculatorFacts ProjectionFacts.

Local Open Scope float_scope.

(** A float that is not finite is one of three values. *)
Lemma not_finite_cases (x : float) :
  is_finite x = false -> x = nan \/ x = infinity \/ x = neg_infinity.
Proof.
  intros H. unfold is_finite in H. apply negb_false_iff in H.
  assert (P : Prim2SF x = S754_nan \/
              exists s, Prim2SF x = S754_zero s \/ Prim2SF x = S754_infinity s).
  { unfold Prim2SF. destruct (is_nan x); [ left; reflexivity | ].
    simpl in H. rewrite H.
    destruct (is_zero x); right; exists (get_sign x);
      [ left | right ]; reflexivity. }
  destruct P as [P | [s [P | P]]].
  - left. apply Prim2SF_inj. rewrite P. reflexivity.
  - exfalso.
    assert (Hx : x = zero \/ x = neg_zero).
    { destruct s; [ right | left ]; apply Prim2SF_inj; rewrite P; reflexivity. }
    destruct Hx as [-> | ->]; vm_compute in H; discriminate H.
  - right. destruct s; [ right | left ];
      apply Prim2SF_inj; rewrite P; reflexivity.
Qed.

Lemma not_finite_not_printed (x : float) (show_hours : bool) :
  is_finite x = false ->
  minutes_to_time_str x show_hours = Err (ValueError CannotConvertNaN).
Proof.
  intros H.
  destruct (not_finite_cases x H) as [-> | [-> | ->]];
    destruct show_hours; vm_compute; reflexivity.
Qed.

Lemma printed_is_finite (x : float) (show_hours : bool) (text : string) :
  minutes_to_time_str x show_hours = Ok text -> is_finite x = true.
Proof.
  intros H. destruct (is_finite x) eqn:E; [ reflexivity | ].
  rewrite (not_finite_not_printed x show_hours E) in H. discriminate H.
Qed.

Lemma one_times_finite (p : float) : is_finite (1 * p) = true -> is_finite p = true.
Proof.
  intros H. destruct (is_finite p) eqn:E; [ reflexivity | ].
  destruct (not_finite_cases p E) as [-> | [-> | ->]];
    vm_compute in H; discriminate H.
Qed.

Lemma checkpoints_finite (p : float) (ds : list (string * float))
      (out : list (string * string)) :
  Forall2 (projection_of p) ds out ->
  forall text c, In (text, c) ds -> is_finite (c * p) = true.
Proof.
  induction 1 as [ | [text' c'] entry ds out [_ Hprint] _ IH]; intros text c Hin.
  - contradiction Hin.
  - destruct Hin as [Hin | Hin].
    + injection Hin as <- <-. simpl in Hprint.
      exact (printed_is_finite _ _ _ Hprint).
    + exact (IH text c Hin).
Qed.

(** X16: [minutes_to_time_str] prints no value that is infinite or NaN: for
    each of them, with or without hours, [divmod] gives NaN and the call
    ends with [ValueError("cannot convert float NaN to integer")]. *)
Theorem not_finite_is_not_printed (x : float) (show_hours : bool) :
  is_finite x = false ->
  minutes_to_time_str x show_hours = Err (ValueError CannotConvertNaN).
Proof. exact (not_finite_not_printed x show_hours). Qed.

Lemma not_finite_is_not_printed_witness :
  is_finite neg_infinity = false /\
  minutes_to_time_str neg_infinity true = Err (ValueError CannotConvertNaN).
Proof.
  split; [ reflexivity | ].
  apply (not_finite_is_not_printed neg_infinity true). reflexivity.
Defined.

(** X17: the pace of a result is a finite number, and so is the time of
    each of the five checkpoints at this pace: with a pace that is infinite
    or NaN, typed or derived, [calculate_metrics] returns no result. *)
Theorem result_pace_is_finite
        (distance time pace : option string) (r : RunningMetrics) :
  calculate_metrics distance time pace = Ok r ->
  is_finite (pace_min_per_km r) = true /\
  forall text c,
    In (text, c) split_distances -> is_finite (c * pace_min_per_km r) = true.
Proof.
  intros H. apply calculate_metrics_parts in H. destruct H as [Hs _].
  apply splits_loop_spec in Hs.
  pose proof (checkpoints_finite _ _ _ Hs) as Hall.
  split; [ | exact Hall ].
  apply one_times_finite. apply (Hall "1"%string 1). left. reflexivity.
Qed.

Lemma result_pace_is_finite_witness :
  exists r,
    calculate_metrics (Some "marathon"%string) (Some "3h30m"%string) None = Ok r /\
    is_finite (pace_min_per_km r) = true /\
    forall text c,
      In (text, c) split_distances -> is_finite (c * pace_min_per_km r) = true.
Proof.
  assert (H : exists r, calculate_metrics (Some "marathon"%string)
                                          (Some "3h30m"%string) None = Ok r).
  { eexists. vm_compute. reflexivity. }
  destruct H as [r Hr]. exists r.
  split; [ exact Hr | exact (result_pace_is_finite _ _ _ r Hr) ].
Defined.

End FinitenessFacts.

(** ** The order of the unit table *)
Module UnitFacts.
Import PyStr PyNum PaceCalculator Vocabulary PyStrFacts NumeralFacts.

Lemma endswith_split (s suffix : string) :
  endswith s suffix = true -> exists pre, s = (pre ++ suffix)%string.
Proof.
  induction s as [ | c r IH]; intros H.
  - apply endswith_empty in H. subst suffix. exists ""%string. reflexivity.
  - rewrite endswith_cons in H. apply orb_true_iff in H. destruct H as [H | H].
    + apply String.eqb_eq in H. exists ""%string. exact H.
    + destruct (IH H) as [pre ->]. exists (String c pre). reflexivity.
Qed.

(** A text that does not end with [b] does not end with a longer text that
    ends with [b]. *)
Lemma endswith_longer (s a b : string) :
  endswith s b = false -> endswith s (a ++ b) = false.
Proof.
  intros H. destruct (endswith s (a ++ b)) eqn:E; [ | reflexivity ].
  destruct (endswith_split _ _ E) as [pre ->].
  rewrite <- append_assoc, endswith_app in H. discriminate H.
Qed.

(** X18: in the loop of [distance_str_to_km] over the unit table only the
    first five units - mi, km, k, m, marathon - can match the end of a
    text: each of the other eight ends with one of these, which the loop
    meets first.  So hm, half-marathon, 10k, 5k, 1k, 400m, 800m and 1mi
    count as whole texts only, never as the unit after a number. *)
Theorem later_units_never_match (distance : string) :
  scan_units distance DISTANCE_UNITS
  = scan_units distance (firstn 5 DISTANCE_UNITS).
Proof.
  unfold DISTANCE_UNITS. cbn [firstn scan_units].
  destruct (endswith distance "mi") eqn:Emi; [ reflexivity | ].
  destruct (endswith distance "km") eqn:Ekm; [ reflexivity | ].
  destruct (endswith distance "k") eqn:Ek; [ reflexivity | ].
  destruct (endswith distance "m") eqn:Em; [ reflexivity | ].
  destruct (endswith distance "marathon") eqn:Ema; [ reflexivity | ].
  rewrite (endswith_longer distance "h" "m" Em :
             endswith distance "hm" = false).
  rewrite (endswith_longer distance "half-" "marathon" Ema :
             endswith distance "half-marathon" = false).
  rewrite (endswith_longer distance "10" "k" Ek : endswith distance "10k" = false).
  rewrite (endswith_longer distance "5" "k" Ek : endswith distance "5k" = false).
  rewrite (endswith_longer distance "1" "k" Ek : endswith distance "1k" = false).
  rewrite (endswith_longer distance "400" "m" Em : endswith distance "400m" = false).
  rewrite (endswith_longer distance "800" "m" Em : endswith distance "800m" = false).
  rewrite (endswith_longer distance "1" "mi" Emi : endswith distance "1mi" = false).
  reflexivity.
Qed.

End UnitFacts.

(** ** Rounding in binary64

    What the operations of [SpecFloat] return where the program relies on
    them: a value that needs no rounding comes back as it is, a rounding
    returns a float of the format, and the sign [+] is kept. *)
Module FloatRound.
Import Vocabulary.

Local Open Scope Z_scope.

(** *** Digits *)

Lemma digits2_size (p : positive) : digits2_pos p = Pos.size p.
Proof. induction p as [p IH | p IH | ]; simpl; [ rewrite IH .. | ]; reflexivity. Qed.

Lemma digits2_log2 (p : positive) : Zpos (digits2_pos p) = Z.log2 (Zpos p) + 1.
Proof.
  rewrite digits2_size. destruct p as [p | p | ]; simpl; try reflexivity;
    rewrite Pos2Z.inj_succ; lia.
Qed.

Lemma digits2_bounds (p : positive) :
  2 ^ (Zpos (digits2_pos p) - 1) <= Zpos p < 2 ^ Zpos (digits2_pos p).
Proof.
  rewrite digits2_log2.
  replace (Z.log2 (Zpos p) + 1 - 1) with (Z.log2 (Zpos p)) by lia.
  apply Z.log2_spec. reflexivity.
Qed.

Lemma digits2_unique (p : positive) (d : Z) :
  2 ^ (d - 1) <= Zpos p < 2 ^ d -> Zpos (digits2_pos p) = d.
Proof.
  intros H. rewrite digits2_log2.
  assert (0 < d).
  { destruct (Z.le_gt_cases d 0) as [Hd | Hd]; [ | exact Hd ].
    exfalso. assert (2 ^ d <= 2 ^ 0) by (apply Z.pow_le_mono_r; lia).
    change (2 ^ 0) with 1 in *. lia. }
  rewrite (Z.log2_unique (Zpos p) (d - 1)); [ lia | lia | ].
  replace (Z.succ (d - 1)) with d by lia. exact H.
Qed.

Lemma digits2_mul_pow2 (p q : positive) (k : Z) :
  0 <= k -> Zpos q = Zpos p * 2 ^ k ->
  Zpos (digits2_pos q) = Zpos (digits2_pos p) + k.
Proof.
  intros Hk Hq. apply digits2_unique.
  pose proof (digits2_bounds p) as [Hlo Hhi].
  assert (0 < Zpos (digits2_pos p)) by reflexivity.
  rewrite Hq.
  replace (Zpos (digits2_pos p) + k - 1) with (Zpos (digits2_pos p) - 1 + k) by lia.
  rewrite !Z.pow_add_r by lia.
  assert (0 < 2 ^ k) by (apply Z.pow_pos_nonneg; lia).
  split; [ apply Z.mul_le_mono_nonneg_r; lia | apply Z.mul_lt_mono_pos_r; lia ].
Qed.


(** *** Shifting to the right *)

Lemma shr_1_m (mrs : shr_record) :
  0 <= shr_m mrs -> shr_m (shr_1 mrs) = shr_m mrs / 2.
Proof.
  destruct mrs as [m r s]. simpl.
  destruct m as [ | [p | p | ] | p]; intros H; simpl; try reflexivity.
  - rewrite Pos2Z.inj_xI. apply (Z.div_unique _ _ _ 1); lia.
  - rewrite Pos2Z.inj_xO. apply (Z.div_unique _ _ _ 0); lia.
  - lia.
Qed.

Lemma shr_m_iter (p : positive) (mrs : shr_record) :
  0 <= shr_m mrs ->
  shr_m (iter_pos shr_1 p mrs) = shr_m mrs / 2 ^ Zpos p.
Proof.
  revert mrs. induction p as [p IH | p IH | ]; intros mrs H; cbn [iter_pos].
  - assert (H1 : 0 <= shr_m (shr_1 mrs)).
    { rewrite shr_1_m by exact H. apply Z.div_pos; lia. }
    assert (H2 : 0 <= shr_m (iter_pos shr_1 p (shr_1 mrs))).
    { rewrite IH by exact H1. apply Z.div_pos; [ exact H1 | ].
      apply Z.pow_pos_nonneg; lia. }
    rewrite IH by exact H2. rewrite IH by exact H1. rewrite shr_1_m by exact H.
    assert (0 < 2 ^ Zpos p) by (apply Z.pow_pos_nonneg; lia).
    rewrite !Z.div_div by lia.
    f_equal. rewrite <- Z.pow_add_r by lia.
    change 2 with (2 ^ 1) at 1. rewrite <- Z.pow_add_r by lia. f_equal. lia.
  - assert (H2 : 0 <= shr_m (iter_pos shr_1 p mrs)).
    { rewrite IH by exact H. apply Z.div_pos; [ exact H | ].
      apply Z.pow_pos_nonneg; lia. }
    rewrite IH by exact H2. rewrite IH by exact H.
    assert (0 < 2 ^ Zpos p) by (apply Z.pow_pos_nonneg; lia).
    rewrite Z.div_div by lia.
    f_equal. rewrite <- Z.pow_add_r by lia. f_equal. lia.
  - rewrite shr_1_m by exact H. reflexivity.
Qed.

Lemma pow2_xO (p : positive) : 2 ^ Zpos p~0 = 2 ^ Zpos p * 2 ^ Zpos p.
Proof. rewrite <- Z.pow_add_r by lia. f_equal. lia. Qed.

Lemma pow2_xI (p : positive) : 2 ^ Zpos p~1 = 2 * (2 ^ Zpos p * 2 ^ Zpos p).
Proof.
  rewrite <- Z.pow_add_r, <- Z.pow_succ_r by lia. f_equal. lia.
Qed.

Lemma shr_1_double (k : Z) :
  0 <= k ->
  shr_1 (Build_shr_record (2 * k) false false) = Build_shr_record k false false.
Proof. destruct k as [ | q | q]; intros H; [ reflexivity | reflexivity | lia ]. Qed.

Lemma shr_iter_exact (p : positive) (k : Z) :
  0 <= k ->
  iter_pos shr_1 p (Build_shr_record (k * 2 ^ Zpos p) false false)
  = Build_shr_record k false false.
Proof.
  revert k. induction p as [p IH | p IH | ]; intros k H; cbn [iter_pos].
  - assert (0 < 2 ^ Zpos p) by (apply Z.pow_pos_nonneg; lia).
    replace (k * 2 ^ Zpos p~1) with (2 * (k * 2 ^ Zpos p * 2 ^ Zpos p))
      by (rewrite pow2_xI; ring).
    rewrite shr_1_double by nia. rewrite IH by nia. apply IH. exact H.
  - assert (0 < 2 ^ Zpos p) by (apply Z.pow_pos_nonneg; lia).
    replace (k * 2 ^ Zpos p~0) with (k * 2 ^ Zpos p * 2 ^ Zpos p)
      by (rewrite pow2_xO; ring).
    rewrite IH by nia. apply IH. exact H.
  - replace (k * 2 ^ 1) with (2 * k) by (change (2 ^ 1) with 2; ring).
    apply shr_1_double. exact H.
Qed.

Lemma shr_exact (k e n : Z) :
  0 <= k -> 0 <= n ->
  shr (Build_shr_record (k * 2 ^ n) false false) e n
  = (Build_shr_record k false false, e + n).
Proof.
  intros Hk Hn. destruct n as [ | p | p]; [ | | lia ].
  - simpl. rewrite Z.mul_1_r, Z.add_0_r. reflexivity.
  - unfold shr. rewrite shr_iter_exact by exact Hk. reflexivity.
Qed.

(** *** The format *)

Lemma fexp_eq (x : Z) : fexp prec emax x = Z.max (x - 53) (-1074).
Proof. reflexivity. Qed.

Lemma bounded_spec (m : positive) (e : Z) :
  bounded prec emax m e = true <->
  Z.max (Zpos (digits2_pos m) + e - 53) (-1074) = e /\ e <= 971.
Proof.
  unfold bounded, canonical_mantissa. rewrite fexp_eq, andb_true_iff.
  rewrite Z.eqb_eq, Z.leb_le. reflexivity.
Qed.

(** *** Rounding a value that needs none *)

(** A mantissa that is a canonical one shifted to the left comes back as
    the canonical one. *)
Lemma binary_round_aux_exact (s : bool) (mc : positive) (ec : Z) (m e : Z) :
  bounded prec emax mc ec = true ->
  e <= ec -> m = Zpos mc * 2 ^ (ec - e) ->
  binary_round_aux prec emax s m e loc_Exact = S754_finite s mc ec.
Proof.
  intros Hb He Hm. apply bounded_spec in Hb. destruct Hb as [Hc Hmax].
  assert (Hpos : 0 < m).
  { rewrite Hm. apply Z.mul_pos_pos; [ reflexivity | ].
    apply Z.pow_pos_nonneg; lia. }
  destruct m as [ | q | q]; try lia.
  assert (Hd : Zpos (digits2_pos q) = Zpos (digits2_pos mc) + (ec - e)).
  { apply digits2_mul_pow2; [ lia | exact Hm ]. }
  unfold binary_round_aux, shr_fexp. simpl Zdigits2. rewrite Hd, fexp_eq.
  replace (Zpos (digits2_pos mc) + (ec - e) + e - 53)
    with (Zpos (digits2_pos mc) + ec - 53) by lia.
  rewrite Hc. simpl shr_record_of_loc. rewrite Hm.
  rewrite shr_exact by lia.
  replace (e + (ec - e)) with ec by lia.
  simpl shr_m. simpl loc_of_shr_record. simpl round_nearest_even.
  simpl Zdigits2. rewrite fexp_eq, Hc, Z.sub_diag. simpl shr. simpl shr_m.
  assert (Hle : (ec <=? 971) = true) by (apply Z.leb_le; exact Hmax).
  cbv beta iota. cbn [shr_m]. change (emax - prec) with 971.
  rewrite Hle. reflexivity.
Qed.

Lemma iter_xO (d m : positive) : Zpos (Pos.iter xO m d) = Zpos m * 2 ^ Zpos d.
Proof.
  induction d as [ | d IH] using Pos.peano_ind.
  - cbn [Pos.iter]. rewrite Pos2Z.inj_xO. change (2 ^ 1) with 2. ring.
  - rewrite Pos.iter_succ, Pos2Z.inj_xO, IH, Pos2Z.inj_succ, Z.pow_succ_r by lia.
    ring.
Qed.

(** [z * 2^e] is the value of the canonical pair [(mc, ec)]: rounding it
    gives that pair. *)
Lemma binary_normalize_exact (z e : Z) (mc : positive) (ec : Z) :
  0 < z -> bounded prec emax mc ec = true ->
  z * 2 ^ (e - Z.min e ec) = Zpos mc * 2 ^ (ec - Z.min e ec) ->
  binary_normalize prec emax z e false = S754_finite false mc ec.
Proof.
  intros Hz Hb Hv. destruct z as [ | q | q]; try lia.
  pose proof Hb as Hb'. apply bounded_spec in Hb'. destruct Hb' as [Hc Hmax].
  unfold binary_normalize, binary_round.
  destruct (Z.le_gt_cases e ec) as [Hle | Hgt].
  - (* the mantissa is the canonical one shifted to the left *)
    rewrite Z.min_l in Hv by exact Hle.
    rewrite Z.sub_diag, Z.mul_1_r in Hv.
    assert (Hd : Zpos (digits2_pos q) = Zpos (digits2_pos mc) + (ec - e)).
    { apply digits2_mul_pow2; [ lia | exact Hv ]. }
    rewrite Hd, fexp_eq.
    replace (Zpos (digits2_pos mc) + (ec - e) + e - 53)
      with (Zpos (digits2_pos mc) + ec - 53) by lia.
    rewrite Hc. unfold shl_align.
    pose proof (binary_round_aux_exact false mc ec (Zpos q) e Hb Hle Hv) as Hr.
    destruct (ec - e) as [ | p | p] eqn:E; try lia; exact Hr.
  - rewrite Z.min_r in Hv by lia.
    rewrite Z.sub_diag, Z.mul_1_r in Hv.
    assert (Hd : Zpos (digits2_pos mc) = Zpos (digits2_pos q) + (e - ec)).
    { apply digits2_mul_pow2; [ lia | symmetry; exact Hv ]. }
    rewrite fexp_eq.
    replace (Zpos (digits2_pos q) + e - 53)
      with (Zpos (digits2_pos mc) + ec - 53) by lia.
    rewrite Hc. unfold shl_align.
    destruct (ec - e) as [ | p | p] eqn:E; try lia.
    simpl fst. simpl snd.
    apply (binary_round_aux_exact false mc ec); try assumption; try lia.
    rewrite Z.sub_diag, Z.mul_1_r, iter_xO, <- Hv.
    replace (Zpos p) with (e - ec) by lia. reflexivity.
Qed.


(** *** What rounding returns *)

Lemma pow2_pos (k : Z) : 0 <= k -> 0 < 2 ^ k.
Proof. intros H. apply Z.pow_pos_nonneg; lia. Qed.

Lemma Zdigits2_nonneg (z : Z) : 0 <= Zdigits2 z.
Proof. destruct z; simpl; lia. Qed.

Lemma Zdigits2_bounds (z : Z) :
  0 < z -> 2 ^ (Zdigits2 z - 1) <= z < 2 ^ Zdigits2 z.
Proof.
  destruct z as [ | p | p]; intros H; try lia. apply digits2_bounds.
Qed.

Lemma Zdigits2_unique (z d : Z) :
  2 ^ (d - 1) <= z < 2 ^ d -> 0 < z -> Zdigits2 z = d.
Proof.
  destruct z as [ | p | p]; intros H Hz; try lia. apply digits2_unique. exact H.
Qed.

Lemma Zdigits2_le (z k : Z) : 0 < z -> 0 <= k -> z <= 2 ^ k -> Zdigits2 z <= k + 1.
Proof.
  intros Hz Hk H. pose proof (Zdigits2_bounds z Hz) as [Hlo _].
  destruct (Z.le_gt_cases (Zdigits2 z) (k + 1)) as [Hle | Hgt]; [ exact Hle | ].
  exfalso.
  assert (2 ^ (k + 1) <= 2 ^ (Zdigits2 z - 1)) by (apply Z.pow_le_mono_r; lia).
  rewrite Z.pow_add_r in H0 by lia. change (2 ^ 1) with 2 in H0.
  pose proof (pow2_pos k Hk). lia.
Qed.

Lemma Zdigits2_lt (z k : Z) : 0 < z -> 0 <= k -> z < 2 ^ k -> Zdigits2 z <= k.
Proof.
  intros Hz Hk H. pose proof (Zdigits2_bounds z Hz) as [Hlo _].
  destruct (Z.le_gt_cases (Zdigits2 z) k) as [Hle | Hgt]; [ exact Hle | ].
  exfalso.
  assert (2 ^ k <= 2 ^ (Zdigits2 z - 1)) by (apply Z.pow_le_mono_r; lia).
  lia.
Qed.

Lemma div_pow2_bounds (m d n : Z) :
  2 ^ (d - 1) <= m < 2 ^ d -> 0 <= n -> n <= d - 1 ->
  2 ^ (d - 1 - n) <= m / 2 ^ n < 2 ^ (d - n).
Proof.
  intros [Hlo Hhi] Hn Hd. pose proof (pow2_pos n Hn) as Hp. split.
  - apply Z.div_le_lower_bound; [ exact Hp | ].
    rewrite <- Z.pow_add_r by lia. replace (n + (d - 1 - n)) with (d - 1) by lia.
    exact Hlo.
  - apply Z.div_lt_upper_bound; [ exact Hp | ].
    rewrite <- Z.pow_add_r by lia. replace (n + (d - n)) with d by lia.
    exact Hhi.
Qed.

Lemma div_pow2_small (m d n : Z) :
  0 <= m < 2 ^ d -> 0 <= d -> d <= n -> m / 2 ^ n = 0.
Proof.
  intros [Hlo Hhi] Hd Hn. apply Z.div_small. split; [ exact Hlo | ].
  assert (2 ^ d <= 2 ^ n) by (apply Z.pow_le_mono_r; lia). lia.
Qed.

Lemma shr_record_of_loc_m (m : Z) (l : location) :
  shr_m (shr_record_of_loc m l) = m.
Proof. destruct l as [ | [ | | ]]; reflexivity. Qed.

(** The mantissa and the exponent [shr_fexp] returns. *)
Lemma shr_fexp_spec (m e : Z) (l : location) :
  0 <= m ->
  let n := Z.max (fexp prec emax (Zdigits2 m + e) - e) 0 in
  shr_m (fst (shr_fexp prec emax m e l)) = m / 2 ^ n /\
  snd (shr_fexp prec emax m e l) = e + n.
Proof.
  intros Hm n. unfold shr_fexp, shr. subst n.
  destruct (fexp prec emax (Zdigits2 m + e) - e) as [ | p | p] eqn:E.
  - simpl. rewrite shr_record_of_loc_m, Z.div_1_r, Z.add_0_r. split; reflexivity.
  - rewrite Z.max_l by lia. simpl fst. simpl snd.
    rewrite shr_m_iter by (rewrite shr_record_of_loc_m; exact Hm).
    rewrite shr_record_of_loc_m. split; reflexivity.
  - rewrite Z.max_r by lia. simpl.
    rewrite shr_record_of_loc_m, Z.div_1_r, Z.add_0_r. split; reflexivity.
Qed.

Lemma round_nearest_even_cases (m : Z) (l : location) :
  round_nearest_even m l = m \/ round_nearest_even m l = m + 1.
Proof.
  destruct l as [ | [ | | ]]; simpl; auto. destruct (Z.even m); auto.
Qed.

(** The result of a rounding in terms of three integers: the mantissa
    after the first shift, the rounded mantissa, and the last shift. *)
Lemma binary_round_aux_spec (s : bool) (mx ex : Z) (lx : location) :
  0 <= mx ->
  exists m2 : Z,
    let e1 := ex + Z.max (fexp prec emax (Zdigits2 mx + ex) - ex) 0 in
    let m1 := mx / 2 ^ Z.max (fexp prec emax (Zdigits2 mx + ex) - ex) 0 in
    let n2 := Z.max (fexp prec emax (Zdigits2 m2 + e1) - e1) 0 in
    (m2 = m1 \/ m2 = m1 + 1) /\
    binary_round_aux prec emax s mx ex lx =
    match m2 / 2 ^ n2 with
    | 0 => S754_zero s
    | Zpos m => if e1 + n2 <=? 971 then S754_finite s m (e1 + n2)
                else S754_infinity s
    | Zneg _ => S754_nan
    end.
Proof.
  intros Hm. unfold binary_round_aux.
  pose proof (shr_fexp_spec mx ex lx Hm) as [H1 H1'].
  destruct (shr_fexp prec emax mx ex lx) as [mrs' e'] eqn:E1.
  simpl fst in H1. simpl snd in H1'.
  set (m2 := round_nearest_even (shr_m mrs') (loc_of_shr_record mrs')).
  exists m2.
  assert (Hm1 : 0 <= shr_m mrs').
  { rewrite H1. apply Z.div_pos; [ exact Hm | ]. apply pow2_pos. lia. }
  assert (Hm2 : 0 <= m2).
  { destruct (round_nearest_even_cases (shr_m mrs') (loc_of_shr_record mrs'))
      as [H | H]; fold m2 in H; lia. }
  pose proof (shr_fexp_spec m2 e' loc_Exact Hm2) as [H2 H2'].
  destruct (shr_fexp prec emax m2 e' loc_Exact) as [mrs'' e''] eqn:E2.
  simpl fst in H2. simpl snd in H2'.
  cbv zeta. rewrite <- H1', <- H1. split.
  - apply round_nearest_even_cases.
  - rewrite H2, H2'. reflexivity.
Qed.


Lemma binary_round_aux_class (s : bool) (mx ex : Z) (lx : location) :
  0 <= mx ->
  binary_round_aux prec emax s mx ex lx = S754_zero s \/
  (exists m e, binary_round_aux prec emax s mx ex lx = S754_finite s m e) \/
  binary_round_aux prec emax s mx ex lx = S754_infinity s.
Proof.
  intros Hm. destruct (binary_round_aux_spec s mx ex lx Hm) as [m2 [Hm2 Hr]].
  cbv zeta in Hm2, Hr. rewrite Hr.
  set (n1 := Z.max (fexp prec emax (Zdigits2 mx + ex) - ex) 0) in *.
  set (e1 := ex + n1) in *.
  set (n2 := Z.max (fexp prec emax (Zdigits2 m2 + e1) - e1) 0) in *.
  assert (H1 : 0 <= mx / 2 ^ n1).
  { apply Z.div_pos; [ exact Hm | apply pow2_pos; lia ]. }
  assert (H3 : 0 <= m2 / 2 ^ n2).
  { apply Z.div_pos; [ lia | apply pow2_pos; lia ]. }
  destruct (m2 / 2 ^ n2) as [ | m | m]; [ | | lia ].
  - left. reflexivity.
  - right. destruct (e1 + n2 <=? 971).
    + left. exists m, (e1 + n2). reflexivity.
    + right. reflexivity.
Qed.

(** The arithmetic of a rounding that starts at or below the canonical
    exponent [F] of its argument: the mantissa left is zero or canonical,
    and the exponent is [F] or [F + 1]. *)
Lemma round_canonical (mx ex m2 : Z) :
  0 <= mx -> ex <= fexp prec emax (Zdigits2 mx + ex) ->
  let F := fexp prec emax (Zdigits2 mx + ex) in
  let m1 := mx / 2 ^ (F - ex) in
  m2 = m1 \/ m2 = m1 + 1 ->
  let n2 := Z.max (fexp prec emax (Zdigits2 m2 + F) - F) 0 in
  let m3 := m2 / 2 ^ n2 in
  0 <= m3 /\
  (0 < m3 -> fexp prec emax (Zdigits2 m3 + (F + n2)) = F + n2 /\ n2 <= 1).
Proof.
  intros Hm Hpre F m1 Hm2 n2 m3.
  assert (Hpre' : ex <= F) by exact Hpre.
  assert (Hm1 : 0 <= m1).
  { apply Z.div_pos; [ exact Hm | apply pow2_pos; lia ]. }
  assert (Hm3 : 0 <= m3).
  { apply Z.div_pos; [ lia | apply pow2_pos; lia ]. }
  split; [ exact Hm3 | intros Hpos ].
  assert (Hm2pos : 0 < m2).
  { destruct (Z.eq_dec m2 0) as [Hz | Hz]; [ | lia ].
    subst m3. rewrite Hz, Z.div_0_l in Hpos; [ lia | ].
    pose proof (pow2_pos n2). lia. }
  assert (Hlow : forall z, 0 < z -> z <= 2 ^ 52 -> F = -1074 ->
                 m2 = z -> fexp prec emax (Zdigits2 m3 + (F + n2)) = F + n2 /\ n2 <= 1).
  { intros z Hz Hle HF Hz2.
    pose proof (Zdigits2_le z 52 Hz ltac:(lia) Hle) as Hd.
    pose proof (Zdigits2_nonneg z) as Hd0.
    assert (Hn2 : n2 = 0).
    { subst n2. rewrite Hz2, fexp_eq. lia. }
    subst m3. rewrite Hn2. change (2 ^ 0) with 1. rewrite Z.div_1_r.
    rewrite Hz2, fexp_eq. lia. }
  destruct (Z.eq_dec mx 0) as [H0 | H0].
  - (* nothing to round but the location *)
    assert (HF : F = -1074).
    { subst F. rewrite H0 in *. simpl Zdigits2 in *. rewrite fexp_eq in *. lia. }
    assert (H10 : m1 = 0). { subst m1. rewrite H0. apply Z.div_0_l.
      pose proof (pow2_pos (F - ex)). lia. }
    apply (Hlow m2); lia.
  - assert (Hmx : 0 < mx) by lia.
    pose proof (Zdigits2_bounds mx Hmx) as HB.
    set (d := Zdigits2 mx) in *.
    assert (Hd1 : 1 <= d).
    { destruct mx as [ | p | p]; try lia. subst d. simpl. lia. }
    destruct (Z.le_gt_cases (-1074) (d + ex - 53)) as [Hn | Hs].
    + (* the normal range *)
      assert (HF : F = d + ex - 53) by (subst F; rewrite fexp_eq; lia).
      assert (Hb1 : 2 ^ 52 <= m1 < 2 ^ 53).
      { subst m1. replace (F - ex) with (d - 53) by lia.
        pose proof (div_pow2_bounds mx d (d - 53) HB) as Hb.
        replace (d - 1 - (d - 53)) with 52 in Hb by lia.
        replace (d - (d - 53)) with 53 in Hb by lia.
        apply Hb; lia. }
      destruct (Z.eq_dec m2 (2 ^ 53)) as [Htop | Htop].
      * assert (Hn2 : n2 = 1).
        { subst n2. rewrite Htop. change (Zdigits2 (2 ^ 53)) with 54.
          rewrite fexp_eq. lia. }
        subst m3. rewrite Hn2, Htop.
        change (2 ^ 53 / 2 ^ 1) with 4503599627370496.
        change (Zdigits2 4503599627370496) with 53. rewrite fexp_eq. lia.
      * assert (Hd2 : Zdigits2 m2 = 53).
        { apply Zdigits2_unique; [ | exact Hm2pos ].
          change (53 - 1) with 52. lia. }
        assert (Hn2 : n2 = 0).
        { subst n2. rewrite Hd2, fexp_eq. lia. }
        subst m3. rewrite Hn2. change (2 ^ 0) with 1. rewrite Z.div_1_r.
        rewrite Hd2, fexp_eq. lia.
    + (* the subnormal range *)
      assert (HF : F = -1074) by (subst F; rewrite fexp_eq; fold d; lia).
      assert (Hb1 : m1 < 2 ^ 52).
      { subst m1. rewrite HF.
        destruct (Z.le_gt_cases d (-1074 - ex)) as [Hsmall | Hbig].
        - rewrite (div_pow2_small mx d (-1074 - ex)); lia.
        - pose proof (div_pow2_bounds mx d (-1074 - ex) HB) as Hb.
          assert (Hle : 2 ^ (d - (-1074 - ex)) <= 2 ^ 52)
            by (apply Z.pow_le_mono_r; lia).
          specialize (Hb ltac:(lia) ltac:(lia)). lia. }
      apply (Hlow m2); lia.
Qed.


(** A rounding that starts at or below the canonical exponent of its
    argument returns a float of the format, and no infinity while that
    exponent is below the largest one. *)
Lemma binary_round_aux_valid (s : bool) (mx ex : Z) (lx : location) :
  0 <= mx -> ex <= fexp prec emax (Zdigits2 mx + ex) ->
  valid_binary (binary_round_aux prec emax s mx ex lx) = true /\
  (fexp prec emax (Zdigits2 mx + ex) < 971 ->
   binary_round_aux prec emax s mx ex lx = S754_zero s \/
   exists m e, binary_round_aux prec emax s mx ex lx = S754_finite s m e).
Proof.
  intros Hm Hpre.
  destruct (binary_round_aux_spec s mx ex lx Hm) as [m2 [Hm2 Hr]].
  cbv zeta in Hm2, Hr. rewrite Hr. clear Hr.
  set (F := fexp prec emax (Zdigits2 mx + ex)) in *.
  rewrite (Z.max_l (F - ex) 0) in * by lia.
  replace (ex + (F - ex)) with F in * by lia.
  pose proof (round_canonical mx ex m2 Hm Hpre Hm2) as Hc.
  cbv zeta in Hc. fold F in Hc.
  set (n2 := Z.max (fexp prec emax (Zdigits2 m2 + F) - F) 0) in *.
  destruct Hc as [H3 Hc].
  destruct (m2 / 2 ^ n2) as [ | m | m] eqn:E3; [ | | lia ].
  - split; [ reflexivity | ]. intros _. left. reflexivity.
  - destruct (Hc ltac:(lia)) as [Hcan Hn2].
    destruct (F + n2 <=? 971) eqn:Ele.
    + split.
      * simpl. apply bounded_spec. rewrite fexp_eq in Hcan. simpl Zdigits2 in Hcan.
        apply Z.leb_le in Ele. split; lia.
      * intros _. right. exists m, (F + n2). reflexivity.
    + split; [ reflexivity | ]. intros HF. apply Z.leb_gt in Ele. lia.
Qed.


(** *** Division *)

Lemma Zdigits2_ge (z k : Z) : 0 <= k -> 2 ^ k <= z -> k + 1 <= Zdigits2 z.
Proof.
  intros Hk H. pose proof (pow2_pos k Hk) as Hp.
  pose proof (Zdigits2_bounds z ltac:(lia)) as [_ Hhi].
  pose proof (Zdigits2_nonneg z) as Hd.
  destruct (Z.le_gt_cases (k + 1) (Zdigits2 z)) as [Hle | Hgt]; [ exact Hle | ].
  exfalso.
  assert (2 ^ Zdigits2 z <= 2 ^ k) by (apply Z.pow_le_mono_r; lia). lia.
Qed.

(** The quotient [SFdiv_core_binary] hands to the rounding is not negative
    and comes at or below its canonical exponent. *)
Lemma SFdiv_core_binary_spec (m1 m2 : positive) (e1 e2 : Z) :
  exists q e' l,
    SFdiv_core_binary prec emax (Zpos m1) e1 (Zpos m2) e2 = (q, e', l) /\
    0 <= q /\ e' <= fexp prec emax (Zdigits2 q + e').
Proof.
  unfold SFdiv_core_binary.
  set (d1 := Zdigits2 (Zpos m1)). set (d2 := Zdigits2 (Zpos m2)).
  set (e' := Z.min (fexp prec emax (d1 + e1 - (d2 + e2))) (e1 - e2)).
  set (s := e1 - e2 - e').
  assert (Hs : 0 <= s) by (subst s e'; lia).
  set (m' := match s with
             | 0 => Zpos m1
             | Zpos _ => Z.shiftl (Zpos m1) s
             | Zneg _ => 0
             end).
  assert (Hm' : m' = Zpos m1 * 2 ^ s).
  { subst m'. destruct s as [ | p | p] eqn:E; [ | | lia ].
    - rewrite Z.mul_1_r. reflexivity.
    - apply Z.shiftl_mul_pow2. lia. }
  destruct (Z.div_eucl m' (Zpos m2)) as [q r] eqn:E.
  assert (Hq : q = m' / Zpos m2) by (unfold Z.div; rewrite E; reflexivity).
  exists q, e', (new_location (Zpos m2) r). split; [ reflexivity | ].
  pose proof (pow2_pos s Hs) as Hps.
  assert (Hq0 : 0 <= q).
  { rewrite Hq. apply Z.div_pos; [ rewrite Hm'; nia | reflexivity ]. }
  split; [ exact Hq0 | ].
  pose proof (Zdigits2_bounds (Zpos m1) eq_refl) as [Hlo1 Hhi1].
  pose proof (Zdigits2_bounds (Zpos m2) eq_refl) as [Hlo2 Hhi2].
  fold d1 in Hlo1, Hhi1. fold d2 in Hlo2, Hhi2.
  assert (Hd1 : 1 <= d1) by (subst d1; simpl; lia).
  assert (Hd2 : 1 <= d2) by (subst d2; simpl; lia).
  assert (Hlo' : 2 ^ (d1 - 1 + s) <= m').
  { rewrite Hm', Z.pow_add_r by lia. apply Z.mul_le_mono_nonneg_r; lia. }
  assert (He' : e' <= fexp prec emax (d1 + e1 - (d2 + e2))) by (subst e'; lia).
  rewrite fexp_eq in He'. rewrite fexp_eq.
  destruct (Z.eq_dec q 0) as [Hz | Hz].
  - (* the quotient is zero: the dividend is below the divisor *)
    rewrite Hz. simpl Zdigits2.
    assert (Hlt : m' < Zpos m2).
    { destruct (Z.lt_ge_cases m' (Zpos m2)) as [Hlt | Hge]; [ exact Hlt | ].
      exfalso. assert (1 <= m' / Zpos m2).
      { apply Z.div_le_lower_bound; lia. }
      lia. }
    assert (Hexp : d1 - 1 + s < d2).
    { destruct (Z.lt_ge_cases (d1 - 1 + s) d2) as [H | H]; [ exact H | ].
      exfalso.
      assert (2 ^ d2 <= 2 ^ (d1 - 1 + s)) by (apply Z.pow_le_mono_r; lia).
      lia. }
    subst s. lia.
  - assert (Hqpos : 0 < q) by lia.
    pose proof (Zdigits2_bounds q Hqpos) as [Hloq Hhiq].
    assert (Hdq : 1 <= Zdigits2 q).
    { destruct q as [ | p | p]; try lia. simpl. lia. }
    assert (Hdig : d1 - d2 + s <= Zdigits2 q).
    { destruct (Z.le_gt_cases (d1 - d2 + s) 1) as [Hsmall | Hbig]; [ lia | ].
      assert (H2 : 2 ^ (d1 - 1 + s - d2) <= q).
      { rewrite Hq. apply Z.div_le_lower_bound; [ reflexivity | ].
        assert (Zpos m2 * 2 ^ (d1 - 1 + s - d2) <= 2 ^ d2 * 2 ^ (d1 - 1 + s - d2)).
        { apply Z.mul_le_mono_nonneg_r; [ apply Z.lt_le_incl, pow2_pos | ]; lia. }
        rewrite <- Z.pow_add_r in H by lia.
        replace (d2 + (d1 - 1 + s - d2)) with (d1 - 1 + s) in H by lia. lia. }
      pose proof (Zdigits2_ge q (d1 - 1 + s - d2) ltac:(lia) H2). lia. }
    subst s. lia.
Qed.

(** A quotient of two positive finite values is a float of the format that
    is no NaN and has no minus sign. *)
Lemma SFdiv_pos_valid (m1 m2 : positive) (e1 e2 : Z) :
  let r := SFdiv prec emax (S754_finite false m1 e1) (S754_finite false m2 e2) in
  valid_binary r = true /\
  (r = S754_zero false \/ (exists m e, r = S754_finite false m e) \/
   r = S754_infinity false).
Proof.
  cbv zeta. unfold SFdiv.
  destruct (SFdiv_core_binary_spec m1 m2 e1 e2) as [q [e' [l [E [Hq Hpre]]]]].
  rewrite E. simpl xorb. split.
  - apply (binary_round_aux_valid false q e' l Hq Hpre).
  - apply binary_round_aux_class. exact Hq.
Qed.


Lemma div_eucl_exact (a b q : Z) : 0 < b -> a = b * q -> Z.div_eucl a b = (q, 0).
Proof.
  intros Hb Ha. pose proof (Z_div_mod a b ltac:(lia)) as H.
  destruct (Z.div_eucl a b) as [q' r']. destruct H as [H Hr].
  assert (q' = q) by nia. subst q'. f_equal. lia.
Qed.

(** Division by one changes nothing. *)
Lemma SFdiv_one (s : bool) (m : positive) (e : Z) :
  bounded prec emax m e = true ->
  SFdiv prec emax (S754_finite s m e) (S754_finite false 4503599627370496 (-52))
  = S754_finite s m e.
Proof.
  intros Hb. pose proof Hb as Hb'. apply bounded_spec in Hb'.
  destruct Hb' as [Hc Hmax].
  assert (Hd1 : 1 <= Zpos (digits2_pos m)) by lia.
  unfold SFdiv, SFdiv_core_binary.
  change (Zdigits2 (Zpos 4503599627370496)) with 53.
  simpl (Zdigits2 (Zpos m)). rewrite fexp_eq.
  rewrite xorb_false_r.
  destruct (Z.eq_dec e (-1074)) as [Hmin | Hmin].
  - (* the smallest exponent: the quotient is the mantissa itself *)
    replace (Z.min (Z.max (Zpos (digits2_pos m) + e - (53 + -52) - 53) (-1074))
                   (e - -52)) with e by lia.
    replace (e - -52 - e) with 52 by lia. cbv iota beta.
    rewrite (div_eucl_exact _ (Zpos 4503599627370496) (Zpos m));
      [ | reflexivity | rewrite Z.shiftl_mul_pow2 by lia; lia ].
    change (new_location (Zpos 4503599627370496) 0) with loc_Exact.
    apply binary_round_aux_exact; [ exact Hb | lia | ].
    rewrite Z.sub_diag, Z.mul_1_r. reflexivity.
  - replace (Z.min (Z.max (Zpos (digits2_pos m) + e - (53 + -52) - 53) (-1074))
                   (e - -52)) with (e - 1) by lia.
    replace (e - -52 - (e - 1)) with 53 by lia. cbv iota beta.
    rewrite (div_eucl_exact _ (Zpos 4503599627370496) (Zpos m~0));
      [ | reflexivity | rewrite Z.shiftl_mul_pow2 by lia; lia ].
    change (new_location (Zpos 4503599627370496) 0) with loc_Exact.
    apply binary_round_aux_exact; [ exact Hb | lia | ].
    replace (e - (e - 1)) with 1 by lia. lia.
Qed.


(** *** Values without a minus sign *)

Lemma binary_round_aux_plus (mx ex : Z) (lx : location) :
  0 <= mx -> plus_class (binary_round_aux prec emax false mx ex lx) = true.
Proof.
  intros H.
  destruct (binary_round_aux_class false mx ex lx H) as [-> | [[m [e ->]] | ->]];
    reflexivity.
Qed.

Lemma SFmul_plus (a : spec_float) (m : positive) (e : Z) :
  plus_class a = true ->
  plus_class (SFmul prec emax a (S754_finite false m e)) = true.
Proof.
  destruct a as [[ | ] | [ | ] | | [ | ] ma ea]; simpl; intros H;
    try discriminate H; try reflexivity.
  apply binary_round_aux_plus. lia.
Qed.

Lemma SFdiv_plus (a : spec_float) (m : positive) (e : Z) :
  plus_class a = true ->
  plus_class (SFdiv prec emax a (S754_finite false m e)) = true.
Proof.
  destruct a as [[ | ] | [ | ] | | [ | ] ma ea]; intros H;
    try discriminate H; try reflexivity.
  unfold SFdiv.
  destruct (SFdiv_core_binary_spec ma m ea e) as [q [e' [l [E [Hq _]]]]].
  rewrite E. apply binary_round_aux_plus. exact Hq.
Qed.

Lemma SFadd_plus (a b : spec_float) :
  plus_class a = true -> plus_class b = true ->
  plus_class (SFadd prec emax a b) = true.
Proof.
  destruct a as [[ | ] | [ | ] | | [ | ] ma ea]; intros Ha;
    try discriminate Ha;
    destruct b as [[ | ] | [ | ] | | [ | ] mb eb]; intros Hb;
    try discriminate Hb; try reflexivity.
  unfold SFadd, cond_Zopp, binary_normalize, binary_round.
  match goal with
  | |- context [Zpos ?x + Zpos ?y] => change (Zpos x + Zpos y) with (Zpos (x + y))
  end.
  cbv iota beta.
  match goal with
  | |- context [shl_align ?x ?y ?z] => destruct (shl_align x y z) as [mz ez]
  end.
  apply binary_round_aux_plus. lia.
Qed.

(** *** Exact differences and small products *)

Lemma shl_align_value (m : positive) (e e' : Z) :
  e' <= e -> Zpos (fst (shl_align m e e')) = Zpos m * 2 ^ (e - e').
Proof.
  intros H. unfold shl_align. destruct (e' - e) as [ | p | p] eqn:E.
  - replace (e - e') with 0 by lia. simpl. lia.
  - lia.
  - simpl fst. rewrite iter_xO. replace (Zpos p) with (e - e') by lia.
    reflexivity.
Qed.

Lemma pow2_split (a b : Z) : 0 <= a -> 0 <= b -> 2 ^ (a + b) = 2 ^ a * 2 ^ b.
Proof. intros. apply Z.pow_add_r; assumption. Qed.

(** A difference whose exact value is that of the canonical pair
    [(mc, ec)] is that pair: nothing is rounded. *)
Lemma SFsub_exact (m1 m2 mc : positive) (e1 e2 ec : Z) :
  bounded prec emax mc ec = true ->
  (let k := Z.min (Z.min e1 e2) ec in
   Zpos m1 * 2 ^ (e1 - k) - Zpos m2 * 2 ^ (e2 - k) = Zpos mc * 2 ^ (ec - k)) ->
  SFsub prec emax (S754_finite false m1 e1) (S754_finite false m2 e2)
  = S754_finite false mc ec.
Proof.
  intros Hb Hv. cbv zeta in Hv. unfold SFsub, cond_Zopp.
  set (ez := Z.min e1 e2) in *.
  rewrite (shl_align_value m1 e1 ez) by (subst ez; lia).
  rewrite (shl_align_value m2 e2 ez) by (subst ez; lia).
  set (k := Z.min ez ec) in *.
  assert (Hk : 0 < 2 ^ (ez - k)) by (apply pow2_pos; subst k; lia).
  assert (Hz : (Zpos m1 * 2 ^ (e1 - ez) - Zpos m2 * 2 ^ (e2 - ez)) * 2 ^ (ez - k)
               = Zpos mc * 2 ^ (ec - k)).
  { rewrite <- Hv.
    replace (e1 - k) with ((e1 - ez) + (ez - k)) by lia.
    replace (e2 - k) with ((e2 - ez) + (ez - k)) by lia.
    rewrite !pow2_split by (subst ez k; lia). ring. }
  apply binary_normalize_exact; [ | exact Hb | exact Hz ].
  assert (0 < Zpos mc * 2 ^ (ec - k)).
  { apply Z.mul_pos_pos; [ reflexivity | apply pow2_pos; subst k; lia ]. }
  nia.
Qed.

Lemma SFsub_same (m : positive) (e : Z) :
  SFsub prec emax (S754_finite false m e) (S754_finite false m e)
  = S754_zero false.
Proof. unfold SFsub, cond_Zopp. rewrite Z.sub_diag. reflexivity. Qed.

(** A positive integer times a power of two, with at most 53 digits and
    an exponent of the format, has a canonical pair. *)
Lemma canonical_of_small (r e : Z) :
  0 < r -> Zdigits2 r <= 53 -> -1074 <= e <= 971 ->
  exists (mr : positive) (er : Z),
    bounded prec emax mr er = true /\ er <= e /\
    Zpos mr = r * 2 ^ (e - er) /\
    Zpos (digits2_pos mr) + er = Zdigits2 r + e.
Proof.
  intros Hr Hd He. destruct r as [ | p | p]; try lia. simpl Zdigits2 in *.
  set (er := Z.max (Zpos (digits2_pos p) + e - 53) (-1074)).
  assert (Hle : er <= e) by (subst er; lia).
  assert (Hpos : 0 < Zpos p * 2 ^ (e - er)).
  { apply Z.mul_pos_pos; [ reflexivity | apply pow2_pos; lia ]. }
  destruct (Zpos p * 2 ^ (e - er)) as [ | mr | mr] eqn:E; try lia.
  exists mr, er.
  assert (Hdig : Zpos (digits2_pos mr) = Zpos (digits2_pos p) + (e - er)).
  { apply digits2_mul_pow2; [ lia | symmetry; exact E ]. }
  split; [ | split; [ exact Hle | split; [ symmetry; exact E | lia ] ] ].
  apply bounded_spec. subst er. lia.
Qed.

(** The product of a value below one and a value below 64 is finite. *)
Lemma SFmul_small (mx my : positive) (ex ey : Z) :
  Zpos (digits2_pos mx) + ex <= 0 ->
  Zpos (digits2_pos my) = 53 -> ey <= -47 ->
  SFmul prec emax (S754_finite false mx ex) (S754_finite false my ey)
  = S754_zero false \/
  exists m e,
    SFmul prec emax (S754_finite false mx ex) (S754_finite false my ey)
    = S754_finite false m e.
Proof.
  intros Hx Hy Hey. unfold SFmul. simpl xorb.
  pose proof (digits2_bounds mx) as [Hlox Hhix].
  pose proof (digits2_bounds my) as [Hloy Hhiy].
  rewrite Hy in Hloy, Hhiy.
  set (dx := Zpos (digits2_pos mx)) in *.
  assert (Hdx : 1 <= dx) by (subst dx; lia).
  assert (Hlo : 2 ^ 52 <= Zpos (mx * my)).
  { rewrite Pos2Z.inj_mul. change (53 - 1) with 52 in Hloy.
    assert (0 < 2 ^ 52) by (apply pow2_pos; lia). nia. }
  assert (Hhi : Zpos (mx * my) < 2 ^ (dx + 53)).
  { rewrite Pos2Z.inj_mul, pow2_split by lia.
    assert (0 < 2 ^ dx) by (apply pow2_pos; lia). nia. }
  pose proof (Zdigits2_ge (Zpos (mx * my)) 52 ltac:(lia) Hlo) as Hd1.
  pose proof (Zdigits2_lt (Zpos (mx * my)) (dx + 53) eq_refl ltac:(lia) Hhi) as Hd2.
  apply binary_round_aux_valid; [ lia | | ]; rewrite fexp_eq; lia.
Qed.

End FloatRound.

(** ** [divmod] by one and the text of a duration *)
Module DivmodFacts.
Import PyNum PaceCalculator Vocabulary PaceCalculatorFacts FloatRound.

Local Open Scope Z_scope.

Lemma Prim2SF_one : Prim2SF 1 = S754_finite false 4503599627370496 (-52).
Proof. reflexivity. Qed.

Lemma Prim2SF_zero : Prim2SF 0 = S754_zero false.
Proof. reflexivity. Qed.

Lemma Prim2SF_sixty : Prim2SF 60 = S754_finite false 8444249301319680 (-47).
Proof. reflexivity. Qed.

Lemma Prim2SF_bounded (x : float) (s : bool) (m : positive) (e : Z) :
  Prim2SF x = S754_finite s m e -> bounded prec emax m e = true.
Proof. intros H. pose proof (Prim2SF_valid x) as Hv. rewrite H in Hv. exact Hv. Qed.

(** A finite value that is not below zero is one of the two zeros or has
    a mantissa, an exponent and the sign [+]. *)
Lemma nonneg_finite_cases (v : float) :
  is_finite v = true -> (0 <=? v)%float = true ->
  v = 0%float \/ v = (-0)%float \/
  exists m e, Prim2SF v = S754_finite false m e.
Proof.
  intros Hf Hle. rewrite leb_spec, Prim2SF_zero in Hle.
  destruct (Prim2SF v) as [s | s | | s m e] eqn:E.
  - destruct s; [ right; left | left ]; apply Prim2SF_inj; rewrite E; reflexivity.
  - destruct s; [ discriminate Hle | ].
    assert (v = infinity) by (apply Prim2SF_inj; rewrite E; reflexivity).
    subst v. discriminate Hf.
  - discriminate Hle.
  - destruct s; [ discriminate Hle | ]. right. right. exists m, e. reflexivity.
Qed.


Lemma div_by_one (x : float) (m : positive) (e : Z) :
  Prim2SF x = S754_finite false m e -> (x / 1)%float = x.
Proof.
  intros H. apply Prim2SF_inj. rewrite div_spec, H, Prim2SF_one.
  apply SFdiv_one. exact (Prim2SF_bounded x false m e H).
Qed.

Lemma eqb_zero_pos (x : float) (m : positive) (e : Z) :
  Prim2SF x = S754_finite false m e -> (x =? 0)%float = false.
Proof. intros H. rewrite eqb_spec, H, Prim2SF_zero. reflexivity. Qed.

Lemma ltb_zero_pos (x : float) (m : positive) (e : Z) :
  Prim2SF x = S754_finite false m e -> (x <? 0)%float = false.
Proof. intros H. rewrite ltb_spec, H, Prim2SF_zero. reflexivity. Qed.

Lemma sub_self (x : float) (m : positive) (e : Z) :
  Prim2SF x = S754_finite false m e -> (x - x)%float = 0%float.
Proof.
  intros H. apply Prim2SF_inj. rewrite sub_spec, H, Prim2SF_zero.
  apply SFsub_same.
Qed.

Lemma sub_zero (x : float) (m : positive) (e : Z) :
  Prim2SF x = S754_finite false m e -> (x - 0)%float = x.
Proof.
  intros H. apply Prim2SF_inj. rewrite sub_spec, H, Prim2SF_zero. reflexivity.
Qed.

Lemma get_sign_pos (x : float) (m : positive) (e : Z) :
  Prim2SF x = S754_finite false m e -> get_sign x = false.
Proof.
  intros H. unfold get_sign, is_zero.
  change zero with 0%float. rewrite (eqb_zero_pos x m e H).
  exact (ltb_zero_pos x m e H).
Qed.

(** The float of an integer that a canonical pair holds exactly. *)
Lemma float_of_Z_spec (M : Z) (q : positive) (ec : Z) :
  0 < M -> bounded prec emax q ec = true ->
  M * 2 ^ (0 - Z.min 0 ec) = Zpos q * 2 ^ (ec - Z.min 0 ec) ->
  Prim2SF (float_of_Z M) = S754_finite false q ec.
Proof.
  intros HM Hb Hv. unfold float_of_Z.
  rewrite (binary_normalize_exact M 0 q ec HM Hb Hv).
  apply Prim2SF_SF2Prim. exact Hb.
Qed.

Lemma int_of_float_int (f : float) (M : Z) (q : positive) (ec : Z) :
  Prim2SF f = S754_finite false q ec ->
  M * 2 ^ (0 - Z.min 0 ec) = Zpos q * 2 ^ (ec - Z.min 0 ec) ->
  int_of_float f = Ok M.
Proof.
  intros H Hv. unfold int_of_float. rewrite H. unfold cond_Zopp. f_equal.
  destruct (0 <=? ec) eqn:E.
  - apply Z.leb_le in E. rewrite Z.min_l in Hv by lia.
    rewrite Z.shiftl_mul_pow2 by lia.
    rewrite !Z.sub_0_r in Hv. change (2 ^ 0) with 1 in Hv. lia.
  - apply Z.leb_gt in E. rewrite Z.min_r in Hv by lia.
    rewrite Z.shiftr_div_pow2 by lia.
    rewrite Z.sub_diag in Hv. change (2 ^ 0) with 1 in Hv.
    rewrite Z.mul_1_r in Hv. rewrite <- Hv.
    replace (0 - ec) with (- ec) by lia.
    apply Z.div_mul. pose proof (pow2_pos (- ec)). lia.
Qed.

Lemma floor_int (M : Z) (q : positive) (ec : Z) :
  0 < M ->
  Prim2SF (float_of_Z M) = S754_finite false q ec ->
  M * 2 ^ (0 - Z.min 0 ec) = Zpos q * 2 ^ (ec - Z.min 0 ec) ->
  floor (float_of_Z M) = float_of_Z M.
Proof.
  intros HM H Hv. unfold floor. rewrite H. unfold cond_Zopp.
  destruct (0 <=? ec) eqn:E; [ reflexivity | ].
  apply Z.leb_gt in E. rewrite Z.min_r in Hv by lia.
  rewrite Z.sub_diag in Hv. change (2 ^ 0) with 1 in Hv.
  rewrite Z.mul_1_r in Hv.
  assert (Hq : Z.shiftr (Zpos q) (- ec) = M).
  { rewrite Z.shiftr_div_pow2 by lia. rewrite <- Hv.
    replace (0 - ec) with (- ec) by lia.
    apply Z.div_mul. pose proof (pow2_pos (- ec)). lia. }
  rewrite Hq. assert (Hne : (M =? 0) = false) by (apply Z.eqb_neq; lia).
  rewrite Hne. reflexivity.
Qed.

(** *** The remainder of a division by one *)

Lemma fmod_one_rem (m : positive) (ex : Z) :
  Z.rem (Z.shiftl (Zpos m) (ex - Z.min ex (-52)))
        (Z.shiftl 4503599627370496 (-52 - Z.min ex (-52)))
  = if 0 <=? ex then 0
    else (Zpos m mod 2 ^ (- ex)) * 2 ^ (ex - Z.min ex (-52)).
Proof.
  set (e := Z.min ex (-52)).
  rewrite !Z.shiftl_mul_pow2 by lia.
  assert (Hb : 4503599627370496 * 2 ^ (-52 - e) = 2 ^ (- e)).
  { change 4503599627370496 with (2 ^ 52).
    rewrite <- Z.pow_add_r by lia. f_equal. lia. }
  rewrite Hb.
  assert (Hp : 0 < 2 ^ (ex - e)) by (apply pow2_pos; lia).
  assert (Hq : 0 < 2 ^ (- e)) by (apply pow2_pos; lia).
  rewrite Z.rem_mod_nonneg by nia.
  destruct (0 <=? ex) eqn:E.
  - apply Z.leb_le in E.
    replace (ex - e) with (ex + (- e)) by lia.
    rewrite pow2_split by lia. rewrite Z.mul_assoc. apply Z_mod_mult.
  - apply Z.leb_gt in E.
    replace (- e) with ((- ex) + (ex - e)) by lia.
    rewrite pow2_split by lia.
    assert (0 < 2 ^ (- ex)) by (apply pow2_pos; lia).
    apply Z.mul_mod_distr_r; lia.
Qed.

Lemma fmod_one_eq (v : float) (m : positive) (ex : Z) :
  Prim2SF v = S754_finite false m ex ->
  fmod v 1 =
  let r := if 0 <=? ex then 0
           else (Zpos m mod 2 ^ (- ex)) * 2 ^ (ex - Z.min ex (-52)) in
  if r =? 0 then 0%float
  else SF2Prim (binary_normalize prec emax r (Z.min ex (-52)) false).
Proof.
  intros H. unfold fmod. rewrite H, Prim2SF_one. cbv beta iota zeta.
  rewrite fmod_one_rem. reflexivity.
Qed.

Lemma float_divmod_one_unfold (v : float) :
  float_divmod v 1 =
  let mod0 := fmod v 1 in
  let div0 := ((v - mod0) / 1)%float in
  let '(md, dv) :=
    if (mod0 =? 0)%float then (0%float, div0)
    else if (mod0 <? 0)%float then ((mod0 + 1)%float, (div0 - 1)%float)
         else (mod0, div0) in
  let floordiv :=
    if (dv =? 0)%float then copysign_zero (v / 1)%float
    else
      let f := floor dv in
      if (0.5 <? dv - f)%float then (f + 1)%float else f in
  Ok (floordiv, md).
Proof. reflexivity. Qed.


(** *** [divmod(v, 1)] in its three cases *)

(** [v] is a whole number. *)
Lemma divmod_one_whole (v : float) (m : positive) (ex M : Z) :
  Prim2SF v = S754_finite false m ex ->
  0 < M -> M * 2 ^ (0 - Z.min 0 ex) = Zpos m * 2 ^ (ex - Z.min 0 ex) ->
  fmod v 1 = 0%float ->
  float_divmod v 1 = Ok (v, 0%float) /\ float_of_Z M = v.
Proof.
  intros Hv HM Hrep Hmod.
  pose proof (Prim2SF_bounded v false m ex Hv) as Hb.
  assert (HF : float_of_Z M = v).
  { apply Prim2SF_inj. rewrite Hv. apply float_of_Z_spec; assumption. }
  split; [ | exact HF ].
  assert (Hfl : floor v = v).
  { rewrite <- HF. apply (floor_int M m ex); [ exact HM | | exact Hrep ].
    rewrite HF. exact Hv. }
  rewrite float_divmod_one_unfold, Hmod. cbv zeta.
  rewrite (sub_zero v m ex Hv), (div_by_one v m ex Hv).
  change ((0 =? 0)%float) with true. cbv iota beta.
  rewrite (eqb_zero_pos v m ex Hv), Hfl, (sub_self v m ex Hv).
  change ((0.5 <? 0)%float) with false. reflexivity.
Qed.

(** [v] is below one. *)
Lemma divmod_one_fraction (v : float) (m : positive) (ex : Z) :
  Prim2SF v = S754_finite false m ex ->
  fmod v 1 = v ->
  float_divmod v 1 = Ok (0%float, v).
Proof.
  intros Hv Hmod.
  rewrite float_divmod_one_unfold, Hmod. cbv zeta.
  rewrite (sub_self v m ex Hv).
  change ((0 / 1)%float) with 0%float.
  rewrite (eqb_zero_pos v m ex Hv), (ltb_zero_pos v m ex Hv).
  change ((0 =? 0)%float) with true. cbv iota beta.
  rewrite (div_by_one v m ex Hv). unfold copysign_zero.
  rewrite (get_sign_pos v m ex Hv). reflexivity.
Qed.

(** [v] has a whole part [fM] and a fraction [fr]. *)
Lemma divmod_one_mixed (v fr : float) (m mr qM : positive) (ex er ecM M : Z) :
  Prim2SF v = S754_finite false m ex ->
  Prim2SF fr = S754_finite false mr er ->
  Prim2SF (float_of_Z M) = S754_finite false qM ecM ->
  0 < M -> M * 2 ^ (0 - Z.min 0 ecM) = Zpos qM * 2 ^ (ecM - Z.min 0 ecM) ->
  fmod v 1 = fr -> (v - fr)%float = float_of_Z M ->
  float_divmod v 1 = Ok (float_of_Z M, fr).
Proof.
  intros Hv Hfr HfM HM Hrep Hmod Hsub.
  rewrite float_divmod_one_unfold, Hmod. cbv zeta.
  rewrite Hsub, (div_by_one _ qM ecM HfM).
  rewrite (eqb_zero_pos fr mr er Hfr), (ltb_zero_pos fr mr er Hfr).
  rewrite (eqb_zero_pos _ qM ecM HfM).
  rewrite (floor_int M qM ecM HM HfM Hrep), (sub_self _ qM ecM HfM).
  change ((0.5 <? 0)%float) with false. reflexivity.
Qed.


(** [divmod(v, 1)] for a positive finite [v]: the whole part is the float
    of [floor(v)], and the fraction is what is left of [v], exactly; it is
    zero or a positive value below one. *)
Lemma float_divmod_one (v : float) (m : positive) (ex : Z) :
  Prim2SF v = S754_finite false m ex ->
  exists fl md : float,
    float_divmod v 1 = Ok (fl, md) /\
    int_of_float fl = Ok (floor_Z v) /\
    md = (v - float_of_Z (floor_Z v))%float /\
    (md = 0%float \/
     exists mr er, Prim2SF md = S754_finite false mr er /\
                   Zpos (digits2_pos mr) + er <= 0).
Proof.
  intros Hv.
  pose proof (Prim2SF_bounded v false m ex Hv) as Hb.
  pose proof Hb as Hb'. apply bounded_spec in Hb'. destruct Hb' as [Hc Hmax].
  pose proof (digits2_bounds m) as [Hlom Hhim].
  assert (Hdm : Zpos (digits2_pos m) <= 53) by lia.
  assert (Hex : -1074 <= ex) by lia.
  assert (Hm53 : Zpos m < 2 ^ 53).
  { assert (2 ^ Zpos (digits2_pos m) <= 2 ^ 53) by (apply Z.pow_le_mono_r; lia).
    lia. }
  assert (HfZ : floor_Z v = Z.shiftl (Zpos m) ex).
  { unfold floor_Z. rewrite Hv. reflexivity. }
  rewrite HfZ. pose proof (fmod_one_eq v m ex Hv) as Hmod. cbv zeta in Hmod.
  destruct (0 <=? ex) eqn:E.
  - (* no bit of the mantissa is below the point *)
    apply Z.leb_le in E. change (0 =? 0) with true in Hmod. cbv iota in Hmod.
    rewrite Z.shiftl_mul_pow2 by lia.
    assert (Hp : 0 < 2 ^ ex) by (apply pow2_pos; lia).
    destruct (divmod_one_whole v m ex (Zpos m * 2 ^ ex) Hv) as [Hdm1 HF];
      [ nia | | exact Hmod | ].
    { rewrite Z.min_l by lia. rewrite !Z.sub_0_r. change (2 ^ 0) with 1. ring. }
    exists v, 0%float. split; [ exact Hdm1 | ]. split; [ | split ].
    + apply (int_of_float_int v _ m ex Hv).
      rewrite Z.min_l by lia. rewrite !Z.sub_0_r. change (2 ^ 0) with 1. ring.
    + rewrite HF. symmetry. exact (sub_self v m ex Hv).
    + left. reflexivity.
  - apply Z.leb_gt in E.
    rewrite Z.shiftl_div_pow2 by lia.
    set (B := 2 ^ (- ex)) in *.
    assert (HB : 0 < B) by (apply pow2_pos; lia).
    pose proof (Z.div_mod (Zpos m) B ltac:(lia)) as Hdiv.
    pose proof (Z.mod_pos_bound (Zpos m) B HB) as HR.
    set (M := Zpos m / B) in *. set (R := Zpos m mod B) in *.
    assert (HM0 : 0 <= M) by (apply Z.div_pos; lia).
    set (e := Z.min ex (-52)) in *.
    assert (HP : 0 < 2 ^ (ex - e)) by (apply pow2_pos; lia).
    destruct (Z.eq_dec R 0) as [HR0 | HR0].
    + (* the bits below the point are zero *)
      rewrite HR0 in Hmod. change (0 * 2 ^ (ex - e) =? 0) with true in Hmod.
      cbv iota in Hmod.
      assert (Hrep : M * 2 ^ (0 - Z.min 0 ex) = Zpos m * 2 ^ (ex - Z.min 0 ex)).
      { rewrite Z.min_r by lia. rewrite Z.sub_diag. change (2 ^ 0) with 1.
        replace (0 - ex) with (- ex) by lia. fold B. lia. }
      destruct (divmod_one_whole v m ex M Hv) as [Hdm1 HF];
        [ nia | exact Hrep | exact Hmod | ].
      exists v, 0%float. split; [ exact Hdm1 | ]. split; [ | split ].
      * apply (int_of_float_int v _ m ex Hv). exact Hrep.
      * rewrite HF. symmetry. exact (sub_self v m ex Hv).
      * left. reflexivity.
    + assert (Hr : 0 < R * 2 ^ (ex - e)) by nia.
      assert (Hrne : (R * 2 ^ (ex - e) =? 0) = false) by (apply Z.eqb_neq; lia).
      rewrite Hrne in Hmod.
      assert (Hrlt : R * 2 ^ (ex - e) < 2 ^ (- e)).
      { replace (- e) with ((- ex) + (ex - e)) by lia.
        rewrite pow2_split by lia. fold B. nia. }
      destruct (Z.eq_dec M 0) as [HMz | HMz].
      * (* the value is below one *)
        assert (HRm : R = Zpos m) by lia.
        assert (Hfr : fmod v 1 = v).
        { rewrite Hmod.
          rewrite (binary_normalize_exact _ e m ex Hr Hb).
          - rewrite <- Hv. apply SF2Prim_Prim2SF.
          - rewrite Z.min_l by lia. rewrite Z.sub_diag. change (2 ^ 0) with 1.
            rewrite HRm. ring. }
        exists 0%float, v. split; [ exact (divmod_one_fraction v m ex Hv Hfr) | ].
        rewrite HMz. split; [ reflexivity | ]. split.
        -- symmetry. exact (sub_zero v m ex Hv).
        -- right. exists m, ex. split; [ exact Hv | ].
           pose proof (Zdigits2_lt (Zpos m) (- ex) eq_refl ltac:(lia)) as Hd.
           simpl Zdigits2 in Hd. fold B in Hd. lia.
      * (* a whole part and a fraction *)
        assert (HM : 0 < M) by lia.
        assert (HMm : M <= Zpos m) by nia.
        destruct (canonical_of_small M 0 HM) as [qM [ecM [HbM [HecM [HqM HdM]]]]];
          [ apply Zdigits2_lt; lia | lia | ].
        assert (H1M : 1 <= Zdigits2 M).
        { destruct M as [ | p | p]; try lia. simpl. lia. }
        pose proof HbM as HbM'. apply bounded_spec in HbM'.
        assert (HecM52 : -52 <= ecM) by lia.
        assert (HrepM : M * 2 ^ (0 - Z.min 0 ecM)
                        = Zpos qM * 2 ^ (ecM - Z.min 0 ecM)).
        { rewrite Z.min_r by lia. rewrite Z.sub_diag. change (2 ^ 0) with 1.
          lia. }
        pose proof (float_of_Z_spec M qM ecM HM HbM HrepM) as HfM.
        assert (Hr53 : R * 2 ^ (ex - e) < 2 ^ 53).
        { assert (2 ^ (- e) <= 2 ^ 53 \/ ex = e).
          { destruct (Z.le_gt_cases ex (-52)) as [Hle | Hgt].
            - right. subst e. lia.
            - left. replace e with (-52) by (subst e; lia).
              apply Z.pow_le_mono_r; lia. }
          destruct H as [H | H]; [ lia | ].
          rewrite <- H, Z.sub_diag. change (2 ^ 0) with 1. lia. }
        destruct (canonical_of_small (R * 2 ^ (ex - e)) e Hr)
          as [mr [er [Hbr [Her [Hmr Hdr]]]]];
          [ apply Zdigits2_lt; lia | subst e; lia | ].
        assert (Hfr : Prim2SF (fmod v 1) = S754_finite false mr er).
        { rewrite Hmod.
          rewrite (binary_normalize_exact _ e mr er Hr Hbr).
          - apply Prim2SF_SF2Prim. exact Hbr.
          - rewrite Z.min_r by lia. rewrite Z.sub_diag. change (2 ^ 0) with 1.
            lia. }
        (* the three values on the common exponent [er] *)
        assert (Her52 : er <= -52) by (subst e; lia).
        set (P := 2 ^ (ex - er)). set (Q := 2 ^ (ecM - er)).
        assert (HPpos : 0 < P) by (apply pow2_pos; lia).
        assert (HmrP : Zpos mr = R * P).
        { rewrite Hmr. subst P. replace (ex - er) with ((ex - e) + (e - er)) by lia.
          rewrite pow2_split by lia. ring. }
        assert (HqMQ : Zpos qM * Q = M * B * P).
        { rewrite HqM. subst Q P B.
          rewrite <- !Z.mul_assoc, <- !pow2_split by lia.
          f_equal. f_equal. lia. }
        assert (Hkey : Zpos m * P = Zpos qM * Q + Zpos mr) by nia.
        assert (Hsub1 : (v - fmod v 1)%float = float_of_Z M).
        { apply Prim2SF_inj. rewrite sub_spec, Hv, Hfr, HfM.
          apply SFsub_exact; [ exact HbM | ]. cbv zeta.
          replace (Z.min (Z.min ex er) ecM) with er by lia.
          rewrite Z.sub_diag. change (2 ^ 0) with 1. fold P Q. lia. }
        assert (Hsub2 : fmod v 1 = (v - float_of_Z M)%float).
        { apply Prim2SF_inj. rewrite sub_spec, Hv, Hfr, HfM. symmetry.
          apply SFsub_exact; [ exact Hbr | ]. cbv zeta.
          replace (Z.min (Z.min ex ecM) er) with er by lia.
          rewrite Z.sub_diag. change (2 ^ 0) with 1. fold P Q. lia. }
        exists (float_of_Z M), (fmod v 1).
        split; [ exact (divmod_one_mixed v _ m mr qM ex er ecM M
                          Hv Hfr HfM HM HrepM eq_refl Hsub1) | ].
        split; [ exact (int_of_float_int _ M qM ecM HfM HrepM) | ].
        split; [ exact Hsub2 | ].
        right. exists mr, er. split; [ exact Hfr | ].
        pose proof (Zdigits2_lt (R * 2 ^ (ex - e)) (- e) Hr ltac:(lia) Hrlt).
        lia.
Qed.


(** *** The seconds *)

(** [int] of a zero or of a positive finite value. *)
Lemma int_of_float_plus (x : float) :
  Prim2SF x = S754_zero false \/ (exists m e, Prim2SF x = S754_finite false m e) ->
  exists n, int_of_float x = Ok n /\ 0 <= n.
Proof.
  unfold int_of_float. intros [H | [m [e H]]]; rewrite H.
  - exists 0. split; [ reflexivity | lia ].
  - eexists. split; [ reflexivity | ]. unfold cond_Zopp.
    destruct (0 <=? e).
    + apply Z.shiftl_nonneg. lia.
    + apply Z.shiftr_nonneg. lia.
Qed.

(** A fraction of a minute has a whole number of seconds. *)
Lemma seconds_of_fraction (md : float) :
  md = 0%float \/
  (exists mr er, Prim2SF md = S754_finite false mr er /\
                 Zpos (digits2_pos mr) + er <= 0) ->
  exists SS, int_of_float (md * 60)%float = Ok SS /\ 0 <= SS.
Proof.
  intros [-> | [mr [er [H Hd]]]].
  - exists 0. split; [ reflexivity | lia ].
  - apply int_of_float_plus. rewrite mul_spec, H, Prim2SF_sixty.
    apply SFmul_small; [ exact Hd | reflexivity | lia ].
Qed.

Lemma minutes_to_time_str_short (v : float) (show_hours : bool) :
  (v <? 60)%float = true \/ show_hours = false ->
  minutes_to_time_str v show_hours =
  ( ' (mins, secs) <- float_divmod v 1 ;;
    m <- int_of_float mins ;;
    s <- int_of_float (secs * 60)%float ;;
    Ok (str_of_Z m ++ ":" ++ format_02d s)%string).
Proof.
  intros H. unfold minutes_to_time_str.
  assert (Hc : (v <? 60)%float || negb show_hours = true).
  { destruct H as [-> | ->]; [ reflexivity | apply orb_true_r ]. }
  rewrite Hc. reflexivity.
Qed.

(** C5, as the code has it: for a finite value that is not below zero,
    below one hour or shown without hours, the call returns the text
    [M:SS] where [M] is the floor of the value and [SS] is what [int]
    leaves of [(value - M) * 60]: the seconds are cut, not rounded.  [SS]
    is not negative and is written with at least two digits. *)
Theorem minutes_to_time_str_floor_and_cut (v : float) (show_hours : bool) :
  is_finite v = true -> (0 <=? v)%float = true ->
  (v <? 60)%float = true \/ show_hours = false ->
  exists SS,
    int_of_float ((v - float_of_Z (floor_Z v)) * 60)%float = Ok SS /\
    0 <= SS /\ (2 <= String.length (format_02d SS))%nat /\
    minutes_to_time_str v show_hours
    = Ok (str_of_Z (floor_Z v) ++ ":" ++ format_02d SS)%string.
Proof.
  intros Hf H0 Hshort. rewrite (minutes_to_time_str_short v show_hours Hshort).
  destruct (nonneg_finite_cases v Hf H0) as [-> | [-> | [m [e Hv]]]].
  - exists 0.
    split; [ reflexivity | split; [ lia | split; [ apply format_02d_width | reflexivity ] ] ].
  - exists 0.
    split; [ reflexivity | split; [ lia | split; [ apply format_02d_width | reflexivity ] ] ].
  - destruct (float_divmod_one v m e Hv) as [fl [md [Hdm [Hfl [Hmd Hclass]]]]].
    destruct (seconds_of_fraction md Hclass) as [SS [HSS Hpos]].
    exists SS. rewrite <- Hmd. split; [ exact HSS | ]. split; [ exact Hpos | ].
    split; [ apply format_02d_width | ].
    rewrite Hdm. simpl bind. rewrite Hfl. simpl bind. rewrite HSS. reflexivity.
Qed.

Lemma minutes_to_time_str_floor_and_cut_witness :
  exists SS,
    int_of_float ((4.76 - float_of_Z (floor_Z 4.76)) * 60)%float = Ok SS /\
    0 <= SS /\ (2 <= String.length (format_02d SS))%nat /\
    minutes_to_time_str 4.76 true
    = Ok (str_of_Z (floor_Z 4.76) ++ ":" ++ format_02d SS)%string.
Proof.
  apply (minutes_to_time_str_floor_and_cut 4.76 true);
    [ reflexivity | reflexivity | left; reflexivity ].
Defined.

End DivmodFacts.

(** ** The sign of a parsed value *)
Module SignFacts.
Import PyStr PyNum PaceCalculator Vocabulary PaceCalculatorFacts NumeralFacts
       ErrorFacts FloatRound DivmodFacts.

Local Open Scope float_scope.

(** [float] gives a text without a minus sign a value without one. *)
Lemma of_decimal_plus (z nd e : Z) :
  plus_class (Prim2SF (PyFloat.of_decimal false z nd e)) = true.
Proof.
  unfold PyFloat.of_decimal. destruct z as [ | p | p]; try reflexivity.
  destruct (310 <? e)%Z; [ reflexivity | ].
  destruct (nd + e <? -330)%Z; [ reflexivity | ].
  match goal with
  | |- context [SFdiv prec emax (S754_finite false ?n 0) (S754_finite false ?d 0)] =>
      destruct (SFdiv_pos_valid n d 0 0) as [Hvalid Hclass]
  end.
  cbv zeta in Hvalid, Hclass. rewrite (Prim2SF_SF2Prim _ Hvalid).
  destruct Hclass as [-> | [[m [e' ->]] | ->]]; reflexivity.
Qed.

Lemma parse_decimal_shape (s : string) (x : float) :
  PyFloat.parse_decimal s = Some x ->
  exists z nd e, x = PyFloat.of_decimal (fst (PyFloat.parse_sign s)) z nd e.
Proof.
  unfold PyFloat.parse_decimal.
  destruct (PyFloat.parse_sign s) as [neg s1].
  destruct (span_digits s1) as [ip s2].
  match goal with
  | |- context [let (_, _) := ?t in _] => destruct t as [fp s3]
  end.
  cbv zeta. simpl fst.
  destruct ((ip ++ fp) =? "")%string; [ discriminate | ].
  destruct s3 as [ | c r].
  - intros H. injection H as <-. eexists _, _, _. reflexivity.
  - destruct (PyFloat.is_exp_marker c); [ | discriminate ].
    destruct (PyFloat.parse_sign r) as [eneg r1].
    destruct (span_digits r1) as [ed r2].
    match goal with
    | |- (if ?b then _ else _) = _ -> _ => destruct b; [ discriminate | ]
    end.
    intros H. injection H as <-. eexists _, _, _. reflexivity.
Qed.

(** A text that opens with a digit and holds no blank and no underscore:
    what [float] reads from it has no minus sign. *)
Lemma of_string_plus (c : ascii) (r : string) (x : float) :
  is_digit c = true ->
  all_chars (fun a => negb (isspace a)) (String c r) = true ->
  all_chars (fun a => negb (a =? "_")%char) (String c r) = true ->
  PyFloat.of_string (String c r) = Ok x ->
  plus_class (Prim2SF x) = true.
Proof.
  intros Hc Hsp Hun. unfold PyFloat.of_string.
  rewrite (strip_blanks_id _ Hsp), (contains_none _ _ Hun).
  unfold PyFloat.parse_number. rewrite (parse_inf_or_nan_digit c r Hc).
  destruct (PyFloat.parse_decimal (String c r)) as [y | ] eqn:E; [ | discriminate ].
  intros H. injection H as <-.
  destruct (parse_decimal_shape _ _ E) as [z [nd [e ->]]].
  rewrite (parse_sign_digit c r Hc). apply of_decimal_plus.
Qed.


Lemma digits_plus (ip : string) (x : float) :
  all_digits ip = true -> ip <> "" ->
  PyFloat.of_string ip = Ok x -> plus_class (Prim2SF x) = true.
Proof.
  intros Hd Hne. destruct ip as [ | c r]; [ contradiction | ].
  pose proof Hd as Hc. unfold all_digits in Hc. simpl in Hc.
  apply andb_true_iff in Hc. destruct Hc as [Hc _].
  apply (of_string_plus c r x Hc).
  - exact (all_chars_weaken is_digit _ _ digit_no_space Hd).
  - exact (all_chars_weaken is_digit _ _ digit_no_underscore Hd).
Qed.

Lemma fraction_plus (ip fp : string) (x : float) :
  all_digits ip = true -> ip <> "" -> all_digits fp = true ->
  PyFloat.of_string (ip ++ String "." fp) = Ok x ->
  plus_class (Prim2SF x) = true.
Proof.
  intros Hd Hne Hf. destruct ip as [ | c r]; [ contradiction | ].
  pose proof Hd as Hc. unfold all_digits in Hc. simpl in Hc.
  apply andb_true_iff in Hc. destruct Hc as [Hc _].
  change (String c r ++ String "." fp) with (String c (r ++ String "." fp)).
  apply (of_string_plus c _ x Hc);
    change (String c (r ++ String "." fp)) with (String c r ++ String "." fp);
    rewrite all_chars_app.
  - rewrite (all_chars_weaken is_digit _ _ digit_no_space Hd). cbn [all_chars].
    rewrite (all_chars_weaken is_digit _ _ digit_no_space Hf). reflexivity.
  - rewrite (all_chars_weaken is_digit _ _ digit_no_underscore Hd).
    cbn [all_chars].
    rewrite (all_chars_weaken is_digit _ _ digit_no_underscore Hf). reflexivity.
Qed.

(** The number of a group of the letter pattern has no minus sign. *)
Lemma number_token_plus (frac : bool) (s tok rest : string) (x : float) :
  number_token frac s = Some (tok, rest) ->
  PyFloat.of_string tok = Ok x -> plus_class (Prim2SF x) = true.
Proof.
  rewrite number_token_unfold.
  destruct (span_digits s) as [ip r] eqn:Es.
  destruct (span_digits_spec _ _ _ Es) as [_ [Hip _]].
  destruct (ip =? "")%string eqn:Ene; [ discriminate | ].
  apply String.eqb_neq in Ene.
  destruct r as [ | c r'].
  - intros H. injection H as <- _. apply digits_plus; assumption.
  - destruct (c =? ".")%char.
    + destruct (span_digits r') as [fp r''] eqn:Ef.
      destruct (span_digits_spec _ _ _ Ef) as [_ [Hfp _]].
      destruct (frac && negb (fp =? "")%string).
      * intros H. injection H as <- _. apply fraction_plus; assumption.
      * intros H. injection H as <- _. apply digits_plus; assumption.
    + intros H. injection H as <- _. apply digits_plus; assumption.
Qed.

Lemma unit_group_plus (frac : bool) (letter : ascii) (s rest : string)
      (g : option string) (x : float) :
  unit_group frac letter s = (g, rest) ->
  group_value g = Ok x -> plus_class (Prim2SF x) = true.
Proof.
  unfold unit_group.
  destruct (number_token frac s) as [[tok [ | c r]] | ] eqn:E;
    try (intros H; injection H as <- _; intros Hx; injection Hx as <-;
         reflexivity).
  destruct (c =? letter)%char; intros H; injection H as <- _.
  - simpl. exact (number_token_plus _ _ _ _ x E).
  - intros Hx. injection Hx as <-. reflexivity.
Qed.

(** [hours * 60 + minutes + seconds / 60] of three values without a minus
    sign has none. *)
Lemma duration_plus (h m s : float) :
  plus_class (Prim2SF h) = true -> plus_class (Prim2SF m) = true ->
  plus_class (Prim2SF s) = true ->
  plus_class (Prim2SF (h * 60 + m + s / 60)%float) = true.
Proof.
  intros Hh Hm Hs.
  rewrite !add_spec, mul_spec, div_spec, Prim2SF_sixty.
  apply SFadd_plus; [ apply SFadd_plus | ].
  - apply SFmul_plus. exact Hh.
  - exact Hm.
  - apply SFdiv_plus. exact Hs.
Qed.

Lemma letters_plus (time : string) (x : float) :
  _parse_time_with_letters time = Ok x -> plus_class (Prim2SF x) = true.
Proof.
  unfold _parse_time_with_letters.
  destruct (unit_group true "h" time) as [gh s1] eqn:Eh.
  destruct (unit_group true "m" s1) as [gm s2] eqn:Em.
  destruct (unit_group false "s" s2) as [gs s3] eqn:Es.
  destruct (at_end s3); [ | discriminate ].
  intros H. bind_inv H. bind_inv H. bind_inv H. injection H as <-.
  apply duration_plus.
  - exact (unit_group_plus _ _ _ _ _ _ Eh Ha).
  - exact (unit_group_plus _ _ _ _ _ _ Em Ha0).
  - exact (unit_group_plus _ _ _ _ _ _ Es Ha1).
Qed.

Lemma plus_class_leb (x : float) :
  plus_class (Prim2SF x) = true -> (0 <=? x)%float = true.
Proof.
  intros H. rewrite leb_spec, Prim2SF_zero.
  destruct (Prim2SF x) as [[ | ] | [ | ] | | [ | ] m e];
    first [ discriminate H | reflexivity ].
Qed.

Lemma letter_time_not_negative (s : string) (x : float) :
  duration_letter (strip s) = true ->
  time_str_to_minutes s = Ok x -> (0 <=? x)%float = true.
Proof.
  intros Hl. unfold time_str_to_minutes.
  change (contains "h" (strip s) || contains "m" (strip s) || contains "s" (strip s))
    with (duration_letter (strip s)).
  rewrite Hl. intros H. apply plus_class_leb. exact (letters_plus _ _ H).
Qed.

(** C6, as the code has it: the value of a preset token of the unit table
    is finite and positive, and the value of a time in the letter form (a
    text with an h, m or s) is not negative and no NaN.  Nothing more
    holds: the other forms return what [float] reads, whatever its sign,
    and the letter form returns an infinity for a number too long. *)
Theorem parsed_values_in_range :
  (forall s km,
      dict_get (strip (lower s)) DISTANCE_UNITS = Some km ->
      distance_str_to_km s = Ok km /\ is_finite km = true /\ (0 <? km) = true) /\
  (forall s x,
      duration_letter (strip s) = true ->
      time_str_to_minutes s = Ok x -> (0 <=? x) = true).
Proof.
  split.
  - intros s km H. split; [ | apply (preset_values_positive _ _ H) ].
    unfold distance_str_to_km. rewrite H. reflexivity.
  - exact letter_time_not_negative.
Qed.

Lemma parsed_values_in_range_witness :
  (distance_str_to_km "Marathon" = Ok 42.195 /\
   is_finite 42.195 = true /\ (0 <? 42.195) = true) /\
  (0 <=? 90.5) = true.
Proof.
  destruct parsed_values_in_range as [Hpre Hlet]. split.
  - apply (Hpre "Marathon" 42.195). vm_compute. reflexivity.
  - apply (Hlet "1h30m30s" 90.5); vm_compute; reflexivity.
Defined.

End SignFacts.
